(** * The 4heat device client ([_4heat.py]): a shallow embedding

    The client of [homeassistant/components/4heat/_4heat.py] talks to a
    stove controller over TCP: it sends a list of string tokens, reads one
    bracketed answer, turns it into sensor readings and keeps a cache of
    them.  A flag, [_command_is_running], lets one command at a time reach
    the device.

    The file has these parts: the Python strings and values the code
    relies on ([PyStr], [Py], [Literal]), the device class ([Device],
    [Boot], [Write]), the asyncio event loop that runs its coroutines
    ([Loop]), the coordinator of [coordinator.py] ([Coordinator],
    [Platforms]), and the properties with their vocabulary. *)

From Stdlib Require Import ZArith List String Ascii Bool Arith Lia.
Import ListNotations.
Open Scope string_scope.
Set Warnings "-register-all".

(** ** Python strings *)

Module PyStr.

(** [s[n:]] *)
Fixpoint sdrop (n : nat) (s : string) : string :=
  match n, s with
  | O, _ => s
  | S _, EmptyString => EmptyString
  | S k, String _ r => sdrop k r
  end.

(** [s[:n]] *)
Fixpoint stake (n : nat) (s : string) : string :=
  match n, s with
  | O, _ => EmptyString
  | S _, EmptyString => EmptyString
  | S k, String c r => String c (stake k r)
  end.

(** [s[a:b]] for [0 <= a <= b] *)
Definition slice (a b : nat) (s : string) : string := stake (b - a) (sdrop a s).

(** The characters [int()] passes over around a number.  A character is
    a code point below 256.  Of those below 128 [int()] skips the ones
    of C's [isspace]: tab to carriage return (9..13) and the space (32);
    the separators 28..31, which [str.strip()] drops, it refuses.  From
    128 on it skips the white space of Unicode, which below 256 is the
    next line (133) and the no-break space (160). *)
Definition is_space (c : ascii) : bool :=
  let n := nat_of_ascii c in
  (((9 <=? n) && (n <=? 13)) || (n =? 32) || (n =? 133) || (n =? 160))%nat.

Fixpoint lstrip (s : string) : string :=
  match s with
  | EmptyString => EmptyString
  | String c r => if is_space c then lstrip r else s
  end.

Fixpoint rstrip (s : string) : string :=
  match s with
  | EmptyString => EmptyString
  | String c r =>
      match rstrip r with
      | EmptyString => if is_space c then EmptyString else String c EmptyString
      | r' => String c r'
      end
  end.

Definition is_digit (c : ascii) : bool :=
  let n := nat_of_ascii c in ((48 <=? n) && (n <=? 57))%nat.

Definition digit_val (c : ascii) : Z := Z.of_nat (nat_of_ascii c - 48).

(** The digits of a decimal literal: one or more digits, single
    underscores allowed between two digits.  [acc] is the value read so
    far, [after_digit] tells whether the previous character was a digit. *)
Fixpoint int_digits (s : string) (acc : Z) (after_digit : bool) : option Z :=
  match s with
  | EmptyString => if after_digit then Some acc else None
  | String c r =>
      if is_digit c then int_digits r (10 * acc + digit_val c)%Z true
      else if Ascii.eqb c "_" && after_digit then int_digits r acc false
      else None
  end.

(** [int(s)] on a string, base ten: [None] stands for [ValueError].
    Blanks on either side, a sign, then the digits.  Characters are code
    points below 256, where the decimal digits are [0] to [9]; text with
    code points from 256 on (more white space, the digits of other
    scripts) is outside this model.  So is the limit that CPython puts
    on the number of digits it converts, [MAX_STR_DIGITS] below: it
    matters to no token of twelve digits, and a statement that an item
    of an answer is converted says that the item is no longer than the
    limit. *)
Definition py_int (s : string) : option Z :=
  match rstrip (lstrip s) with
  | String c r =>
      if Ascii.eqb c "+" then int_digits r 0%Z false
      else if Ascii.eqb c "-" then option_map Z.opp (int_digits r 0%Z false)
      else int_digits (String c r) 0%Z false
  | EmptyString => None
  end.

(** The most digits that [int()] converts, and [str()] writes, unless
    the interpreter is configured otherwise ([sys.int_info]); a string
    of no more characters is within the limit. *)
Definition MAX_STR_DIGITS : nat := 4300.

Definition digit_char (d : Z) : ascii := ascii_of_nat (48 + Z.to_nat d).

(** Decimal digits of [n >= 0], most significant first, written in
    front of [acc]. *)
Fixpoint dec_digits (fuel : nat) (n : Z) (acc : string) : string :=
  match fuel with
  | O => acc
  | S f =>
      let acc' := String (digit_char (n mod 10)) acc in
      if (n / 10 =? 0)%Z then acc' else dec_digits f (n / 10) acc'
  end.

Definition str_nat (n : Z) : string :=
  dec_digits (S (Z.to_nat (Z.log2 n))) n EmptyString.

(** [str(z)] for an [int] *)
Definition str_int (z : Z) : string :=
  if (z <? 0)%Z then String "-" (str_nat (- z)) else str_nat z.

Fixpoint zeros (n : nat) : string :=
  match n with
  | O => EmptyString
  | S k => String "0" (zeros k)
  end.

(** [s.zfill(width)]: pads on the left with zeros, after the sign if
    there is one. *)
Definition zfill (width : nat) (s : string) : string :=
  let n := String.length s in
  if (width <=? n)%nat then s
  else match s with
       | String c r =>
           if Ascii.eqb c "+" || Ascii.eqb c "-"
           then String c (zeros (width - n) ++ r)
           else zeros (width - n) ++ s
       | EmptyString => zeros width
       end.

(** [for item in s]: the characters of a string, each as a string *)
Fixpoint chars (s : string) : list string :=
  match s with
  | EmptyString => []
  | String c r => String c EmptyString :: chars r
  end.

End PyStr.

Import PyStr.


(** ** Python values and exceptions *)

Module Py.

(** The values this client meets: what [ast.literal_eval] hands back for
    the answers of the device (strings, integers, [None], lists of them),
    the items of a query, and the flag [_command_is_running].  Literals
    of other types (floats, bytes, tuples, dictionaries, sets, Booleans)
    are outside this model.  A character is one [ascii]. *)
Inductive pyval :=
| PyNone
| PyInt (z : Z)
| PyStr (s : string)
| PyList (l : list pyval).

(** [a == b] *)
Fixpoint pyval_eqb (a b : pyval) : bool :=
  match a, b with
  | PyNone, PyNone => true
  | PyInt x, PyInt y => Z.eqb x y
  | PyStr x, PyStr y => String.eqb x y
  | PyList x, PyList y =>
      (fix all2 (x y : list pyval) : bool :=
         match x, y with
         | [], [] => true
         | a' :: x', b' :: y' => pyval_eqb a' b' && all2 x' y'
         | _, _ => false
         end) x y
  | _, _ => false
  end.

(** [bool(v)] *)
Definition truthy (v : pyval) : bool :=
  match v with
  | PyNone => false
  | PyInt z => negb (Z.eqb z 0)
  | PyStr s => negb (String.eqb s "")
  | PyList l => match l with [] => false | _ :: _ => true end
  end.

(** Modelled from the spec: the error classes of [exceptions.py], which
    is not among the sources.  [DeviceConnectionError], [InvalidMessage],
    [InvalidCommand] and [FourHeatCommandError] are the ones the spec
    lists, taken as unrelated subclasses of [FourHeatError]: an [except]
    clause for one does not catch another.  [DeviceConnectionError]
    carries the error it was raised from, or nothing for [Got empty
    answer].  The other constructors are the built-in exceptions the code
    can raise, one constructor for each class and none for the relations
    between the classes ([RecursionError] is a subclass of
    [RuntimeError]); [LiteralError] stands for whatever
    [ast.literal_eval] raises. *)
Inductive exn :=
| OSError (msg : string)
| LiteralError
| ValueError
| TypeError
| IndexError
| KeyError (key : string)
| AssertionError
| RecursionError
| AttributeError (msg : string)
| DeviceConnectionError (cause : option exn)
| InvalidMessage
| InvalidCommand (command : string)
| FourHeatCommandError (cause : exn).

(** How a call of a coroutine of the client stands when control goes
    back to the event loop: it returned, it raised, or it is suspended in
    [await asyncio.sleep(1)] of the polling loop of [send_and_receive]. *)
Inductive outcome (A : Type) :=
| Return (a : A)
| Raise (e : exn)
| Waiting.

Arguments Return {A} a.
Arguments Raise {A} e.
Arguments Waiting {A}.

(** [v[0]] *)
Definition getitem0 (v : pyval) : exn + pyval :=
  match v with
  | PyList (x :: _) => inr x
  | PyList [] => inl IndexError
  | PyStr (String c _) => inr (PyStr (String c EmptyString))
  | PyStr EmptyString => inl IndexError
  | PyInt _ | PyNone => inl TypeError
  end.

(** [list(v[n:])], the items a [for] loop over the slice sees *)
Definition items_from (n : nat) (v : pyval) : exn + list pyval :=
  match v with
  | PyList l => inr (skipn n l)
  | PyStr s => inr (map PyStr (chars (sdrop n s)))
  | PyInt _ | PyNone => inl TypeError
  end.

(** [v[a:b]] *)
Definition py_slice (a b : nat) (v : pyval) : exn + pyval :=
  match v with
  | PyList l => inr (PyList (firstn (b - a) (skipn a l)))
  | PyStr s => inr (PyStr (slice a b s))
  | PyInt _ | PyNone => inl TypeError
  end.

(** [int(v[n:])] *)
Definition int_from (n : nat) (v : pyval) : exn + Z :=
  match v with
  | PyStr s => match py_int (sdrop n s) with
               | Some z => inr z
               | None => inl ValueError
               end
  | PyList _ | PyInt _ | PyNone => inl TypeError
  end.

(** [l[n]] on a list *)
Definition list_item {A : Type} (n : nat) (l : list A) : exn + A :=
  match nth_error l n with
  | Some x => inr x
  | None => inl IndexError
  end.

(** [a and b], where evaluating either side may raise *)
Definition and_then (a b : exn + bool) : exn + bool :=
  match a with
  | inl e => inl e
  | inr false => inr false
  | inr true => b
  end.

(** A [dict] with string keys, in insertion order. *)
Definition dict (V : Type) : Type := list (string * V).

Fixpoint dict_get {V : Type} (k : string) (m : dict V) : option V :=
  match m with
  | [] => None
  | (k', v) :: r => if String.eqb k k' then Some v else dict_get k r
  end.

(** [k in m] *)
Definition dict_mem {V : Type} (k : string) (m : dict V) : bool :=
  match dict_get k m with
  | Some _ => true
  | None => false
  end.

(** [m[k] = v]: a known key keeps its place, a new one goes last. *)
Fixpoint dict_set {V : Type} (k : string) (v : V) (m : dict V) : dict V :=
  match m with
  | [] => [(k, v)]
  | (k', v') :: r =>
      if String.eqb k k' then (k', v) :: r else (k', v') :: dict_set k v r
  end.

Definition dict_keys {V : Type} (m : dict V) : list string := map fst m.

End Py.

Import Py.

(** ** A fragment of [ast.literal_eval] *)

Module Literal.

(** The answers of the device are lists of quoted strings and decimal
    integers.  [literal_eval_flat] reads such texts: an opening bracket,
    items separated by commas (a trailing comma is allowed), a closing
    bracket, spaces in between; strings in single or double quotes with
    no backslash inside; integers as plain digits with a sign or none.
    On other texts it answers [None].  It serves the worked examples;
    the theorems on the client hold for every [literal_eval]. *)

Fixpoint skip_ws (s : string) : string :=
  match s with
  | String c r => if Ascii.eqb c " " then skip_ws r else s
  | EmptyString => EmptyString
  end.

Fixpoint read_quoted (q : ascii) (s : string) : option (string * string) :=
  match s with
  | EmptyString => None
  | String c r =>
      if Ascii.eqb c q then Some (EmptyString, r)
      else if Ascii.eqb c "\" then None
      else match read_quoted q r with
           | Some (t, rest) => Some (String c t, rest)
           | None => None
           end
  end.

Fixpoint read_digits (s : string) (acc : Z) : Z * string :=
  match s with
  | String c r =>
      if is_digit c then read_digits r (10 * acc + digit_val c)%Z else (acc, s)
  | EmptyString => (acc, s)
  end.

(** An unsigned integer literal: digits, with no zero in front unless
    all of them are zeros. *)
Definition read_number (s : string) : option (Z * string) :=
  match s with
  | EmptyString => None
  | String c _ =>
      if is_digit c then
        let (n, rest) := read_digits s 0%Z in
        if Ascii.eqb c "0" && negb (Z.eqb n 0) then None else Some (n, rest)
      else None
  end.

Definition read_item (s : string) : option (pyval * string) :=
  match s with
  | EmptyString => None
  | String c r =>
      if Ascii.eqb c "'" || Ascii.eqb c (ascii_of_nat 34) then
        match read_quoted c r with
        | Some (t, rest) => Some (PyStr t, rest)
        | None => None
        end
      else if Ascii.eqb c "-" then
        match read_number r with
        | Some (n, rest) => Some (PyInt (- n), rest)
        | None => None
        end
      else if Ascii.eqb c "+" then
        match read_number r with
        | Some (n, rest) => Some (PyInt n, rest)
        | None => None
        end
      else
        match read_number s with
        | Some (n, rest) => Some (PyInt n, rest)
        | None => None
        end
  end.

Fixpoint read_items (fuel : nat) (s : string) (acc : list pyval)
  : option (list pyval * string) :=
  match fuel with
  | O => None
  | S f =>
      match skip_ws s with
      | EmptyString => None
      | String c r =>
          if Ascii.eqb c "]" then Some (rev acc, r)
          else
            match read_item (String c r) with
            | None => None
            | Some (v, rest) =>
                match skip_ws rest with
                | String c' r' =>
                    if Ascii.eqb c' "," then read_items f r' (v :: acc)
                    else if Ascii.eqb c' "]" then Some (rev (v :: acc), r')
                    else None
                | EmptyString => None
                end
            end
      end
  end.

Definition literal_eval_flat (s : string) : option pyval :=
  match skip_ws s with
  | String c r =>
      if Ascii.eqb c "[" then
        match read_items (S (String.length r)) r [] with
        | Some (l, rest) =>
            match skip_ws rest with
            | EmptyString => Some (PyList l)
            | String _ _ => None
            end
        | None => None
        end
      else None
  | EmptyString => None
  end.

End Literal.

Import Literal.

(** ** The device class *)

Module Device.

(** One reading of an answer: the dictionary with the keys [id],
    [sensor_type] and [value] that [send_and_receive] builds. *)
Record reading := mkReading {
  r_id : string;
  r_sensor_type : string;
  r_value : Z
}.

(** What [send_and_receive] returns: the keys [result] and [sensors]. *)
Record data := mkData {
  d_result : pyval;
  d_sensors : list reading
}.

(** An entry of [self.sensors].  [initialize] and [async_update_data]
    create entries with the keys [sensor_type] and [value];
    [dict.update] with a reading adds the key [id]. *)
Record entry := mkEntry {
  e_id : option string;
  e_sensor_type : string;
  e_value : Z
}.

(** [self.fourheat], as [update_fourheat] fills it. *)
Record fourheat_info := mkInfo {
  i_model : string;
  i_serial : option string;
  i_manufacturer : string
}.

(** The attributes of [FourHeatDevice] the coroutines read and write.
    [name], [host], [port] and [mode] only reach the socket and the log;
    they are part of the transport [net] below. *)
Record FourHeatDevice := mkDevice {
  commands : dict (list pyval);
  fourheat : option fourheat_info;
  _settings : option (dict pyval);
  sensors : option (dict entry);
  initialized : bool;
  _last_error : option exn;
  _command_is_running : pyval
}.

(** [__init__], with [CONF_MODES[CONF_MODE[mode]]] already looked up *)
Definition init (table : dict (list pyval)) : FourHeatDevice :=
  mkDevice table None None None false None (PyStr "").

Definition set_sensors (m : option (dict entry)) (d : FourHeatDevice) :=
  mkDevice (commands d) (fourheat d) (_settings d) m (initialized d)
           (_last_error d) (_command_is_running d).

Definition set_last_error (e : option exn) (d : FourHeatDevice) :=
  mkDevice (commands d) (fourheat d) (_settings d) (sensors d) (initialized d)
           e (_command_is_running d).

Definition set_running (v : pyval) (d : FourHeatDevice) :=
  mkDevice (commands d) (fourheat d) (_settings d) (sensors d) (initialized d)
           (_last_error d) v.

(** What happened on the socket and around the flag, for the record:
    an exchange with the device began or ended, the [except] clause of
    [send_and_receive] created the task [_i_am_lazy], that task reset
    the flag.  Each carries the time of the event loop, in seconds. *)
Inductive io_event :=
| Began (t : nat) (query : list pyval)
| Ended (t : nat)
| Cooldown (t : nat)
| Woke (t : nat).

(** The device object in its event loop: the clock, the wake-up times of
    the [_i_am_lazy] tasks that are still asleep, and the record of
    events, latest first. *)
Record World := mkWorld {
  self : FourHeatDevice;
  clock : nat;
  lazy_tasks : list nat;
  trace : list io_event
}.

Definition with_self (f : FourHeatDevice -> FourHeatDevice) (w : World) :=
  mkWorld (f (self w)) (clock w) (lazy_tasks w) (trace w).

Definition log (e : io_event) (w : World) :=
  mkWorld (self w) (clock w) (lazy_tasks w) (e :: trace w).

(** The exchange is over, [dt] after it began. *)
Definition ended (dt : nat) (w : World) :=
  mkWorld (self w) (clock w + dt) (lazy_tasks w) (Ended (clock w + dt) :: trace w).

(** The number of exchanges begun so far *)
Fixpoint exchanges (tr : list io_event) : nat :=
  match tr with
  | [] => 0
  | Began _ _ :: r => S (exchanges r)
  | _ :: r => exchanges r
  end.

(** The gate is busy when the flag is true in the sense of [bool()]. *)
Definition busy (w : World) : bool := truthy (_command_is_running (self w)).

(** What one exchange on the socket gives: an exception of [socket],
    [connect], [send], [recv] or [decode], or the decoded text; and the
    time [dt] it took, during which the loop stands still, the calls
    being the blocking ones. *)
Inductive sock_outcome :=
| SockRaise (dt : nat) (msg : string)
| Recv (dt : nat) (text : string).

(** The constants of [const.py] that the coroutines use, other than the
    names of the commands.  [const.py] is not among the sources: they are
    parameters. *)
Record Const := mkConst {
  RESULT_ERROR : string;
  RESULT_INFO : string;
  RESULT_OK : string;
  INFO_QUERY : list pyval;
  RETRY_UPDATE_SLEEP : nat;
  DEVICE_STATE_SENSOR : string;
  STATES_OFF : list Z
}.

(** Modelled from the spec: the names of the commands in [const.py],
    which is not among the sources; the spec names the commands [info],
    [get], [set], [on], [off] and [unblock]. *)
Definition INFO_COMMAND := "info".

(** Modelled from the spec: [GET_COMMAND] of [const.py], as above. *)
Definition GET_COMMAND := "get".

(** Modelled from the spec: [SET_COMMAND] of [const.py], as above. *)
Definition SET_COMMAND := "set".

(** Modelled from the spec: [ON_COMMAND] of [const.py], as above. *)
Definition ON_COMMAND := "on".

(** Modelled from the spec: [OFF_COMMAND] of [const.py], as above. *)
Definition OFF_COMMAND := "off".

(** Modelled from the spec: [UNBLOCK_COMMAND] of [const.py], as above. *)
Definition UNBLOCK_COMMAND := "unblock".

(** [STATE_ON] and [STATE_OFF] of [homeassistant.const] *)
Definition STATE_ON := "on".
Definition STATE_OFF := "off".

(** The body of the loop over [result[2:]]: an item of more than six
    characters gives a reading, a shorter one nothing. *)
Definition decode_sensor (sensor : pyval) : exn + option reading :=
  match sensor with
  | PyStr s =>
      if (6 <? String.length s)%nat then
        match py_int (sdrop 7 s) with
        | Some v => inr (Some (mkReading (slice 1 6 s) (slice 0 1 s) v))
        | None => inl ValueError
        end
      else inr None
  | PyList l => if (6 <? List.length l)%nat then inl TypeError else inr None
  | PyInt _ | PyNone => inl TypeError
  end.

Fixpoint parse_sensors (l : list pyval) : exn + list reading :=
  match l with
  | [] => inr []
  | sensor :: rest =>
      match decode_sensor sensor with
      | inl e => inl e
      | inr o =>
          match parse_sensors rest with
          | inl e => inl e
          | inr rs => inr (match o with Some r => r :: rs | None => rs end)
          end
      end
  end.

(** [literal_eval(result)] and what follows it up to [return data] *)
Definition parse (literal_eval : string -> option pyval) (text : string)
  : exn + data :=
  match literal_eval text with
  | None => inl LiteralError
  | Some result =>
      match getitem0 result with
      | inl e => inl e
      | inr r0 =>
          match items_from 2 result with
          | inl e => inl e
          | inr rest =>
              match parse_sensors rest with
              | inl e => inl e
              | inr rs => inr (mkData r0 rs)
              end
          end
      end
  end.

(** [f"{typeChar}{attr}{str(value).zfill(12)}"] *)
Definition token (typeChar attr : string) (value : Z) : string :=
  typeChar ++ attr ++ zfill 12 (str_int value).

Section Client.

(** The constants, the device at the other end of the socket (the answer
    to the [n]-th exchange, given the query) and [ast.literal_eval]
    ([None] when it raises). *)
Variable K : Const.
Variable net : nat -> list pyval -> sock_outcome.
Variable literal_eval : string -> option pyval.

(** [_i_am_lazy], once its sleep is over *)
Definition _i_am_lazy (w : World) : World :=
  log (Woke (clock w)) (with_self (set_running PyNone) w).

(** The clause [except Exception as err] of [send_and_receive]:
    [create_task] puts [_i_am_lazy] to sleep until
    [clock + RETRY_UPDATE_SLEEP]. *)
Definition except_Exception (w : World) (err : exn) : World * outcome data :=
  let e := DeviceConnectionError (Some err) in
  (mkWorld (set_last_error (Some e) (self w)) (clock w)
           (lazy_tasks w ++ [clock w + RETRY_UPDATE_SLEEP K])%list
           (Cooldown (clock w) :: trace w),
   Raise e).

(** [send_and_receive].  When the flag is set the caller sleeps for a
    second and tests again: [Waiting].  Otherwise the rest runs with no
    [await] in it, the socket calls being the blocking ones. *)
Definition send_and_receive (w : World) (query : list pyval)
  : World * outcome data :=
  if busy w then (w, Waiting)
  else
    let w1 := log (Began (clock w) query)
                  (with_self (set_running (PyList query)) w) in
    match net (exchanges (trace w)) query with
    | SockRaise dt msg => except_Exception (ended dt w1) (OSError msg)
    | Recv dt text =>
        let w2 := ended dt w1 in
        if String.eqb text "" then
          except_Exception w2 (DeviceConnectionError None)
        else
          match parse literal_eval text with
          | inl e => except_Exception w2 e
          | inr d =>
              (with_self (fun s => set_running PyNone (set_last_error None s)) w2,
               Return d)
          end
    end.

(** What [async_send_command] returns: the parsed answer or [True]. *)
Inductive cmd_result :=
| CmdData (d : data)
| CmdTrue.

(** The acknowledgement tests of [async_send_command] after the command
    name: [result["result"] == query[0] and
    result["sensors"][0]["id"] == query[2][1:6] and ...]. *)
Definition ack_matches (result : data) (query : list pyval)
           (value : list pyval -> exn + Z) (sensor_type : string) : exn + bool :=
  and_then
    (match list_item 0 query with
     | inl e => inl e
     | inr q0 => inr (pyval_eqb (d_result result) q0)
     end)
    (match list_item 0 (d_sensors result) with
     | inl e => inl e
     | inr s0 =>
         and_then
           (match list_item 2 query with
            | inl e => inl e
            | inr q2 =>
                match py_slice 1 6 q2 with
                | inl e => inl e
                | inr sl => inr (pyval_eqb (PyStr (r_id s0)) sl)
                end
            end)
           (and_then
              (match value query with
               | inl e => inl e
               | inr v => inr (Z.eqb (r_value s0) v)
               end)
              (inr (String.eqb (r_sensor_type s0) sensor_type)))
     end).

(** [int(query[2][7:])] *)
Definition written_value (query : list pyval) : exn + Z :=
  match list_item 2 query with
  | inl e => inl e
  | inr q2 => int_from 7 q2
  end.

(** [async_send_command].  The test [result == RESULT_ERROR] of the
    [info] branch compares a dictionary with a string and is false, so
    that branch returns the answer. *)
Definition async_send_command (w : World) (command : string)
           (arg : option (list pyval)) : World * outcome cmd_result :=
  match dict_get command (commands (self w)) with
  | None => (w, Raise (InvalidCommand command))
  | Some base =>
      let query := match arg with
                   | Some (a :: l) => (base ++ a :: l)%list
                   | Some [] | None => base
                   end in
      match send_and_receive w query with
      | (w', Waiting) => (w', Waiting)
      | (w', Raise (DeviceConnectionError c)) =>
          (w', Raise (FourHeatCommandError (DeviceConnectionError c)))
      | (w', Raise e) => (w', Raise e)
      | (w', Return result) =>
          if String.eqb command INFO_COMMAND then (w', Return (CmdData result))
          else if String.eqb command GET_COMMAND then (w', Return (CmdData result))
          else
            match (if String.eqb command SET_COMMAND
                   then ack_matches result query written_value "A"
                   else inr false) with
            | inl e => (w', Raise e)
            | inr true => (w', Return CmdTrue)
            | inr false =>
                match (if String.eqb command ON_COMMAND
                          || String.eqb command OFF_COMMAND
                          || String.eqb command UNBLOCK_COMMAND
                       then ack_matches result query (fun _ => inr 0%Z) "I"
                       else inr false) with
                | inl e => (w', Raise e)
                | inr true => (w', Return CmdTrue)
                | inr false => (w', Raise InvalidMessage)
                end
            end
      end
  end.

(** [self.sensors[attr]["value"] = value] *)
Definition store_value (w : World) (attr : string) (value : Z)
  : exn + World :=
  match sensors (self w) with
  | None => inl TypeError
  | Some m =>
      match dict_get attr m with
      | None => inl (KeyError attr)
      | Some e =>
          inr (with_self
                 (set_sensors
                    (Some (dict_set attr
                             (mkEntry (e_id e) (e_sensor_type e) value) m)))
                 w)
      end
  end.

(** The clause [except (FourHeatCommandError, InvalidMessage,
    InvalidCommand)] of [async_set_state] and [async_get_state] *)
Definition wrap_command_error (e : exn) : exn :=
  match e with
  | FourHeatCommandError _ | InvalidMessage | InvalidCommand _ =>
      FourHeatCommandError e
  | _ => e
  end.

(** [async_set_state] *)
Definition async_set_state (w : World) (attr : string) (value : Z)
  : World * outcome bool :=
  match sensors (self w) with
  | None => (w, Raise TypeError)
  | Some m =>
      match dict_get attr m with
      | None =>
          (w, Raise (AttributeError ("Device doesn't have such attribute " ++ attr)))
      | Some e =>
          if String.eqb (e_sensor_type e) "J" then
            (w, Raise (AttributeError "Attribute is read only"))
          else
            match async_send_command w "set"
                    (Some [PyStr (token "B" attr value)]) with
            | (w', Waiting) => (w', Waiting)
            | (w', Raise err) => (w', Raise (wrap_command_error err))
            | (w', Return _) =>
                match store_value w' attr value with
                | inl err => (w', Raise (wrap_command_error err))
                | inr w'' => (w'', Return true)
                end
            end
      end
  end.

(** The argument of [async_get_state]: one name or a list of names *)
Inductive attr_arg :=
| AttrStr (attr : string)
| AttrList (attrs : list string).

(** [for item in attr] *)
Definition attr_items (attr : attr_arg) : list string :=
  match attr with
  | AttrStr s => chars s
  | AttrList l => l
  end.

(** The loop of [async_get_state] over [result["sensors"]]: the value,
    then the type, of the entry of each reading; [KeyError] at the first
    reading with no entry, the earlier ones staying written. *)
Fixpoint store_readings (m : dict entry) (rs : list reading)
  : dict entry * option exn :=
  match rs with
  | [] => (m, None)
  | r :: rest =>
      match dict_get (r_id r) m with
      | None => (m, Some (KeyError (r_id r)))
      | Some e =>
          store_readings
            (dict_set (r_id r) (mkEntry (e_id e) (r_sensor_type r) (r_value r)) m)
            rest
      end
  end.

(** The end of [async_get_state]: the command [get] and the loop that
    writes the answer back.  [self.sensors[...]] on [None] is a
    [TypeError], as is [result["sensors"]] on [True]. *)
Definition get_and_store (w : World) (arg : list pyval)
  : World * outcome data :=
  match async_send_command w "get" (Some arg) with
  | (w', Waiting) => (w', Waiting)
  | (w', Raise err) => (w', Raise (wrap_command_error err))
  | (w', Return CmdTrue) => (w', Raise TypeError)
  | (w', Return (CmdData result)) =>
      match sensors (self w'), d_sensors result with
      | None, [] => (w', Return result)
      | None, _ :: _ => (w', Raise TypeError)
      | Some m', rs =>
          match store_readings m' rs with
          | (m'', None) =>
              (with_self (set_sensors (Some m'')) w', Return result)
          | (m'', Some err) =>
              (with_self (set_sensors (Some m'')) w',
               Raise (wrap_command_error err))
          end
      end
  end.

(** [k in self.sensors] *)
Definition in_sensors (w : World) (k : string) : exn + bool :=
  match sensors (self w) with
  | None => inl TypeError
  | Some m => inr (dict_mem k m)
  end.

(** [all(item in self.sensors for item in items)] *)
Fixpoint all_in_sensors (w : World) (items : list string) : exn + bool :=
  match items with
  | [] => inr true
  | item :: rest =>
      match in_sensors w item with
      | inl e => inl e
      | inr false => inr false
      | inr true => all_in_sensors w rest
      end
  end.

(** [async_get_state] from its second test on, which iterates over
    [attr] whatever its type.  For a list of names each token goes into
    a list of its own: [arg.append([f"I{item}..."])]. *)
Definition get_checked (w : World) (attr : attr_arg) : World * outcome data :=
  match all_in_sensors w (attr_items attr) with
  | inl e => (w, Raise e)
  | inr false =>
      (w, Raise (AttributeError
                   "Device doesn't have one of the attributes asked"))
  | inr true =>
      get_and_store w
        (match attr with
         | AttrList l => map (fun item => PyList [PyStr (token "I" item 0)]) l
         | AttrStr s => [PyStr (token "I" s 0)]
         end)
  end.

(** [async_get_state] *)
Definition async_get_state (w : World) (attr : attr_arg)
  : World * outcome data :=
  match attr with
  | AttrStr s =>
      match in_sensors w s with
      | inl e => (w, Raise e)
      | inr false =>
          (w, Raise (AttributeError
                       ("Device doesn't have such attribute " ++ s)))
      | inr true => get_checked w attr
      end
  | AttrList _ => get_checked w attr
  end.

(** The loop of [async_update_data] over [result["sensors"]]: a new
    entry for an unknown [id], [dict.update] with the reading for a
    known one. *)
Fixpoint merge_readings (m : dict entry) (rs : list reading) : dict entry :=
  match rs with
  | [] => m
  | r :: rest =>
      merge_readings
        (match dict_get (r_id r) m with
         | None => dict_set (r_id r) (mkEntry None (r_sensor_type r) (r_value r)) m
         | Some _ =>
             dict_set (r_id r)
                      (mkEntry (Some (r_id r)) (r_sensor_type r) (r_value r)) m
         end)
        rest
  end.

(** [async_update_data].  The second test reads
    [result["result"] == RESULT_INFO or RESULT_OK]: its right operand is
    the string [RESULT_OK] itself.  A [DeviceConnectionError] of the
    first exchange is raised again as [self._last_error], which is that
    same error. *)
Definition except_DeviceConnectionError {A : Type} (w : World) (e : exn)
  : World * outcome A :=
  match e with
  | DeviceConnectionError _ =>
      match _last_error (self w) with
      | Some e' => (w, Raise e')
      | None => (w, Raise TypeError)
      end
  | _ => (w, Raise e)
  end.

Definition async_update_data (w : World) : World * outcome unit :=
  match send_and_receive w (INFO_QUERY K) with
  | (w1, Waiting) => (w1, Waiting)
  | (w1, Raise e) => except_DeviceConnectionError w1 e
  | (w1, Return result) =>
      if pyval_eqb (d_result result) (PyStr (RESULT_ERROR K)) then
        match sensors (self w1) with
        | None | Some [] => (w1, Raise AssertionError)
        | Some m =>
            let error_query :=
              map (fun sensor => PyStr (token "I" sensor 0)) (dict_keys m) in
            match async_send_command w1 "get" (Some error_query) with
            | (w2, Waiting) => (w2, Waiting)
            | (w2, Raise e) => except_DeviceConnectionError w2 e
            | (w2, Return _) => (w2, Return tt)
            end
        end
      else if pyval_eqb (d_result result) (PyStr (RESULT_INFO K))
              || truthy (PyStr (RESULT_OK K)) then
        match sensors (self w1), d_sensors result with
        | None, _ :: _ => (w1, Raise TypeError)
        | None, [] => (with_self (set_last_error None) w1, Return tt)
        | Some m, rs =>
            (with_self
               (fun s => set_last_error None
                           (set_sensors (Some (merge_readings m rs)) s))
               w1,
             Return tt)
        end
      else (w1, Return tt)
  end.

(** [__getattr__], called for a name that is no attribute of the
    object.  For a name with no entry the message of the error reads
    [self.device.model]: [device] is no attribute either, so
    [__getattr__] is entered again, without end unless [device] has an
    entry, whose value then has no attribute [model]. *)
Definition getattr (d : FourHeatDevice) (attr : string) : outcome (option Z) :=
  if negb (initialized d) then Return None
  else
    match sensors d with
    | None => Raise TypeError
    | Some m =>
        match dict_get attr m with
        | Some e => Return (Some (e_value e))
        | None =>
            if dict_mem "device" m
            then Raise (AttributeError "'int' object has no attribute 'model'")
            else Raise RecursionError
        end
    end.

(** [info] *)
Definition info (d : FourHeatDevice) (attr : string) : outcome (option entry) :=
  if negb (initialized d) then Return None
  else
    match sensors d with
    | None => Raise TypeError
    | Some m =>
        match dict_get attr m with
        | Some e => Return (Some e)
        | None => Raise (KeyError attr)
        end
    end.

(** The property [settings] *)
Definition settings (d : FourHeatDevice) : outcome (option (dict pyval)) :=
  if negb (initialized d) then Return None else Return (_settings d).

(** The property [status]; [DEVICE_STATE_SENSOR] is the name of a
    sensor, looked up through [__getattr__]. *)
Definition status (d : FourHeatDevice) : outcome (option string) :=
  if negb (initialized d) then Return None
  else
    match getattr d (DEVICE_STATE_SENSOR K) with
    | Return (Some v) =>
        Return (Some (if existsb (Z.eqb v) (STATES_OFF K)
                      then STATE_OFF else STATE_ON))
    | Return None => Return (Some STATE_ON)
    | Raise e => Raise e
    | Waiting => Waiting
    end.

(** The property [model] *)
Definition model (d : FourHeatDevice) : outcome (option string) :=
  if negb (initialized d) then Return None
  else
    match fourheat d with
    | None => Raise TypeError
    | Some i => Return (Some (i_model i))
    end.

(** The property [serial]: [self.fourheat["serial"] or None] *)
Definition serial (d : FourHeatDevice) : outcome (option string) :=
  if negb (initialized d) then Return None
  else
    match fourheat d with
    | None => Raise TypeError
    | Some i =>
        Return (match i_serial i with
                | Some s => if String.eqb s EmptyString then None else Some s
                | None => None
                end)
    end.

(** The property [manufacturer]; [assert self.fourheat] comes first. *)
Definition manufacturer (d : FourHeatDevice) : outcome (option string) :=
  if negb (initialized d) then Return None
  else
    match fourheat d with
    | None => Raise AssertionError
    | Some i =>
        Return (if String.eqb (i_manufacturer i) EmptyString
                then None else Some (i_manufacturer i))
    end.

(** The property [attributes] *)
Definition attributes (d : FourHeatDevice) : outcome (option (dict entry)) :=
  if negb (initialized d) then Return None else Return (sensors d).

End Client.

End Device.

(** ** The event loop *)

Module Loop.

Import Device.
Local Open Scope nat_scope.
Local Open Scope list_scope.

(** The coroutines that concurrent callers start on one device.  Both
    reach their first [await] in the polling loop of [send_and_receive],
    and what they do before it changes nothing, so a suspended call is
    resumed by running it again.  The other coroutines of the class reach
    the device through these two, with no [await] of their own. *)
Inductive call :=
| CallSend (query : list pyval)
| CallCommand (command : string) (arg : option (list pyval)).

(** The loop: the device and its tasks, the callers asleep in
    [asyncio.sleep(1)] with their wake-up times, and the calls that are
    over with their results, latest first. *)
Record Loop := mkLoop {
  world : World;
  sleepers : list (nat * call);
  finished : list (call * outcome cmd_result)
}.

(** What the scheduler does next: let time pass, start a new call, wake
    the [i]-th sleeping caller, wake the [i]-th [_i_am_lazy] task. *)
Inductive sched :=
| Tick (dt : nat)
| Spawn (c : call)
| Resume (i : nat)
| Fire (i : nat).

Fixpoint remove_nth {A : Type} (i : nat) (l : list A) : list A :=
  match i, l with
  | _, [] => []
  | O, _ :: r => r
  | S k, x :: r => x :: remove_nth k r
  end.

Section Scheduler.

Variable K : Const.
Variable net : nat -> list pyval -> sock_outcome.
Variable literal_eval : string -> option pyval.

(** A call runs from where it stands to its next [await] or to its end. *)
Definition run_call (w : World) (c : call) : World * outcome cmd_result :=
  match c with
  | CallSend query =>
      match send_and_receive K net literal_eval w query with
      | (w', Return d) => (w', Return (CmdData d))
      | (w', Raise e) => (w', Raise e)
      | (w', Waiting) => (w', Waiting)
      end
  | CallCommand command arg =>
      async_send_command K net literal_eval w command arg
  end.

Definition resume (l : Loop) (slept : list (nat * call)) (c : call) : Loop :=
  match run_call (world l) c with
  | (w', Waiting) => mkLoop w' (slept ++ [(clock w' + 1, c)]) (finished l)
  | (w', r) => mkLoop w' slept ((c, r) :: finished l)
  end.

(** One step of the loop; [None] when the step cannot be taken: a task
    wakes no earlier than the time it asked for. *)
Definition step (l : Loop) (s : sched) : option Loop :=
  match s with
  | Tick dt =>
      let w := world l in
      Some (mkLoop (mkWorld (self w) (clock w + dt) (lazy_tasks w) (trace w))
                   (sleepers l) (finished l))
  | Spawn c => Some (resume l (sleepers l) c)
  | Resume i =>
      match nth_error (sleepers l) i with
      | Some (wake, c) =>
          if wake <=? clock (world l)
          then Some (resume l (remove_nth i (sleepers l)) c)
          else None
      | None => None
      end
  | Fire i =>
      let w := world l in
      match nth_error (lazy_tasks w) i with
      | Some wake =>
          if wake <=? clock w
          then Some (mkLoop
                       (_i_am_lazy
                          (mkWorld (self w) (clock w)
                                   (remove_nth i (lazy_tasks w)) (trace w)))
                       (sleepers l) (finished l))
          else None
      | None => None
      end
  end.

Fixpoint run (l : Loop) (ss : list sched) : option Loop :=
  match ss with
  | [] => Some l
  | s :: rest =>
      match step l s with
      | Some l' => run l' rest
      | None => None
      end
  end.

End Scheduler.

(** A device just built, in a loop that has done nothing yet *)
Definition boot (table : dict (list pyval)) : Loop :=
  mkLoop (mkWorld (init table) 0 [] []) [] [].

(** The number of exchanges in flight after a record of events, [None]
    if at some moment there were two, or an end with none begun. *)
Fixpoint in_flight (tr : list io_event) : option nat :=
  match tr with
  | [] => Some 0
  | e :: older =>
      match in_flight older with
      | None => None
      | Some n =>
          match e with
          | Began _ _ => if n =? 0 then Some 1 else None
          | Ended _ => if n =? 1 then Some 0 else None
          | Cooldown _ | Woke _ => Some n
          end
      end
  end.

(** The time of the cooldown that is running after a record of events:
    the latest [Cooldown] if no [Woke] came after it. *)
Fixpoint pending_cooldown (tr : list io_event) : option nat :=
  match tr with
  | [] => None
  | Cooldown t :: _ => Some t
  | Woke _ :: _ => None
  | _ :: older => pending_cooldown older
  end.

(** The query a call sends, when its command is in the table *)
Definition query_of (table : dict (list pyval)) (c : call)
  : option (list pyval) :=
  match c with
  | CallSend q => Some q
  | CallCommand command arg =>
      match dict_get command table with
      | None => None
      | Some base =>
          Some (match arg with
                | Some (a :: l) => (base ++ a :: l)%list
                | Some [] | None => base
                end)
      end
  end.

(** No call of a schedule sends the empty query. *)
Definition sends_tokens (table : dict (list pyval)) (s : sched) : bool :=
  match s with
  | Spawn c =>
      match query_of table c with
      | Some [] => false
      | _ => true
      end
  | _ => true
  end.

End Loop.

(** ** Sample constants for the worked examples

    [const.py] is not among the sources; these values only serve to run
    the definitions. *)

Module Sample.

Import Device Loop.

Definition K0 : Const :=
  mkConst "E" "I" "O" [PyStr "I"] 5 "00001" [0%Z].

Definition table0 : dict (list pyval) :=
  [("info", [PyStr "I"]);
   ("get", [PyStr "I"]);
   ("set", [PyStr "A"; PyStr "1"]);
   ("on", [PyStr "I"; PyStr "1"; PyStr "I00100000000000000"]);
   ("off", [PyStr "I"; PyStr "1"; PyStr "I00200000000000000"]);
   ("unblock", [PyStr "I"; PyStr "1"; PyStr "I00300000000000000"])].

(** A device that gives the same answer to every exchange *)
Definition always (o : sock_outcome) : nat -> list pyval -> sock_outcome :=
  fun _ _ => o.

(** A device that answers from a script, then times out *)
Definition script (os : list sock_outcome) : nat -> list pyval -> sock_outcome :=
  fun n _ => nth n os (SockRaise 10 "timed out").

(** A world with the given cache, gate open *)
Definition world0 (m : option (dict entry)) : World :=
  mkWorld (mkDevice table0 None None m true None PyNone) 0 [] [].

End Sample.

(** ** Starting a device: [initialize] and [create] *)

Module Boot.

Import Device.
Local Open Scope list_scope.

(** The device object with the two attributes only [initialize] uses:
    the guard [_initializing] and [_status], the value of the state
    sensor read at the end. *)
Record Instance := mkInstance {
  obj : World;
  _initializing : bool;
  _status : option Z
}.

Definition set_initialized (b : bool) (d : FourHeatDevice) :=
  mkDevice (commands d) (fourheat d) (_settings d) (sensors d) b
           (_last_error d) (_command_is_running d).

Definition set_fourheat (i : option fourheat_info) (d : FourHeatDevice) :=
  mkDevice (commands d) i (_settings d) (sensors d) (initialized d)
           (_last_error d) (_command_is_running d).

(** Modelled from the spec: [FourHeatError], the base class of
    [exceptions.py], which is not among the sources; here as the generic
    device error that [initialize] raises around [self._last_error].
    [RuntimeError] is the object that [initialize] itself raises,
    [RuntimeError("Already initializing")]; [Passed] is an exception
    that [initialize] lets through.  The constructors tell the objects
    apart, not what an [except] clause catches: [RecursionError], which
    [Passed] may carry, is a subclass of [RuntimeError] in Python. *)
Inductive boot_exn :=
| RuntimeError
| FourHeatError (last : option exn)
| Passed (e : exn).

(** How a call of [initialize] stands when control goes back to the
    loop: over, over with an error, or suspended at the gate. *)
Inductive boot_outcome :=
| Booted
| BootRaise (e : boot_exn)
| BootWaiting.

(** [update_fourheat] *)
Definition update_fourheat (w : World) : World :=
  with_self (set_fourheat (Some (mkInfo "4heat device" None "4heat"))) w.

(** The loop of [initialize] over [result["sensors"]], from the empty
    dictionary: [sensors[item["id"]] = {...}]. *)
Fixpoint fill (m : dict entry) (rs : list reading) : dict entry :=
  match rs with
  | [] => m
  | r :: rest =>
      fill (dict_set (r_id r) (mkEntry None (r_sensor_type r) (r_value r)) m)
           rest
  end.

Section Initialize.

(** [ERROR_QUERY] is one more constant of [const.py]: a parameter. *)
Variable K : Const.
Variable ERROR_QUERY : list pyval.
Variable net : nat -> list pyval -> sock_outcome.
Variable literal_eval : string -> option pyval.

(** The clause [except (FourHeatCommandError, DeviceConnectionError)],
    then [finally]. *)
Definition except_boot (i : Instance) (w : World) (e : exn)
  : Instance * boot_outcome :=
  (mkInstance w false (_status i),
   BootRaise (match e with
              | FourHeatCommandError _ | DeviceConnectionError _ =>
                  FourHeatError (_last_error (self w))
              | _ => Passed e
              end)).

(** The clause [else]: [self._status = getattr(self,
    DEVICE_STATE_SENSOR)], then [finally].  What it raises is not
    caught.  [__getattr__] is no coroutine and never waits. *)
Definition else_clause (i : Instance) (w : World) : Instance * boot_outcome :=
  match getattr (self w) (DEVICE_STATE_SENSOR K) with
  | Return v => (mkInstance w false v, Booted)
  | Raise e => (mkInstance w false (_status i), BootRaise (Passed e))
  | Waiting => (mkInstance w (_initializing i) (_status i), BootWaiting)
  end.

(** The [try] statement of [initialize].  A caller suspended at the
    gate, inside [async_send_command], resumes by running it again:
    [update_fourheat] before it writes the same dictionary each time.
    The second exchange finds the gate open, the first one having gone
    well, so it does not wait.  [assert result] holds of a dictionary
    with two keys; [True] has no key [result]. *)
Definition initialize_try (i : Instance) (async_init : bool)
  : Instance * boot_outcome :=
  let w0 := update_fourheat (obj i) in
  if async_init then else_clause i w0
  else
    match async_send_command K net literal_eval w0 INFO_COMMAND None with
    | (w, Waiting) => (mkInstance w (_initializing i) (_status i), BootWaiting)
    | (w, Raise e) => except_boot i w e
    | (w, Return CmdTrue) => except_boot i w TypeError
    | (w, Return (CmdData result)) =>
        if pyval_eqb (d_result result) (PyStr (RESULT_ERROR K)) then
          match send_and_receive K net literal_eval w ERROR_QUERY with
          | (w2, Waiting) =>
              (mkInstance w2 (_initializing i) (_status i), BootWaiting)
          | (w2, Raise e) => except_boot i w2 e
          | (w2, Return _) => else_clause i w2
          end
        else if pyval_eqb (d_result result) (PyStr (RESULT_INFO K))
                || pyval_eqb (d_result result) (PyStr (RESULT_OK K)) then
          else_clause i
            (with_self
               (fun d => set_initialized true
                           (set_sensors (Some (fill [] (d_sensors result))) d))
               w)
        else
          except_boot i (with_self (set_last_error (Some InvalidMessage)) w)
                      InvalidMessage
    end.

(** [initialize] *)
Definition initialize (i : Instance) (async_init : bool)
  : Instance * boot_outcome :=
  if _initializing i then (i, BootRaise RuntimeError)
  else
    initialize_try
      (mkInstance (with_self (set_initialized false) (obj i)) true (_status i))
      async_init.

(** [create]: a new object at time [t], initialized when asked. *)
Definition create (table : dict (list pyval)) (t : nat) (initialize_it : bool)
  : Instance * boot_outcome :=
  let i := mkInstance (mkWorld (init table) t [] []) false None in
  if initialize_it then initialize i false else (i, Booted).

End Initialize.

End Boot.

(** ** A write that has passed its tests *)

Module Write.

Import Device.

Section Await.

Variable K : Const.
Variable net : nat -> list pyval -> sock_outcome.
Variable literal_eval : string -> option pyval.

(** [async_set_state] from [await self.async_send_command("set", arg)]
    on: what a call does whose tests on [attr] are behind it, each time
    the loop runs it, the first time as after a wait in the polling
    loop.  The tests are not made again.  [self.commands] is written by
    [__init__] alone, so looking the command up again gives the query
    the call built. *)
Definition set_state_from_await (w : World) (attr : string) (value : Z)
  : World * outcome bool :=
  match async_send_command K net literal_eval w "set"
          (Some [PyStr (token "B" attr value)]) with
  | (w', Waiting) => (w', Waiting)
  | (w', Raise err) => (w', Raise (wrap_command_error err))
  | (w', Return _) =>
      match store_value w' attr value with
      | inl err => (w', Raise (wrap_command_error err))
      | inr w'' => (w'', Return true)
      end
  end.

End Await.

End Write.

(** ** The coordinator ([coordinator.py]) *)

Module Coordinator.

Local Open Scope nat_scope.
Local Open Scope list_scope.

(** What one [await self.device.async_update_data()] comes to, as the
    [try] statement around it tells the cases apart: it returned, it
    raised an instance of [FourHeatError], or it raised anything else.
    [E] is the type of the exception objects. *)
Inductive attempt (E : Type) :=
| Updated
| Failed (error : E)
| Crashed (e : E).

Arguments Updated {E}.
Arguments Failed {E} error.
Arguments Crashed {E} e.

(** What [_async_update_data] raises: [UpdateFailed ... from error], or
    an exception of the device that it does not catch. *)
Inductive raised (E : Type) :=
| UpdateFailed (error : E)
| Uncaught (e : E).

Arguments UpdateFailed {E} error.
Arguments Uncaught {E} e.

Inductive finish (E : Type) :=
| Returned
| Raised (r : raised E).

Arguments Returned {E}.
Arguments Raised {E} r.

(** The attributes of the coordinator that [_async_update_data] reads
    and writes, with two counters that the code does not have: the
    calls of [device.async_update_data] made so far, and the seconds
    spent in [asyncio.sleep]. *)
Record Coord (E : Type) := mkCoord {
  _retry_update : Z;
  _update_is_running : bool;
  last_update_success : bool;
  last_exception : option E;
  calls : nat;
  slept : nat
}.

Arguments mkCoord {E}.
Arguments _retry_update {E}.
Arguments _update_is_running {E}.
Arguments last_update_success {E}.
Arguments last_exception {E}.
Arguments calls {E}.
Arguments slept {E}.

Section Update.

Variable E : Type.

(** [RETRY_UPDATE] and [RETRY_UPDATE_SLEEP] are constants of [const.py]:
    parameters.  [device n] is what the call number [n] of
    [device.async_update_data] comes to. *)
Variable RETRY_UPDATE : Z.
Variable RETRY_UPDATE_SLEEP : nat.
Variable device : nat -> attempt E.

Definition set_retry (r : Z) (c : Coord E) : Coord E :=
  mkCoord r (_update_is_running c) (last_update_success c)
          (last_exception c) (calls c) (slept c).

Definition set_running (b : bool) (c : Coord E) : Coord E :=
  mkCoord (_retry_update c) b (last_update_success c)
          (last_exception c) (calls c) (slept c).

Definition set_success (b : bool) (c : Coord E) : Coord E :=
  mkCoord (_retry_update c) (_update_is_running c) b
          (last_exception c) (calls c) (slept c).

Definition set_exception (error : E) (c : Coord E) : Coord E :=
  mkCoord (_retry_update c) (_update_is_running c) (last_update_success c)
          (Some error) (calls c) (slept c).

Definition count_call (c : Coord E) : Coord E :=
  mkCoord (_retry_update c) (_update_is_running c) (last_update_success c)
          (last_exception c) (S (calls c)) (slept c).

Definition sleep (c : Coord E) : Coord E :=
  mkCoord (_retry_update c) (_update_is_running c) (last_update_success c)
          (last_exception c) (calls c) (slept c + RETRY_UPDATE_SLEEP).

(** The [while] loop; [None] when the fuel does not reach its end. *)
Fixpoint retry (fuel : nat) (c : Coord E) : option (Coord E * finish E) :=
  match fuel with
  | O => None
  | S fuel' =>
      if (_retry_update c <? RETRY_UPDATE)%Z then
        match device (calls c) with
        | Updated => retry fuel' (set_retry RETRY_UPDATE (count_call c))
        | Failed error =>
            let c1 := set_exception error
                        (set_retry (_retry_update c + 1)%Z (count_call c)) in
            if last_update_success c1 then retry fuel' (sleep c1)
            else Some (set_success false c1, Raised (UpdateFailed error))
        | Crashed e => Some (count_call c, Raised (Uncaught e))
        end
      else Some (c, Returned)
  end.

(** [_async_update_data], run from its call to its end with nothing
    else writing the attributes in between. *)
Definition _async_update_data (fuel : nat) (c : Coord E)
  : option (Coord E * finish E) :=
  if _update_is_running c then Some (c, Returned)
  else
    match retry fuel (set_running true c) with
    | Some (c', Returned) => Some (set_running false (set_retry 0%Z c'), Returned)
    | r => r
    end.

(** The rounds a call has left, and fuel that is enough for them *)
Definition budget (c : Coord E) : nat :=
  Z.to_nat (RETRY_UPDATE - _retry_update c).

Definition fuel_for (c : Coord E) : nat := S (budget c).

End Update.

End Coordinator.

(** ** The platforms of the coordinator ([_build_platforms]) *)

Module Platforms.

Import Py.
Local Open Scope list_scope.

(** [TypeError]: [string indices must be integers], from
    [sensor["platform"]] on a [str]; [UnboundLocalError]: [platform]
    read before any assignment. *)
Inductive build_exn :=
| StrIndexTypeError
| UnboundLocalError.

(** What [for sensor in sensor_conf] hands out: the dictionaries of a
    list of [SENSORS], or the keys of the dictionary made for a sensor
    that [SENSORS] does not know. *)
Inductive item (V : Type) :=
| ADict (d : dict V)
| AStr (s : string).

Arguments ADict {V} d.
Arguments AStr {V} s.

Section Build.

(** [V] is the type of the values of a sensor configuration, with
    [bool(v)] and [str(v)].  [SENSORS] is the table of [const.py], a
    parameter: the code needs under each sensor a sequence of
    dictionaries. *)
Variable V : Type.
Variable truthy : V -> bool.
Variable str : V -> string.
Variable SENSORS : dict (list (dict V)).

(** The description of one sensor of a platform: [{}] or [{attr: keys}] *)
Definition description : Type := dict (dict V).

(** The loop over [sensor.items()] *)
Definition keys_of (sensor : dict V) : dict V :=
  fold_left
    (fun keys kv =>
       if String.eqb (fst kv) "platform" then keys
       else if truthy (snd kv) then dict_set (fst kv) (snd kv) keys
       else keys)
    sensor [].

Definition describe (attr : string) (sensor : dict V) : description :=
  match keys_of sensor with
  | [] => []
  | keys => dict_set attr keys []
  end.

(** [if platform not in platforms: platforms[platform] = []] and
    [platforms[platform].append(sensor_description)] *)
Definition append_to (platform : string) (d : description)
           (platforms : dict (list description)) : dict (list description) :=
  let platforms1 :=
    if dict_mem platform platforms then platforms
    else dict_set platform [] platforms in
  dict_set platform
           (match dict_get platform platforms1 with
            | Some l => l
            | None => []
            end ++ [d])
           platforms1.

(** [sensor_conf]: [SENSORS[attr]], or on [KeyError] the dictionary
    [{"name": ..., "platform": "sensor"}], of which the loop sees the
    keys. *)
Definition sensor_conf (attr : string) : list (item V) :=
  match dict_get attr SENSORS with
  | Some confs => map ADict confs
  | None => [AStr "name"; AStr "platform"]
  end.

(** The local variables [platforms] and [platform]; the second is
    unbound until its first assignment. *)
Definition locals : Type := dict (list description) * option string.

(** The inner loop *)
Fixpoint for_sensor (attr : string) (conf : list (item V)) (st : locals)
  : build_exn + locals :=
  match conf with
  | [] => inr st
  | AStr _ :: _ => inl StrIndexTypeError
  | ADict sensor :: rest =>
      let platform :=
        match dict_get "platform" sensor with
        | Some v => Some (str v)
        | None => snd st
        end in
      match platform with
      | None => inl UnboundLocalError
      | Some p =>
          for_sensor attr rest (append_to p (describe attr sensor) (fst st), Some p)
      end
  end.

(** The outer loop *)
Fixpoint for_attr (attrs : list string) (st : locals) : build_exn + locals :=
  match attrs with
  | [] => inr st
  | attr :: rest =>
      match for_sensor attr (sensor_conf attr) st with
      | inl e => inl e
      | inr st' => for_attr rest st'
      end
  end.

Definition _build_platforms {S : Type} (sensors : dict S)
  : build_exn + dict (list description) :=
  match for_attr (dict_keys sensors) ([], None) with
  | inl e => inl e
  | inr st => inr (fst st)
  end.

End Build.

End Platforms.

(** ** Vocabulary of the properties *)

Module Digits.

(** A string of decimal digits, and the number it writes *)
Fixpoint all_digits (s : string) : bool :=
  match s with
  | EmptyString => true
  | String c r => is_digit c && all_digits r
  end.

Fixpoint val_from (acc : Z) (s : string) : Z :=
  match s with
  | EmptyString => acc
  | String c r => val_from (10 * acc + digit_val c) r
  end.

End Digits.

Module Claims.

Import Device.

(** The readings an answer gives when every one of its items decodes:
    those of the items that give one, each item for itself, in the order
    of the items. *)
Definition kept (items : list pyval) : list reading :=
  flat_map
    (fun x => match decode_sensor x with
              | inr (Some r) => [r]
              | _ => []
              end)
    items.

End Claims.

Module Gate.

Import Device Loop.
Local Open Scope nat_scope.
Local Open Scope list_scope.

(** The world after an exchange of [dt] seconds that went well, and
    after one that the [except] clause of [send_and_receive] caught. *)
Definition after_success (w : World) (query : list pyval) (dt : nat)
  : World :=
  mkWorld (set_running PyNone
             (set_last_error None (set_running (PyList query) (self w))))
          (clock w + dt) (lazy_tasks w)
          (Ended (clock w + dt) :: Began (clock w) query :: trace w).

Definition after_failure (K : Const) (w : World) (query : list pyval)
           (dt : nat) (cause : exn) : World :=
  mkWorld (set_last_error (Some (DeviceConnectionError (Some cause)))
             (set_running (PyList query) (self w)))
          (clock w + dt)
          (lazy_tasks w ++ [clock w + dt + RETRY_UPDATE_SLEEP K])
          (Cooldown (clock w + dt) :: Ended (clock w + dt)
             :: Began (clock w) query :: trace w).

(** The query [async_send_command] builds *)
Definition built_query (base : list pyval) (arg : option (list pyval))
  : list pyval :=
  match arg with
  | Some (a :: l) => base ++ a :: l
  | Some [] | None => base
  end.

Definition time_of (e : io_event) : nat :=
  match e with
  | Began t _ | Ended t | Cooldown t | Woke t => t
  end.

Definition latest (tr : list io_event) : nat :=
  match tr with
  | [] => 0
  | e :: _ => time_of e
  end.

(** The events of a record are in the order of their times. *)
Fixpoint timely (tr : list io_event) : Prop :=
  match tr with
  | [] => True
  | e :: older => latest older <= time_of e /\ timely older
  end.

(** No exchange begins while a cooldown runs, and the task that ends a
    cooldown wakes no earlier than [sleep] after its start. *)
Fixpoint respected (sleep : nat) (tr : list io_event) : Prop :=
  match tr with
  | [] => True
  | e :: older =>
      respected sleep older
      /\ match e with
         | Began _ _ => pending_cooldown older = None
         | Woke tw =>
             match pending_cooldown older with
             | Some t => t + sleep <= tw
             | None => True
             end
         | Ended _ | Cooldown _ => True
         end
  end.

(** The flag and the sleeping [_i_am_lazy] tasks agree with the record:
    a running cooldown holds the flag and has its one task asleep; with
    none running the gate is open and no task sleeps. *)
Definition cooling (sleep : nat) (w : World) : Prop :=
  match pending_cooldown (trace w) with
  | Some t => busy w = true /\ lazy_tasks w = [t + sleep]
  | None => busy w = false /\ lazy_tasks w = []
  end.

(** What holds of a loop started by [boot] under a schedule whose calls
    all send at least one token. *)
Definition steady_world (K : Const) (table : dict (list pyval)) (w : World)
  : Prop :=
  commands (self w) = table
  /\ cooling (RETRY_UPDATE_SLEEP K) w
  /\ respected (RETRY_UPDATE_SLEEP K) (trace w)
  /\ timely (trace w)
  /\ latest (trace w) <= clock w.

Definition sends_some (table : dict (list pyval)) (c : call) : Prop :=
  query_of table c <> Some [].

Definition steady (K : Const) (table : dict (list pyval)) (l : Loop) : Prop :=
  steady_world K table (world l)
  /\ Forall (fun p => sends_some table (snd p)) (sleepers l).

(** The three ways [send_and_receive] goes. *)
Inductive sent (K : Const) (w : World) (query : list pyval)
  : World * outcome data -> Prop :=
| sent_waiting :
    busy w = true -> sent K w query (w, Waiting)
| sent_ok (dt : nat) (d : data) :
    busy w = false -> sent K w query (after_success w query dt, Return d)
| sent_failed (dt : nat) (cause : exn) :
    busy w = false ->
    sent K w query (after_failure K w query dt cause,
                  Raise (DeviceConnectionError (Some cause))).

(** The ways [async_send_command] goes for a command of the table. *)
Inductive commanded (K : Const) (w : World) (query : list pyval)
  : World * outcome cmd_result -> Prop :=
| commanded_waiting :
    busy w = true -> commanded K w query (w, Waiting)
| commanded_answered (dt : nat) (r : outcome cmd_result) :
    busy w = false -> r <> Waiting ->
    commanded K w query (after_success w query dt, r)
| commanded_failed (dt : nat) (cause : exn) :
    busy w = false ->
    commanded K w query
      (after_failure K w query dt cause,
       Raise (FourHeatCommandError (DeviceConnectionError (Some cause)))).

(** The ways a call goes when the loop runs it. *)
Inductive called (K : Const) (w : World) (c : call) : World * outcome cmd_result -> Prop :=
| called_still (r : outcome cmd_result) :
    (r = Waiting -> busy w = true) -> called K w c (w, r)
| called_answered (q : list pyval) (dt : nat) (r : outcome cmd_result) :
    busy w = false -> query_of (commands (self w)) c = Some q ->
    r <> Waiting -> called K w c (after_success w q dt, r)
| called_failed (q : list pyval) (dt : nat) (r : outcome cmd_result)
                (cause : exn) :
    busy w = false -> query_of (commands (self w)) c = Some q ->
    r <> Waiting -> called K w c (after_failure K w q dt cause, r).

End Gate.

Module CacheWords.

Import Device.

(** The last reading of a list that bears a given [id] *)
Fixpoint last_reading (k : string) (rs : list reading) : option reading :=
  match rs with
  | [] => None
  | r :: rest =>
      match last_reading k rest with
      | Some x => Some x
      | None => if String.eqb k (r_id r) then Some r else None
      end
  end.

End CacheWords.

Module BootWords.

Import Device Boot.

(** What the accessors give of a device [i'] that a call of
    [initialize] has left with the outcome [r] *)
Definition settled (K : Const) (async_init : bool) (i' : Instance)
           (r : boot_outcome) : Prop :=
  let d := self (obj i') in
  fourheat d = Some (mkInfo "4heat device" None "4heat")
  /\ serial d = Return None
  /\ model d = Return (if initialized d then Some "4heat device" else None)
  /\ manufacturer d = Return (if initialized d then Some "4heat" else None)
  /\ (r = Booted ->
      match _status i' with
      | Some v =>
          initialized d = true /\ async_init = false
          /\ status K d
             = Return (Some (if existsb (Z.eqb v) (STATES_OFF K)
                             then STATE_OFF else STATE_ON))
      | None => initialized d = false /\ status K d = Return None
      end).

End BootWords.

Module CoordinatorSample.

Import Py Coordinator Platforms.
Local Open Scope nat_scope.
Local Open Scope list_scope.

(** A coordinator at rest; exception objects are their messages *)
Definition coord0 (last_update_success : bool) : Coord string :=
  mkCoord 0 false last_update_success None 0 0.

(** A device whose every update fails with a [FourHeatError] *)
Definition failing : nat -> attempt string :=
  fun _ => Failed "timed out".

(** A device whose third update is the first to succeed *)
Definition flaky : nat -> attempt string :=
  fun n => if n <? 2 then Failed "timed out" else Updated.

(** Configurations with strings as values *)
Definition truthy0 (s : string) : bool := negb (String.eqb s EmptyString).

Definition str0 (s : string) : string := s.

Definition SENSORS0 : dict (list (dict string)) :=
  [("30001", [[("platform", "sensor"); ("name", "Room"); ("unit", EmptyString)];
              [("platform", "number"); ("name", "Room set")]]);
   ("30002", [[("platform", "sensor"); ("name", "Water")]])].

(** The same with a configuration that lacks the key [platform] *)
Definition SENSORS1 : dict (list (dict string)) :=
  SENSORS0 ++ [("30003", [[("name", "Fan")]])].

End CoordinatorSample.

Module CoordinatorWords.

Import Coordinator.

(** The failures in a row among the calls [start], [start + 1], ... of
    the device, [rounds] of them at most *)
Fixpoint failures {E : Type} (device : nat -> attempt E) (start rounds : nat)
  : nat :=
  match rounds with
  | O => 0
  | S rounds' =>
      match device start with
      | Failed _ => S (failures device (S start) rounds')
      | _ => 0
      end
  end.

(** The error of a failed call *)
Definition error_of {E : Type} (a : attempt E) : option E :=
  match a with
  | Failed error => Some error
  | _ => None
  end.

(** The device raises nothing but [FourHeatError]s *)
Definition never_crashes {E : Type} (device : nat -> attempt E) : Prop :=
  forall n e, device n <> Crashed e.

End CoordinatorWords.

Module PlatformWords.

Import Py Platforms.
Local Open Scope list_scope.

Section Words.

Variable V : Type.
Variable truthy : V -> bool.
Variable str : V -> string.
Variable SENSORS : dict (list (dict V)).

(** Some sensor of the list is not in [SENSORS] *)
Definition some_unknown (attrs : list string) : bool :=
  existsb (fun attr => negb (dict_mem attr SENSORS)) attrs.

(** Every configuration in [SENSORS] has the key [platform] *)
Definition all_have_platform : bool :=
  forallb (fun kv => forallb (dict_mem "platform") (snd kv)) SENSORS.

(** Every sensor of the list is in [SENSORS], and each of its
    configurations has the key [platform] *)
Definition well_configured (attrs : list string) : bool :=
  forallb
    (fun attr =>
       match dict_get attr SENSORS with
       | Some confs => forallb (dict_mem "platform") confs
       | None => false
       end)
    attrs.

(** The sensors with their configurations, in the order of the loops *)
Definition pairs (attrs : list string) : list (string * dict V) :=
  flat_map
    (fun attr =>
       match dict_get attr SENSORS with
       | Some confs => map (pair attr) confs
       | None => []
       end)
    attrs.

(** The descriptions of the pairs whose platform is [p], in order *)
Definition under (p : string) (ps : list (string * dict V))
  : list (description V) :=
  map (fun ac => describe V truthy (fst ac) (snd ac))
      (filter
         (fun ac =>
            match dict_get "platform" (snd ac) with
            | Some v => String.eqb p (str v)
            | None => false
            end)
         ps).

(** The entries of a configuration that a description keeps *)
Definition kept (kv : string * V) : bool :=
  negb (String.eqb (fst kv) "platform") && truthy (snd kv).

End Words.

(** A list of a platform after more descriptions have gone to it *)
Definition grown {A : Type} (old : option (list A)) (new : list A)
  : option (list A) :=
  match new with
  | [] => old
  | _ => Some (match old with Some l => l | None => [] end ++ new)
  end.

End PlatformWords.

(** * Properties *)

(** ** Strings, digits and tokens *)

Module StrFacts.

Import Digits.
Local Open Scope nat_scope.

Lemma append_nil_r (s : string) : s ++ EmptyString = s.
Proof. induction s as [|c r IH]; simpl; [reflexivity | now rewrite IH]. Qed.

Lemma append_assoc (a b c : string) : (a ++ b) ++ c = a ++ (b ++ c).
Proof. induction a as [|x r IH]; simpl; [reflexivity | now rewrite IH]. Qed.

Lemma length_app (a b : string) :
  String.length (a ++ b) = String.length a + String.length b.
Proof. induction a as [|x r IH]; simpl; [reflexivity | now rewrite IH]. Qed.

Lemma length_zeros (n : nat) : String.length (zeros n) = n.
Proof. induction n as [|k IH]; simpl; [reflexivity | now rewrite IH]. Qed.

Lemma all_digits_app (a b : string) :
  all_digits (a ++ b) = all_digits a && all_digits b.
Proof.
  induction a as [|x r IH]; simpl; [reflexivity|].
  now rewrite IH, andb_assoc.
Qed.

Lemma all_digits_zeros (n : nat) : all_digits (zeros n) = true.
Proof. induction n as [|k IH]; simpl; [reflexivity | exact IH]. Qed.

Lemma val_from_app (a b : string) (acc : Z) :
  val_from acc (a ++ b) = val_from (val_from acc a) b.
Proof.
  revert acc; induction a as [|x r IH]; intros acc; simpl; [reflexivity|].
  apply IH.
Qed.

Lemma val_from_zeros (n : nat) : val_from 0 (zeros n) = 0%Z.
Proof. induction n as [|k IH]; simpl; [reflexivity | exact IH]. Qed.

Lemma digit_val_nonneg (c : ascii) : (0 <= digit_val c)%Z.
Proof. unfold digit_val; lia. Qed.

Lemma is_digit_val (c : ascii) : is_digit c = true -> (digit_val c <= 9)%Z.
Proof.
  unfold is_digit, digit_val; intros H.
  apply andb_prop in H as [_ H]. apply Nat.leb_le in H. lia.
Qed.

(** The value of a digit string splits at its first digit. *)
Lemma val_from_lin (s : string) (acc : Z) :
  val_from acc s
  = (acc * 10 ^ Z.of_nat (String.length s) + val_from 0 s)%Z.
Proof.
  revert acc; induction s as [|c r IH]; intros acc.
  - simpl. lia.
  - cbn [val_from String.length]. rewrite (IH (10 * acc + digit_val c)%Z).
    rewrite (IH (10 * 0 + digit_val c)%Z).
    rewrite Nat2Z.inj_succ, Z.pow_succ_r by lia. ring.
Qed.

Lemma val_from_nonneg (s : string) (acc : Z) :
  (0 <= acc)%Z -> (0 <= val_from acc s)%Z.
Proof.
  revert acc; induction s as [|c r IH]; intros acc H; cbn [val_from]; [exact H|].
  apply IH. pose proof (digit_val_nonneg c). lia.
Qed.

Lemma val_from_lt (s : string) :
  all_digits s = true -> (val_from 0 s < 10 ^ Z.of_nat (String.length s))%Z.
Proof.
  induction s as [|c r IH]; intros H.
  - simpl. lia.
  - cbn [all_digits] in H. apply andb_prop in H as [Hc Hr].
    cbn [val_from String.length]. rewrite val_from_lin.
    rewrite Nat2Z.inj_succ, Z.pow_succ_r by lia.
    specialize (IH Hr). pose proof (is_digit_val c Hc).
    pose proof (digit_val_nonneg c).
    assert (0 < 10 ^ Z.of_nat (String.length r))%Z by (apply Z.pow_pos_nonneg; lia).
    nia.
Qed.

(** A digit is no blank and no sign. *)
Lemma digit_is_plain (c : ascii) :
  is_digit c = true ->
  is_space c = false /\ Ascii.eqb c "+" = false /\ Ascii.eqb c "-" = false.
Proof.
  destruct c as [[] [] [] [] [] [] [] []]; cbv; intros H;
    try discriminate H; repeat split.
Qed.

Lemma lstrip_digits (s : string) : all_digits s = true -> lstrip s = s.
Proof.
  destruct s as [|c r]; simpl; [reflexivity|]; intros H.
  apply andb_prop in H as [Hc _].
  now destruct (digit_is_plain c Hc) as [-> _].
Qed.

Lemma rstrip_digits (s : string) : all_digits s = true -> rstrip s = s.
Proof.
  induction s as [|c r IH]; [reflexivity|]; intros H.
  cbn [all_digits] in H. apply andb_prop in H as [Hc Hr].
  cbn [rstrip]. rewrite (IH Hr).
  destruct (digit_is_plain c Hc) as [-> _]. now destruct r.
Qed.

Lemma int_digits_all (s : string) (acc : Z) (b : bool) :
  all_digits s = true -> s <> EmptyString \/ b = true ->
  int_digits s acc b = Some (val_from acc s).
Proof.
  revert acc b; induction s as [|c r IH]; intros acc b H Hb.
  - destruct Hb as [Hb | ->]; [now elim Hb | reflexivity].
  - cbn [all_digits] in H. apply andb_prop in H as [Hc Hr].
    cbn [int_digits val_from]. rewrite Hc. apply IH; [exact Hr | now right].
Qed.

(** [int()] of a non-empty string of digits is the number it writes. *)
Lemma py_int_digits (s : string) :
  all_digits s = true -> s <> EmptyString ->
  py_int s = Some (val_from 0 s).
Proof.
  intros H Hne. unfold py_int.
  rewrite (lstrip_digits s H), (rstrip_digits s H).
  destruct s as [|c r]; [now elim Hne|].
  pose proof H as H'. cbn [all_digits] in H'. apply andb_prop in H' as [Hc _].
  destruct (digit_is_plain c Hc) as (_ & -> & ->).
  apply int_digits_all; [exact H | now left].
Qed.

Lemma digit_char_ok (d : Z) :
  (0 <= d < 10)%Z ->
  is_digit (digit_char d) = true /\ digit_val (digit_char d) = d.
Proof.
  intros H.
  assert (E : (d = 0 \/ d = 1 \/ d = 2 \/ d = 3 \/ d = 4 \/ d = 5 \/ d = 6
               \/ d = 7 \/ d = 8 \/ d = 9)%Z) by lia.
  repeat (destruct E as [E | E]; [subst d; split; reflexivity | ]).
  subst d; split; reflexivity.
Qed.

Lemma dec_digits_S (f : nat) (n : Z) (acc : string) :
  dec_digits (S f) n acc
  = if (n / 10 =? 0)%Z then String (digit_char (n mod 10)) acc
    else dec_digits f (n / 10) (String (digit_char (n mod 10)) acc).
Proof. reflexivity. Qed.

(** What [dec_digits] writes in front of [acc], with fuel to spare. *)
Lemma dec_digits_spec (f : nat) :
  forall (n : Z) (acc : string),
    (0 <= n < 2 ^ Z.of_nat (S f))%Z ->
    exists c r,
      dec_digits (S f) n acc = String c r ++ acc
      /\ all_digits (String c r) = true
      /\ val_from 0 (String c r) = n
      /\ (1 <= n -> 1 <= digit_val c)%Z.
Proof.
  induction f as [|f IH]; intros n acc Hn.
  - assert (Hd : (n / 10 = 0)%Z) by (apply Z.div_small; change (2 ^ Z.of_nat 1)%Z with 2%Z in Hn; lia).
    assert (Hm : (n mod 10 = n)%Z) by (apply Z.mod_small; change (2 ^ Z.of_nat 1)%Z with 2%Z in Hn; lia).
    rewrite dec_digits_S, Hd, Hm. cbn [Z.eqb].
    change (2 ^ Z.of_nat 1)%Z with 2%Z in Hn.
    destruct (digit_char_ok n ltac:(lia)) as [Hdig Hval].
    exists (digit_char n), EmptyString. cbn [append all_digits val_from].
    rewrite Hdig, Hval. repeat split; lia.
  - rewrite dec_digits_S.
    pose proof (Z.mod_pos_bound n 10 ltac:(lia)) as Hmod.
    destruct (digit_char_ok (n mod 10) Hmod) as [Hdig Hval].
    pose proof (Z.div_mod n 10 ltac:(lia)) as Hdm.
    destruct (Z.eqb_spec (n / 10) 0) as [Hz | Hnz].
    + exists (digit_char (n mod 10)), EmptyString.
      cbn [append all_digits val_from]. rewrite Hdig, Hval.
      repeat split; lia.
    + assert (Hq : (0 <= n / 10 < 2 ^ Z.of_nat (S f))%Z).
      { split; [apply Z.div_pos; lia|].
        apply Z.div_lt_upper_bound; [lia|].
        rewrite (Nat2Z.inj_succ (S f)), Z.pow_succ_r in Hn by lia. lia. }
      destruct (IH (n / 10)%Z (String (digit_char (n mod 10)) acc) Hq)
        as (c & r & Heq & Hall & Hv & Hlead).
      exists c, (r ++ String (digit_char (n mod 10)) EmptyString).
      rewrite Heq. repeat split.
      * cbn [append]. f_equal. now rewrite append_assoc.
      * cbn [all_digits] in Hall |- *. apply andb_prop in Hall as [-> Hr].
        rewrite all_digits_app, Hr. cbn [all_digits]. now rewrite Hdig.
      * change (String c (r ++ String (digit_char (n mod 10)) EmptyString))
          with (String c r ++ String (digit_char (n mod 10)) EmptyString).
        rewrite val_from_app, Hv. cbn [val_from]. rewrite Hval. lia.
      * intros _. apply Hlead. lia.
Qed.

(** [str_nat]: the digits of [n], no leading zero unless [n] is zero. *)
Lemma str_nat_spec (n : Z) :
  (0 <= n)%Z ->
  exists c r,
    str_nat n = String c r
    /\ all_digits (String c r) = true
    /\ val_from 0 (String c r) = n
    /\ (1 <= n -> 1 <= digit_val c)%Z.
Proof.
  intros Hn. unfold str_nat.
  assert (Hf : (0 <= n < 2 ^ Z.of_nat (S (Z.to_nat (Z.log2 n))))%Z).
  { split; [exact Hn|].
    rewrite Nat2Z.inj_succ, Z2Nat.id by apply Z.log2_nonneg.
    destruct (Z.eq_dec n 0) as [-> | Hpos]; [reflexivity|].
    apply Z.log2_spec. lia. }
  destruct (dec_digits_spec _ n EmptyString Hf) as (c & r & Heq & H).
  exists c, r. rewrite Heq, append_nil_r. now split.
Qed.

Lemma app_not_empty (a : string) (c : ascii) (r : string) :
  a ++ String c r <> EmptyString.
Proof.
  intros H. apply (f_equal String.length) in H.
  rewrite length_app in H. simpl in H. lia.
Qed.

Lemma py_int_padded (k : nat) (s : string) :
  all_digits s = true -> s <> EmptyString ->
  py_int (zeros k ++ s) = Some (val_from 0 s).
Proof.
  intros H Hne. destruct s as [|c r]; [now elim Hne|].
  rewrite py_int_digits.
  - now rewrite val_from_app, val_from_zeros.
  - now rewrite all_digits_app, all_digits_zeros.
  - apply app_not_empty.
Qed.

(** What comes back of a value once it is written on twelve digits and
    read from the second of them. *)
Lemma written_then_read (v : Z) :
  exists v',
    py_int (sdrop 1 (zfill 12 (str_int v))) = Some v'
    /\ 12 <= String.length (zfill 12 (str_int v))
    /\ (v' = v <-> (0 <= v < 10 ^ 11)%Z).
Proof.
  unfold str_int. destruct (Z.ltb_spec v 0) as [Hneg | Hpos].
  - destruct (str_nat_spec (- v)%Z ltac:(lia)) as (c & r & Heq & Hall & Hval & _).
    rewrite Heq. unfold zfill. cbn [String.length].
    destruct (12 <=? S (S (String.length r))) eqn:E.
    + apply Nat.leb_le in E. exists (- v)%Z. cbn [sdrop].
      rewrite (py_int_digits _ Hall) by discriminate. rewrite Hval.
      split; [reflexivity|]. split; [cbn [String.length]; lia | lia].
    + apply Nat.leb_gt in E. cbn [Ascii.eqb Bool.eqb orb andb sdrop].
      exists (- v)%Z. rewrite (py_int_padded _ _ Hall) by discriminate.
      rewrite Hval. split; [reflexivity|].
      split; [cbn [String.length]; rewrite length_app, length_zeros;
              cbn [String.length]; lia | lia].
  - destruct (str_nat_spec v Hpos) as (c & r & Heq & Hall & Hval & Hlead).
    rewrite Heq. unfold zfill. cbn [String.length].
    pose proof Hall as Hall'. cbn [all_digits] in Hall'.
    apply andb_prop in Hall' as [Hc Hr].
    pose proof (val_from_lt _ Hall) as Hlt. rewrite Hval in Hlt.
    cbn [String.length] in Hlt.
    destruct (12 <=? S (String.length r)) eqn:E.
    + apply Nat.leb_le in E. cbn [sdrop].
      assert (Hne : r <> EmptyString) by (destruct r; [simpl in E; lia | discriminate]).
      exists (val_from 0 r). rewrite (py_int_digits _ Hr Hne).
      split; [reflexivity|]. split; [cbn [String.length]; lia|].
      assert (Hv1 : (1 <= v)%Z).
      { destruct (Z.eq_dec v 0) as [-> | Hv0]; [|lia].
        compute in Heq. injection Heq as _ <-. simpl in E. lia. }
      specialize (Hlead Hv1).
      cbn [val_from] in Hval. rewrite val_from_lin in Hval.
      pose proof (val_from_nonneg r 0 ltac:(lia)) as Hnn.
      assert (Hp : (10 ^ 11 <= 10 ^ Z.of_nat (String.length r))%Z)
        by (apply Z.pow_le_mono_r; lia).
      change (10 ^ 11)%Z with 100000000000%Z in *.
      split; intros; nia.
    + apply Nat.leb_gt in E.
      destruct (digit_is_plain c Hc) as (_ & -> & ->). cbn [orb].
      destruct (12 - S (String.length r)) as [|k] eqn:Ek; [lia|].
      cbn [zeros append sdrop].
      exists v. rewrite (py_int_padded _ _ Hall) by discriminate.
      rewrite Hval. split; [reflexivity|].
      split; [cbn [String.length]; rewrite length_app, length_zeros;
              cbn [String.length]; lia|].
      assert (Hp : (10 ^ Z.of_nat (S (String.length r)) <= 10 ^ 11)%Z)
        by (apply Z.pow_le_mono_r; lia).
      split; [intros _; lia | reflexivity].
Qed.

End StrFacts.

(** ** The parser of answers *)

Module ParserFacts.

Import Device Digits StrFacts Sample.
Local Open Scope nat_scope.

(** C10.  A token written as [typeChar], five characters of [id] and the
    value on twelve digits, then read back as an item of an answer, keeps
    its [id] and its type; it keeps its value exactly when the value is
    at least zero and below [10^11], since the reader starts at the
    eighth character and so skips the first of the twelve digits. *)
Theorem token_roundtrip (typeChar attr : string) (value : Z) :
  String.length typeChar = 1 ->
  String.length attr = 5 ->
  exists v',
    decode_sensor (PyStr (token typeChar attr value))
    = inr (Some (mkReading attr typeChar v'))
    /\ (v' = value <-> (0 <= value < 10 ^ 11)%Z).
Proof.
  intros Ht Ha.
  destruct (written_then_read value) as (v' & Hread & Hlen & Hiff).
  exists v'. split; [|exact Hiff].
  unfold token. remember (zfill 12 (str_int value)) as field eqn:Ef.
  destruct typeChar as [|t [|? ?]]; try discriminate Ht.
  destruct attr as [|a1 [|a2 [|a3 [|a4 [|a5 [|? ?]]]]]]; try discriminate Ha.
  unfold decode_sensor. cbn [append String.length].
  destruct (6 <? S (S (S (S (S (S (String.length field))))))) eqn:E;
    [|apply Nat.ltb_ge in E; lia].
  change (sdrop 7 (String t (String a1 (String a2 (String a3 (String a4
            (String a5 field)))))))
    with (sdrop 1 field).
  rewrite Hread.
  destruct field as [|f0 fr]; [simpl in Hlen; lia|]. reflexivity.
Qed.

Lemma token_roundtrip_witness :
  exists v',
    decode_sensor (PyStr (token "B" "12345" 7))
    = inr (Some (mkReading "12345" "B" v'))
    /\ (v' = 7%Z <-> (0 <= 7 < 10 ^ 11)%Z).
Proof. apply (token_roundtrip "B" "12345" 7); reflexivity. Defined.

Example py_int_plain : py_int "00000000500" = Some 500%Z.
Proof. reflexivity. Qed.

Example py_int_empty : py_int EmptyString = None.
Proof. reflexivity. Qed.

Example py_int_signed : py_int " -1_000 " = Some (-1000)%Z.
Proof. reflexivity. Qed.

Example py_int_two_underscores : py_int "1__0" = None.
Proof. reflexivity. Qed.

Example token_500 : token "I" "12001" 500 = "I12001000000000500".
Proof. reflexivity. Qed.

Example token_negative : token "B" "12001" (-5) = "B12001-00000000005".
Proof. reflexivity. Qed.

Example token_wide : token "B" "12001" 1234567890123 = "B120011234567890123".
Proof. reflexivity. Qed.

(** From [10^11] on the first digit of the value is lost on the way
    back, and so is the sign of a negative value. *)
Example roundtrip_large :
  decode_sensor (PyStr (token "B" "12345" 100000000007))
  = inr (Some (mkReading "12345" "B" 7)).
Proof. reflexivity. Qed.

Example roundtrip_negative :
  decode_sensor (PyStr (token "B" "12345" (-5)))
  = inr (Some (mkReading "12345" "B" 5)).
Proof. reflexivity. Qed.

Lemma parse_sensors_bad (items : list pyval) (s : string) :
  In (PyStr s) items -> 6 < String.length s -> py_int (sdrop 7 s) = None ->
  exists e, parse_sensors items = inl e.
Proof.
  intros Hin Hlen Hbad. induction items as [|x items IH]; [contradiction|].
  cbn [parse_sensors]. destruct Hin as [-> | Hin].
  - unfold decode_sensor. apply Nat.ltb_lt in Hlen. rewrite Hlen, Hbad. eauto.
  - destruct (decode_sensor x) as [e | o]; [eauto|].
    destruct (IH Hin) as [e ->]. eauto.
Qed.

Lemma sdrop_all (s : string) (n : nat) :
  String.length s <= n -> sdrop n s = EmptyString.
Proof.
  revert n; induction s as [|c r IH]; intros [|n] H; simpl in *;
    try reflexivity; try lia.
  apply IH. lia.
Qed.

Lemma parse_sensors_kept (items : list pyval) :
  (forall x, In x items -> exists o, decode_sensor x = inr o) ->
  parse_sensors items = inr (Claims.kept items).
Proof.
  induction items as [|x items IH]; intros Hok; [reflexivity|].
  cbn [parse_sensors Claims.kept flat_map].
  destruct (Hok x (or_introl eq_refl)) as [o Hx]. rewrite Hx.
  rewrite IH by (intros y Hy; apply Hok; now right).
  now destruct o.
Qed.

Lemma parse_sensors_first_error (before after : list pyval) (x : pyval)
      (e : exn) :
  (forall y, In y before -> exists o, decode_sensor y = inr o) ->
  decode_sensor x = inl e ->
  parse_sensors (before ++ x :: after)%list = inl e.
Proof.
  intros Hok Hx. induction before as [|y before IH]; cbn [app parse_sensors].
  - now rewrite Hx.
  - destruct (Hok y (or_introl eq_refl)) as [o ->].
    now rewrite IH by (intros z Hz; apply Hok; now right).
Qed.

Lemma parse_sensors_chars (s : string) :
  parse_sensors (map PyStr (chars s)) = inr [].
Proof.
  induction s as [|c r IH]; [reflexivity|].
  cbn [chars map parse_sensors decode_sensor String.length Nat.ltb Nat.leb].
  now rewrite IH.
Qed.

Section Parser.

Variable literal_eval : string -> option pyval.

(** C5, as the code has it.  An item of an answer that is a string of
    six characters or fewer gives nothing and no error.  A longer one
    gives the reading made of its characters 1 to 5 as [id], its first
    character as type and the integer written from its eighth character
    on, when [int()] reads one there, and [ValueError] when not: so
    always at seven characters, where nothing is left to read, and the
    shortest item that gives a reading has eight.  The items from the
    third on are decoded each for itself: when none of them fails the
    answer gives the readings of its items in their order, and when one
    fails the answer is refused as a whole with the error of the first
    that does.  Where an item is said to be converted, it is no longer
    than [MAX_STR_DIGITS]. *)
Theorem sensor_tokens :
  (forall s, String.length s <= 6 -> decode_sensor (PyStr s) = inr None)
  /\ (forall s v,
         7 <= String.length s <= MAX_STR_DIGITS ->
         py_int (sdrop 7 s) = Some v ->
         decode_sensor (PyStr s)
         = inr (Some (mkReading (slice 1 6 s) (slice 0 1 s) v)))
  /\ (forall s,
         7 <= String.length s -> py_int (sdrop 7 s) = None ->
         decode_sensor (PyStr s) = inl ValueError)
  /\ (forall s, String.length s = 7 -> decode_sensor (PyStr s) = inl ValueError)
  /\ (forall s r,
         decode_sensor (PyStr s) = inr (Some r) -> 8 <= String.length s)
  /\ (forall text r0 r1 items,
         literal_eval text = Some (PyList (r0 :: r1 :: items)) ->
         (forall s, In (PyStr s) items -> String.length s <= MAX_STR_DIGITS) ->
         ((forall x, In x items -> exists o, decode_sensor x = inr o) ->
          parse literal_eval text = inr (mkData r0 (Claims.kept items)))
         /\ (forall before x after e,
                items = (before ++ x :: after)%list ->
                (forall y, In y before -> exists o, decode_sensor y = inr o) ->
                decode_sensor x = inl e ->
                parse literal_eval text = inl e)).
Proof.
  assert (Hseven : forall s, String.length s = 7 ->
                             decode_sensor (PyStr s) = inl ValueError).
  { intros s Hlen. unfold decode_sensor.
    destruct (Nat.ltb_spec 6 (String.length s)); [|lia].
    rewrite sdrop_all by lia. reflexivity. }
  repeat split.
  - intros s Hlen. unfold decode_sensor.
    destruct (Nat.ltb_spec 6 (String.length s)); [lia | reflexivity].
  - intros s v Hlen Hint. unfold decode_sensor.
    destruct (Nat.ltb_spec 6 (String.length s)); [|lia]. now rewrite Hint.
  - intros s Hlen Hint. unfold decode_sensor.
    destruct (Nat.ltb_spec 6 (String.length s)); [|lia]. now rewrite Hint.
  - exact Hseven.
  - intros s r Hdec.
    destruct (Nat.leb_spec (String.length s) 6) as [Hle | Hgt].
    + unfold decode_sensor in Hdec.
      destruct (Nat.ltb_spec 6 (String.length s)); [lia | discriminate].
    + destruct (Nat.eq_dec (String.length s) 7) as [E | E]; [|lia].
      rewrite (Hseven s E) in Hdec. discriminate.
  - intros Hok. unfold parse. rewrite H. cbn [getitem0 items_from skipn].
    now rewrite parse_sensors_kept.
  - intros before x after e -> Hok Hx. unfold parse. rewrite H.
    cbn [getitem0 items_from skipn].
    now rewrite (parse_sensors_first_error before after x e Hok Hx).
Qed.

End Parser.

Lemma sensor_tokens_witness :
  parse literal_eval_flat "['I', 0, 'I12345', 'I120010000000000500']"
  = inr (mkData (PyStr "I")
                (Claims.kept [PyStr "I12345"; PyStr "I120010000000000500"]))
  /\ Claims.kept [PyStr "I12345"; PyStr "I120010000000000500"]
     = [mkReading "12001" "I" 500].
Proof.
  split; [|reflexivity].
  apply (proj1 (proj2 (proj2 (proj2 (proj2 (proj2
           (sensor_tokens literal_eval_flat)))))
           "['I', 0, 'I12345', 'I120010000000000500']"
           (PyStr "I") (PyInt 0)
           [PyStr "I12345"; PyStr "I120010000000000500"] eq_refl
           ltac:(intros s [H | [H | []]]; injection H as <-;
                 unfold MAX_STR_DIGITS; cbn [String.length]; lia))).
  intros x [<- | [<- | []]]; eexists; reflexivity.
Defined.

(** What [int()] passes over: the no-break space, not the separators. *)
Example py_int_no_break_space :
  py_int (String "5" (String (ascii_of_nat 160) EmptyString)) = Some 5%Z.
Proof. reflexivity. Qed.

Example py_int_separator :
  py_int (String (ascii_of_nat 28) "5") = None.
Proof. reflexivity. Qed.

(** An answer with a good item and one that fails gives no reading. *)
Example one_bad_item_refuses_all :
  parse literal_eval_flat "['I', 0, 'I120010000000000500', 'I123450x']"
  = inl ValueError.
Proof. reflexivity. Qed.

(** C5 as it is worded fails: an item of exactly seven characters is not
    kept as a reading; the exchange that brings it raises. *)
Lemma seven_characters_not_parsed :
  String.length "I123450" = 7
  /\ decode_sensor (PyStr "I123450") = inl ValueError
  /\ snd (send_and_receive K0 (always (Recv 0 "['I', 0, 'I123450']"))
            literal_eval_flat (world0 None) [PyStr "I"])
     = Raise (DeviceConnectionError (Some ValueError)).
Proof. repeat split. Qed.

End ParserFacts.

(** ** The gate and the cooldown *)

Module GateFacts.

Import Device Loop Gate Sample ParserFacts.
Local Open Scope nat_scope.
Local Open Scope list_scope.

Section WithDevice.

Variable K : Const.
Variable net : nat -> list pyval -> sock_outcome.
Variable literal_eval : string -> option pyval.

Lemma send_cases (w : World) (query : list pyval) :
  sent K w query (send_and_receive K net literal_eval w query).
Proof.
  unfold send_and_receive. destruct (busy w) eqn:Hb.
  - now constructor.
  - destruct (net (exchanges (trace w)) query) as [dt msg | dt text].
    + apply (sent_failed K w query dt (OSError msg) Hb).
    + destruct (String.eqb text EmptyString).
      * apply (sent_failed K w query dt (DeviceConnectionError None) Hb).
      * destruct (parse literal_eval text) as [e | d].
        -- apply (sent_failed K w query dt e Hb).
        -- apply (sent_ok K w query dt d Hb).
Qed.

Lemma command_cases (w : World) (name : string) (arg : option (list pyval))
      (base : list pyval) :
  dict_get name (commands (self w)) = Some base ->
  commanded K w (built_query base arg)
            (async_send_command K net literal_eval w name arg).
Proof.
  intros Hbase. unfold async_send_command. rewrite Hbase.
  fold (built_query base arg).
  destruct (send_cases w (built_query base arg)) as [Hb | dt d Hb | dt cause Hb].
  - now constructor.
  - repeat match goal with
           | |- commanded _ _ _ (if ?b then _ else _) => destruct b
           | |- commanded _ _ _ (match ?x with _ => _ end) => destruct x
           end;
      (apply commanded_answered; [exact Hb | discriminate]).
  - now constructor.
Qed.

Lemma nth_error_last {A : Type} (l : list A) (x : A) :
  nth_error (l ++ [x]) (List.length l) = Some x.
Proof. induction l as [|y l IH]; [reflexivity | exact IH]. Qed.

(** C1.  A command of the table that is over, with a result or an
    error, leaves the gate open at once when the exchange went through
    (also when the answer is then refused with [InvalidMessage]); when
    the exchange failed it leaves the task [_i_am_lazy] asleep, which
    opens the gate once [RETRY_UPDATE_SLEEP] has passed. *)
Theorem gate_returns_to_idle (w w' : World) (name : string)
        (arg : option (list pyval)) (base : list pyval)
        (r : outcome cmd_result) :
  dict_get name (commands (self w)) = Some base ->
  async_send_command K net literal_eval w name arg = (w', r) ->
  r <> Waiting ->
  (forall x, r = Return x -> busy w' = false)
  /\ (r = Raise InvalidMessage -> busy w' = false)
  /\ (busy w' = false
      \/ (exists cause,
             r = Raise (FourHeatCommandError (DeviceConnectionError (Some cause))))
         /\ lazy_tasks w' = lazy_tasks w ++ [clock w' + RETRY_UPDATE_SLEEP K]
         /\ forall sl fin,
             exists l2,
               run K net literal_eval (mkLoop w' sl fin)
                   [Tick (RETRY_UPDATE_SLEEP K); Fire (List.length (lazy_tasks w))]
               = Some l2
               /\ busy (world l2) = false).
Proof.
  intros Hbase Hrun Hterm.
  pose proof (command_cases w name arg base Hbase) as Hc. rewrite Hrun in Hc.
  inversion Hc as [Hb | dt r0 Hb Hr | dt cause Hb]; subst.
  - now elim Hterm.
  - repeat split; try reflexivity. now left.
  - split; [discriminate|]. split; [discriminate|]. right.
    split; [now exists cause|]. split; [reflexivity|].
    intros sl fin. cbn [run step world lazy_tasks after_failure clock].
    rewrite nth_error_last, Nat.leb_refl. eexists. split; reflexivity.
Qed.

Lemma run_call_cases (w : World) (c : call) :
  called K w c (run_call K net literal_eval w c).
Proof.
  destruct c as [q | name arg]; cbn [run_call].
  - destruct (send_cases w q) as [Hb | dt d Hb | dt cause Hb].
    + now apply called_still.
    + now apply (called_answered K w (CallSend q) q).
    + now apply (called_failed K w (CallSend q) q).
  - destruct (dict_get name (commands (self w))) as [base|] eqn:Hbase.
    + destruct (command_cases w name arg base Hbase)
        as [Hb | dt r Hb Hr | dt cause Hb].
      * now apply called_still.
      * apply (called_answered K w _ (built_query base arg)); try assumption.
        cbn [query_of]. now rewrite Hbase.
      * apply (called_failed K w _ (built_query base arg)); try easy.
        cbn [query_of]. now rewrite Hbase.
    + unfold async_send_command. rewrite Hbase.
      apply called_still. discriminate.
Qed.

(** *** One exchange at a time *)

Lemma in_flight_call (w w' : World) (c : call) (r : outcome cmd_result) :
  called K w c (w', r) ->
  in_flight (trace w) = Some 0 -> in_flight (trace w') = Some 0.
Proof.
  intros Hc H. inversion Hc; subst; [exact H | |];
    cbn [after_success after_failure trace in_flight]; now rewrite H.
Qed.

Lemma resume_world (l : Loop) (slept : list (nat * call)) (c : call) :
  world (resume K net literal_eval l slept c)
  = fst (run_call K net literal_eval (world l) c).
Proof.
  unfold resume. destruct (run_call K net literal_eval (world l) c) as [w' [x | e |]];
    reflexivity.
Qed.

Lemma in_flight_step (l l' : Loop) (s : sched) :
  step K net literal_eval l s = Some l' ->
  in_flight (trace (world l)) = Some 0 ->
  in_flight (trace (world l')) = Some 0.
Proof.
  intros Hs H.
  assert (Hr : forall slept c,
             in_flight (trace (world (resume K net literal_eval l slept c)))
             = Some 0).
  { intros slept c. rewrite resume_world.
    pose proof (run_call_cases (world l) c) as Hc.
    destruct (run_call K net literal_eval (world l) c) as [w' r].
    exact (in_flight_call _ _ _ _ Hc H). }
  destruct s as [dt | c | i | i]; cbn [step] in Hs.
  - injection Hs as <-. exact H.
  - injection Hs as <-. apply Hr.
  - destruct (nth_error (sleepers l) i) as [[wake c]|]; [|discriminate].
    destruct (wake <=? clock (world l)); [|discriminate].
    injection Hs as <-. apply Hr.
  - destruct (nth_error (lazy_tasks (world l)) i) as [wake|]; [|discriminate].
    destruct (wake <=? clock (world l)); [|discriminate].
    injection Hs as <-. cbn. now rewrite H.
Qed.

(** C8.  Whatever the loop does with any number of concurrent callers,
    the exchanges with the device follow one another: none begins while
    another is in flight, and none is in flight when control is back in
    the loop.  A step that begins an exchange found the gate open, set
    the flag and ended the exchange within that same step. *)
Theorem one_exchange_at_a_time (l l' : Loop) (ss : list sched) :
  in_flight (trace (world l)) = Some 0 ->
  run K net literal_eval l ss = Some l' ->
  in_flight (trace (world l')) = Some 0
  /\ forall l1 s l2,
      step K net literal_eval l1 s = Some l2 ->
      exchanges (trace (world l2)) <> exchanges (trace (world l1)) ->
      busy (world l1) = false
      /\ exists q rest,
          trace (world l2)
          = rest ++ Ended (clock (world l2)) :: Began (clock (world l1)) q
                 :: trace (world l1)
          /\ (rest = [] \/ rest = [Cooldown (clock (world l2))]).
Proof.
  intros H Hrun. split.
  - revert l H Hrun. induction ss as [|s ss IH]; intros l H Hrun.
    + injection Hrun as <-. exact H.
    + cbn [run] in Hrun.
      destruct (step K net literal_eval l s) as [l1|] eqn:Hs; [|discriminate].
      exact (IH l1 (in_flight_step _ _ _ Hs H) Hrun).
  - clear. intros l1 s l2 Hs Hne.
    assert (Hr : forall slept c,
               exchanges (trace (world (resume K net literal_eval l1 slept c)))
               <> exchanges (trace (world l1)) ->
               busy (world l1) = false
               /\ exists q rest,
                   trace (world (resume K net literal_eval l1 slept c))
                   = rest ++ Ended (clock (world (resume K net literal_eval l1 slept c)))
                          :: Began (clock (world l1)) q :: trace (world l1)
                   /\ (rest = [] \/ rest = [Cooldown (clock (world (resume K net literal_eval l1 slept c)))])).
    { intros slept c. rewrite resume_world.
      pose proof (run_call_cases (world l1) c) as Hc.
      destruct (run_call K net literal_eval (world l1) c) as [w' r].
      cbn [fst]. intros Hx. inversion Hc; subst.
      - now elim Hx.
      - split; [assumption|]. exists q, []. now split; [|left].
      - split; [assumption|]. exists q, [Cooldown (clock (world l1) + dt)].
        now split; [|right]. }
    destruct s as [dt | c | i | i]; cbn [step] in Hs.
    + injection Hs as <-. now elim Hne.
    + injection Hs as <-. now apply Hr.
    + destruct (nth_error (sleepers l1) i) as [[wake c]|]; [|discriminate].
      destruct (wake <=? clock (world l1)); [|discriminate].
      injection Hs as <-. now apply Hr.
    + destruct (nth_error (lazy_tasks (world l1)) i) as [wake|]; [|discriminate].
      destruct (wake <=? clock (world l1)); [|discriminate].
      injection Hs as <-. now elim Hne.
Qed.

(** *** The cooldown *)

Lemma cooling_open (sleep : nat) (w : World) :
  cooling sleep w -> busy w = false ->
  pending_cooldown (trace w) = None /\ lazy_tasks w = [].
Proof.
  unfold cooling. destruct (pending_cooldown (trace w)).
  - intros [Hb _] Hb'. congruence.
  - intros [_ Hl] _. now split.
Qed.

Lemma steady_call (table : dict (list pyval)) (w w' : World) (c : call)
      (r : outcome cmd_result) :
  called K w c (w', r) -> sends_some table c ->
  steady_world K table w -> steady_world K table w'.
Proof.
  intros Hc Hq (Ht & Hcool & Hresp & Htime & Hlat).
  inversion Hc as [r0 _ | q dt r0 Hb Hquery Hr | q dt r0 cause Hb Hquery Hr];
    subst.
  - now repeat split.
  - destruct (cooling_open _ _ Hcool Hb) as [Hp Hl].
    unfold steady_world, cooling.
    cbn [after_success self clock lazy_tasks trace commands set_running
         set_last_error pending_cooldown respected timely latest time_of].
    rewrite Hp. repeat split; try assumption; try reflexivity; lia.
  - destruct (cooling_open _ _ Hcool Hb) as [Hp Hl].
    assert (Hne : busy (after_failure K w q dt cause) = true).
    { unfold sends_some in Hq. rewrite Hquery in Hq.
      destruct q; [now elim Hq | reflexivity]. }
    unfold steady_world, cooling.
    cbn [after_failure self clock lazy_tasks trace commands set_running
         set_last_error pending_cooldown respected timely latest time_of].
    rewrite Hl, Hp. repeat split; try assumption; try reflexivity; lia.
Qed.

Lemma steady_resume (table : dict (list pyval)) (l : Loop)
      (slept : list (nat * call)) (c : call) :
  steady_world K table (world l) ->
  Forall (fun p => sends_some table (snd p)) slept ->
  sends_some table c ->
  steady K table (resume K net literal_eval l slept c).
Proof.
  intros Hw Hs Hc. split.
  - rewrite resume_world.
    pose proof (run_call_cases (world l) c) as Hcall.
    destruct (run_call K net literal_eval (world l) c) as [w' r].
    exact (steady_call table _ _ _ _ Hcall Hc Hw).
  - unfold resume.
    destruct (run_call K net literal_eval (world l) c) as [w' [x | e |]];
      cbn [sleepers]; try assumption.
    apply Forall_app. split; [assumption|]. now constructor.
Qed.

Lemma Forall_remove_nth {A : Type} (P : A -> Prop) (i : nat) (l : list A) :
  Forall P l -> Forall P (remove_nth i l).
Proof.
  revert i; induction l as [|x l IH]; intros i H.
  - now destruct i.
  - inversion H; subst. destruct i as [|i]; cbn [remove_nth]; [assumption|].
    constructor; [assumption | now apply IH].
Qed.

Lemma steady_step (table : dict (list pyval)) (l l' : Loop) (s : sched) :
  steady K table l -> sends_tokens table s = true ->
  step K net literal_eval l s = Some l' -> steady K table l'.
Proof.
  intros [Hw Hsl] Hok Hs.
  destruct s as [dt | c | i | i]; cbn [step] in Hs.
  - injection Hs as <-. split; [|exact Hsl].
    destruct Hw as (Ht & Hcool & Hresp & Htime & Hlat).
    repeat split; try assumption. cbn. lia.
  - injection Hs as <-. apply steady_resume; try assumption.
    unfold sends_some. cbn [sends_tokens] in Hok.
    destruct (query_of table c) as [[|]|]; congruence.
  - destruct (nth_error (sleepers l) i) as [[wake c]|] eqn:Hn; [|discriminate].
    destruct (wake <=? clock (world l)); [|discriminate].
    injection Hs as <-. apply steady_resume; try assumption.
    + now apply Forall_remove_nth.
    + apply nth_error_In in Hn.
      rewrite Forall_forall in Hsl. exact (Hsl _ Hn).
  - destruct (nth_error (lazy_tasks (world l)) i) as [wake|] eqn:Hn; [|discriminate].
    destruct (Nat.leb_spec wake (clock (world l))) as [Hle|]; [|discriminate].
    injection Hs as <-. split; [|exact Hsl].
    destruct Hw as (Ht & Hcool & Hresp & Htime & Hlat).
    unfold steady_world, cooling in *.
    cbn [_i_am_lazy log with_self world self clock lazy_tasks trace commands
         set_running pending_cooldown respected timely latest time_of].
    destruct (pending_cooldown (trace (world l))) as [t|].
    + destruct Hcool as [Hb Hl]. rewrite Hl in Hn |- *.
      destruct i as [|[|i]]; try discriminate Hn.
      injection Hn as <-. repeat split; try assumption; try reflexivity; lia.
    + destruct Hcool as [_ Hl]. rewrite Hl in Hn. now destruct i.
Qed.

Lemma steady_run (table : dict (list pyval)) (ss : list sched) :
  forall l l',
    steady K table l -> forallb (sends_tokens table) ss = true ->
    run K net literal_eval l ss = Some l' -> steady K table l'.
Proof.
  induction ss as [|s ss IH]; intros l l' Hl Hok Hrun.
  - injection Hrun as <-. exact Hl.
  - cbn [run forallb] in *. apply andb_prop in Hok as [Hs Hss].
    destruct (step K net literal_eval l s) as [l1|] eqn:Hstep; [|discriminate].
    exact (IH l1 l' (steady_step table _ _ _ Hl Hs Hstep) Hss Hrun).
Qed.

Lemma steady_boot (table : dict (list pyval)) : steady K table (boot table).
Proof.
  unfold steady, steady_world, cooling. cbn.
  repeat split; auto.
Qed.

End WithDevice.

(** *** Records of events in the order of time *)

Lemma timely_in (tr : list io_event) (e : io_event) :
  timely tr -> In e tr -> time_of e <= latest tr.
Proof.
  induction tr as [|x tr IH]; [contradiction|].
  intros [Hx Ht] [-> | Hin]; cbn [latest]; [lia|].
  specialize (IH Ht Hin). lia.
Qed.

Lemma timely_tail (a b : list io_event) : timely (a ++ b) -> timely b.
Proof.
  induction a as [|x a IH]; [trivial|]. intros [_ H]. exact (IH H).
Qed.

Lemma timely_split (a b : list io_event) (e x : io_event) :
  timely (a ++ e :: b) -> In x a -> time_of e <= time_of x.
Proof.
  induction a as [|y a IH]; [contradiction|].
  cbn [app timely]. intros [Hy Ht] [-> | Hin]; [|exact (IH Ht Hin)].
  assert (time_of e <= latest (a ++ e :: b))
    by (apply timely_in; [exact Ht | apply in_elt]).
  lia.
Qed.

Lemma pending_after (later earlier : list io_event) (t t0 : nat) :
  pending_cooldown (later ++ Cooldown t :: earlier) = Some t0 ->
  timely (later ++ Cooldown t :: earlier) -> t <= t0.
Proof.
  induction later as [|e later IH]; cbn [app pending_cooldown].
  - intros [= <-] _. lia.
  - intros Hp Ht.
    destruct e as [t1 q | t1 | t1 | t1]; try discriminate Hp;
      try (destruct Ht as [_ Ht]; exact (IH Hp Ht)).
    injection Hp as ->.
    exact (timely_split (Cooldown t0 :: later) earlier (Cooldown t) (Cooldown t0)
             Ht (or_introl eq_refl)).
Qed.

Lemma pending_none_woke (later earlier : list io_event) (t : nat) :
  pending_cooldown (later ++ Cooldown t :: earlier) = None ->
  exists tw, In (Woke tw) later.
Proof.
  induction later as [|e later IH]; cbn [app pending_cooldown]; [discriminate|].
  destruct e as [t1 q | t1 | t1 | t1]; intros Hp; try discriminate Hp;
    try (destruct (IH Hp) as [tw Hin]; exists tw; now right).
  exists t1. now left.
Qed.

Lemma woke_late (sleep : nat) (later earlier : list io_event) (t : nat) :
  respected sleep (later ++ Cooldown t :: earlier) ->
  timely (later ++ Cooldown t :: earlier) ->
  forall tw, In (Woke tw) later -> t + sleep <= tw.
Proof.
  induction later as [|e later IH]; [contradiction|].
  cbn [app respected timely]. intros [Hr He] [Hl Ht] tw [-> | Hin].
  - destruct (pending_cooldown (later ++ Cooldown t :: earlier)) as [t0|] eqn:Hp.
    + pose proof (pending_after _ _ _ _ Hp Ht). lia.
    + destruct (pending_none_woke _ _ _ Hp) as [tw0 Hin0].
      pose proof (IH Hr Ht tw0 Hin0).
      assert (time_of (Woke tw0) <= latest (later ++ Cooldown t :: earlier))
        by (apply timely_in; [exact Ht | apply in_or_app; now left]).
      cbn [time_of] in *. lia.
  - exact (IH Hr Ht tw Hin).
Qed.

Lemma began_late (sleep : nat) (later earlier : list io_event) (t t' : nat)
      (q : list pyval) :
  respected sleep (later ++ Cooldown t :: earlier) ->
  timely (later ++ Cooldown t :: earlier) ->
  In (Began t' q) later ->
  exists tw, In (Woke tw) later /\ t + sleep <= tw <= t'.
Proof.
  induction later as [|e later IH]; [contradiction|].
  cbn [app respected timely]. intros [Hr He] [Hl Ht] [-> | Hin].
  - destruct (pending_none_woke _ _ _ He) as [tw Hin].
    exists tw. split; [now right|].
    pose proof (woke_late sleep _ _ _ Hr Ht tw Hin).
    assert (time_of (Woke tw) <= latest (later ++ Cooldown t :: earlier))
      by (apply timely_in; [exact Ht | apply in_or_app; now left]).
    cbn [time_of] in *. lia.
  - destruct (IH Hr Ht Hin) as (tw & Hw & Hb). exists tw. split; [now right | exact Hb].
Qed.

Section Cooldown.

Variable K : Const.
Variable net : nat -> list pyval -> sock_outcome.
Variable literal_eval : string -> option pyval.

Lemma blocked_call (w : World) (c : call) (q : list pyval) :
  busy w = true -> query_of (commands (self w)) c = Some q ->
  run_call K net literal_eval w c = (w, Waiting).
Proof.
  intros Hb Hq. destruct c as [q0 | name arg]; cbn [run_call query_of] in *.
  - unfold send_and_receive. now rewrite Hb.
  - destruct (dict_get name (commands (self w))) as [base|] eqn:Hbase;
      [|discriminate].
    unfold async_send_command. rewrite Hbase.
    unfold send_and_receive. now rewrite Hb.
Qed.

Lemma open_call (w : World) (c : call) (q : list pyval) :
  busy w = false -> query_of (commands (self w)) c = Some q ->
  snd (run_call K net literal_eval w c) <> Waiting
  /\ exists rest,
      trace (fst (run_call K net literal_eval w c))
      = rest ++ Began (clock w) q :: trace w.
Proof.
  intros Hb Hq. destruct c as [q0 | name arg]; cbn [run_call query_of] in *.
  - injection Hq as ->.
    destruct (send_cases K net literal_eval w q) as [Hb' | dt d _ | dt cause _];
      cbn [fst snd]; [congruence | |]; (split; [discriminate|]).
    + now exists [Ended (clock w + dt)].
    + now exists [Cooldown (clock w + dt); Ended (clock w + dt)].
  - destruct (dict_get name (commands (self w))) as [base|] eqn:Hbase;
      [|discriminate].
    injection Hq as <-. fold (built_query base arg).
    destruct (command_cases K net literal_eval w name arg base Hbase)
      as [Hb' | dt r _ Hr | dt cause _];
      cbn [fst snd]; [congruence | |].
    + split; [exact Hr|]. now exists [Ended (clock w + dt)].
    + split; [discriminate|].
      now exists [Cooldown (clock w + dt); Ended (clock w + dt)].
Qed.

(** C3.  When the exchange of a command fails, [async_send_command]
    raises [FourHeatCommandError] around the [DeviceConnectionError] in
    the step of the failure itself, the clock not having moved, with the
    task [_i_am_lazy] left asleep.  In a loop started afresh whose
    calls all send at least one token, every exchange that begins after
    a failure begins no earlier than [RETRY_UPDATE_SLEEP] after it, and
    after [_i_am_lazy] woke to open the gate.  And while the cooldown of
    a failure at [t] runs, the gate is shut with that one task asleep: a
    call that is started or resumed waits and sends nothing; the task
    cannot wake before [t + RETRY_UPDATE_SLEEP]; from then on it can,
    and when it does the gate is open, so that the call which comes
    next, a new one or one that waited, begins its exchange. *)
Theorem cooldown_after_failure (table : dict (list pyval)) :
  (forall w w' name arg base cause,
      dict_get name (commands (self w)) = Some base ->
      send_and_receive K net literal_eval w (built_query base arg)
      = (w', Raise (DeviceConnectionError cause)) ->
      async_send_command K net literal_eval w name arg
      = (w', Raise (FourHeatCommandError (DeviceConnectionError cause)))
      /\ latest (trace w') = clock w'
      /\ pending_cooldown (trace w') = Some (clock w')
      /\ In (clock w' + RETRY_UPDATE_SLEEP K) (lazy_tasks w'))
  /\ (forall ss l',
         forallb (sends_tokens table) ss = true ->
         run K net literal_eval (boot table) ss = Some l' ->
         forall later earlier t t' q,
           trace (world l') = later ++ Cooldown t :: earlier ->
           In (Began t' q) later ->
           t + RETRY_UPDATE_SLEEP K <= t'
           /\ exists tw,
               In (Woke tw) later /\ t + RETRY_UPDATE_SLEEP K <= tw <= t')
  /\ (forall ss l,
         forallb (sends_tokens table) ss = true ->
         run K net literal_eval (boot table) ss = Some l ->
         forall t,
           pending_cooldown (trace (world l)) = Some t ->
           busy (world l) = true
           /\ lazy_tasks (world l) = [t + RETRY_UPDATE_SLEEP K]
           /\ (forall c q,
                  query_of table c = Some q ->
                  run_call K net literal_eval (world l) c = (world l, Waiting))
           /\ (forall dt i,
                  clock (world l) + dt < t + RETRY_UPDATE_SLEEP K ->
                  run K net literal_eval l [Tick dt; Fire i] = None)
           /\ (forall dt,
                  t + RETRY_UPDATE_SLEEP K <= clock (world l) + dt ->
                  exists l2,
                    run K net literal_eval l [Tick dt; Fire 0] = Some l2
                    /\ busy (world l2) = false
                    /\ lazy_tasks (world l2) = []
                    /\ trace (world l2)
                       = Woke (clock (world l) + dt) :: trace (world l)
                    /\ sleepers l2 = sleepers l
                    /\ forall c q,
                        query_of table c = Some q ->
                        snd (run_call K net literal_eval (world l2) c) <> Waiting
                        /\ exists rest,
                            trace (fst (run_call K net literal_eval (world l2) c))
                            = rest ++ Began (clock (world l) + dt) q
                                   :: trace (world l2))).
Proof.
  split; [|split].
  - intros w w' name arg base cause Hbase Hsend.
    split.
    + unfold async_send_command. rewrite Hbase. fold (built_query base arg).
      now rewrite Hsend.
    + pose proof (send_cases K net literal_eval w (built_query base arg)) as Hc.
      rewrite Hsend in Hc. inversion Hc; subst.
      split; [reflexivity|]. split; [reflexivity|].
      cbn [after_failure lazy_tasks clock].
      apply in_or_app. right. now left.
  - intros ss l' Hok Hrun later earlier t t' q Htr Hin.
    destruct (steady_run K net literal_eval table ss _ _
                (steady_boot K table) Hok Hrun)
      as [(_ & _ & Hresp & Htime & _) _].
    rewrite Htr in Hresp, Htime.
    destruct (began_late _ _ _ _ _ _ Hresp Htime Hin) as (tw & Hw & Hb).
    split; [lia|]. now exists tw.
  - intros ss l Hok Hrun t Hp.
    destruct (steady_run K net literal_eval table ss _ _
                (steady_boot K table) Hok Hrun)
      as [(Hcmd & Hcool & _) _].
    unfold cooling in Hcool. rewrite Hp in Hcool. destruct Hcool as [Hb Hl].
    split; [exact Hb|]. split; [exact Hl|]. split; [|split].
    + intros c q Hq. apply (blocked_call _ c q Hb). now rewrite Hcmd.
    + intros dt i Hlt. cbn [run step world lazy_tasks clock]. rewrite Hl.
      destruct i as [|[|i]]; cbn [nth_error]; try reflexivity.
      destruct (Nat.leb_spec (t + RETRY_UPDATE_SLEEP K) (clock (world l) + dt));
        [lia | reflexivity].
    + intros dt Hge. cbn [run step world lazy_tasks clock]. rewrite Hl.
      cbn [nth_error].
      destruct (Nat.leb_spec (t + RETRY_UPDATE_SLEEP K) (clock (world l) + dt));
        [|lia].
      eexists. split; [reflexivity|].
      cbn [world sleepers _i_am_lazy log with_self self clock lazy_tasks trace
           remove_nth].
      split; [reflexivity|]. split; [reflexivity|]. split; [reflexivity|].
      split; [reflexivity|].
      intros c q Hq.
      match goal with
      | |- context [run_call K net literal_eval ?w2 c] =>
          apply (open_call w2 c q); [reflexivity | cbn; now rewrite Hcmd]
      end.
Qed.

(** C4, as the code has it.  When the answer is a text on which
    [ast.literal_eval] raises, or one that it reads as [None], a number,
    the empty list or the empty string, or a list with, from its third
    item on, a string of more than six characters in which [int()] finds
    no integer from the eighth character on, [send_and_receive] raises
    [DeviceConnectionError], the error it also records in [_last_error],
    and not [InvalidMessage].  The flag keeps the query, so the gate is
    shut unless the query is empty, and [_i_am_lazy], asleep until
    [RETRY_UPDATE_SLEEP] has passed, opens it.  A text that is read as
    a string with a character in it is no list and is accepted all the
    same, with its first character as status and no reading. *)
Theorem parse_failure_is_connection_error (w : World) (query : list pyval)
        (dt : nat) (text : string) :
  busy w = false ->
  net (exchanges (trace w)) query = Recv dt text ->
  ((literal_eval text = None
    \/ literal_eval text = Some PyNone
    \/ (exists z, literal_eval text = Some (PyInt z))
    \/ literal_eval text = Some (PyList [])
    \/ literal_eval text = Some (PyStr EmptyString)
    \/ exists r0 r1 items s,
        literal_eval text = Some (PyList (r0 :: r1 :: items))
        /\ In (PyStr s) items /\ 6 < String.length s
        /\ py_int (sdrop 7 s) = None) ->
   exists cause w',
     send_and_receive K net literal_eval w query
     = (w', Raise (DeviceConnectionError (Some cause)))
     /\ _last_error (self w') = Some (DeviceConnectionError (Some cause))
     /\ _command_is_running (self w') = PyList query
     /\ busy w' = match query with [] => false | _ :: _ => true end
     /\ clock w' = clock w + dt
     /\ lazy_tasks w' = lazy_tasks w ++ [clock w' + RETRY_UPDATE_SLEEP K]
     /\ busy (_i_am_lazy w') = false)
  /\ (forall c s,
         text <> EmptyString ->
         literal_eval text = Some (PyStr (String c s)) ->
         send_and_receive K net literal_eval w query
         = (after_success w query dt,
            Return (mkData (PyStr (String c EmptyString)) []))).
Proof.
  intros Hb Hnet. unfold send_and_receive. rewrite Hb, Hnet. split.
  - intros Hbad. destruct (String.eqb text EmptyString).
    + eexists _, _. repeat split.
    + assert (Hp : exists e, parse literal_eval text = inl e).
      { unfold parse.
        destruct Hbad
          as [-> | [-> | [[z ->] | [-> | [-> |
                (r0 & r1 & items & s & -> & Hin & Hlen & Hint)]]]]];
          try (cbn [getitem0]; eauto; fail).
        cbn [getitem0 items_from skipn].
        destruct (parse_sensors_bad items s Hin Hlen Hint) as [e ->]. eauto. }
      destruct Hp as [e ->]. eexists _, _. repeat split.
  - intros c s Hne Hlit.
    destruct (String.eqb_spec text EmptyString) as [|_]; [contradiction|].
    unfold parse. rewrite Hlit. cbn [getitem0 items_from].
    now rewrite parse_sensors_chars.
Qed.

End Cooldown.

Lemma parse_failure_is_connection_error_witness :
  (exists cause w',
      send_and_receive K0 (always (Recv 0 "['I', 0, 'I123450x1']"))
                       literal_eval_flat (world0 None) [PyStr "I"]
      = (w', Raise (DeviceConnectionError (Some cause)))
      /\ _last_error (self w') = Some (DeviceConnectionError (Some cause))
      /\ _command_is_running (self w') = PyList [PyStr "I"]
      /\ busy w' = true
      /\ clock w' = clock (world0 None) + 0
      /\ lazy_tasks w' = lazy_tasks (world0 None)
                         ++ [clock w' + RETRY_UPDATE_SLEEP K0]
      /\ busy (_i_am_lazy w') = false)
  /\ send_and_receive K0 (always (Recv 1 "'OK'")) (fun _ => Some (PyStr "OK"))
                      (world0 None) [PyStr "I"]
     = (after_success (world0 None) [PyStr "I"] 1,
        Return (mkData (PyStr "O") [])).
Proof.
  split.
  - apply (proj1 (parse_failure_is_connection_error K0
                    (always (Recv 0 "['I', 0, 'I123450x1']")) literal_eval_flat
                    (world0 None) [PyStr "I"] 0 "['I', 0, 'I123450x1']"
                    eq_refl eq_refl)).
    do 5 right.
    exists (PyStr "I"), (PyInt 0), [PyStr "I123450x1"], "I123450x1".
    split; [reflexivity|]. split; [now left|].
    split; [cbn; lia | reflexivity].
  - apply (proj2 (parse_failure_is_connection_error K0
                    (always (Recv 1 "'OK'")) (fun _ => Some (PyStr "OK"))
                    (world0 None) [PyStr "I"] 1 "'OK'" eq_refl eq_refl)
             "O"%char "K");
      [discriminate | reflexivity].
Defined.

(** C4 as it is worded fails: on an unterminated list the error is a
    [DeviceConnectionError], not [InvalidMessage], and the gate stays
    shut when the call is over. *)
Lemma malformed_literal_not_invalid_message :
  literal_eval_flat "['I', 0" = None
  /\ snd (send_and_receive K0 (always (Recv 0 "['I', 0")) literal_eval_flat
            (world0 None) [PyStr "I"])
     = Raise (DeviceConnectionError (Some LiteralError))
  /\ snd (send_and_receive K0 (always (Recv 0 "['I', 0")) literal_eval_flat
            (world0 None) [PyStr "I"])
     <> Raise InvalidMessage
  /\ busy (fst (send_and_receive K0 (always (Recv 0 "['I', 0")) literal_eval_flat
                  (world0 None) [PyStr "I"]))
     = true.
Proof. repeat split. discriminate. Qed.

Lemma cooldown_after_failure_witness :
  exists l,
    run K0 (script [SockRaise 10 "timed out"; Recv 1 "['I', 0]"])
        literal_eval_flat (boot table0)
        [Spawn (CallCommand "info" None); Spawn (CallCommand "get" None)]
    = Some l
    /\ sleepers l = [(11, CallCommand "get" None)]
    /\ pending_cooldown (trace (world l)) = Some 10
    /\ (busy (world l) = true
        /\ lazy_tasks (world l) = [10 + RETRY_UPDATE_SLEEP K0]
        /\ (forall c q,
               query_of table0 c = Some q ->
               run_call K0 (script [SockRaise 10 "timed out"; Recv 1 "['I', 0]"])
                        literal_eval_flat (world l) c
               = (world l, Waiting))
        /\ (forall dt i,
               clock (world l) + dt < 10 + RETRY_UPDATE_SLEEP K0 ->
               run K0 (script [SockRaise 10 "timed out"; Recv 1 "['I', 0]"])
                   literal_eval_flat l [Tick dt; Fire i]
               = None)
        /\ (forall dt,
               10 + RETRY_UPDATE_SLEEP K0 <= clock (world l) + dt ->
               exists l2,
                 run K0 (script [SockRaise 10 "timed out"; Recv 1 "['I', 0]"])
                     literal_eval_flat l [Tick dt; Fire 0]
                 = Some l2
                 /\ busy (world l2) = false
                 /\ lazy_tasks (world l2) = []
                 /\ trace (world l2)
                    = Woke (clock (world l) + dt) :: trace (world l)
                 /\ sleepers l2 = sleepers l
                 /\ forall c q,
                     query_of table0 c = Some q ->
                     snd (run_call K0
                            (script [SockRaise 10 "timed out"; Recv 1 "['I', 0]"])
                            literal_eval_flat (world l2) c)
                     <> Waiting
                     /\ exists rest,
                         trace (fst (run_call K0
                                       (script [SockRaise 10 "timed out";
                                                Recv 1 "['I', 0]"])
                                       literal_eval_flat (world l2) c))
                         = rest ++ Began (clock (world l) + dt) q
                                :: trace (world l2))).
Proof.
  eexists. split; [reflexivity|]. split; [reflexivity|]. split; [reflexivity|].
  apply (proj2 (proj2 (cooldown_after_failure K0
                         (script [SockRaise 10 "timed out"; Recv 1 "['I', 0]"])
                         literal_eval_flat table0))
           [Spawn (CallCommand "info" None); Spawn (CallCommand "get" None)]
           _ eq_refl eq_refl 10 eq_refl).
Defined.

Lemma one_exchange_at_a_time_witness :
  in_flight
    (trace (world
       (resume K0 (always (Recv 0 "['I', 0]")) literal_eval_flat
          (resume K0 (always (Recv 0 "['I', 0]")) literal_eval_flat
             (boot table0) [] (CallCommand "info" None))
          [] (CallCommand "get" None))))
  = Some 0.
Proof.
  apply (one_exchange_at_a_time K0 (always (Recv 0 "['I', 0]")) literal_eval_flat
           (boot table0) _
           [Spawn (CallCommand "info" None); Spawn (CallCommand "get" None)]).
  - reflexivity.
  - reflexivity.
Defined.

Lemma gate_returns_to_idle_witness :
  busy (fst (async_send_command K0 (always (SockRaise 0 "timed out"))
               literal_eval_flat (world0 None) "info" None)) = false
  \/ (exists cause,
         Raise (FourHeatCommandError (DeviceConnectionError (Some (OSError "timed out"))))
         = Raise (A := cmd_result)
             (FourHeatCommandError (DeviceConnectionError (Some cause))))
     /\ lazy_tasks (fst (async_send_command K0 (always (SockRaise 0 "timed out"))
                           literal_eval_flat (world0 None) "info" None))
        = lazy_tasks (world0 None)
          ++ [clock (fst (async_send_command K0 (always (SockRaise 0 "timed out"))
                            literal_eval_flat (world0 None) "info" None))
              + RETRY_UPDATE_SLEEP K0]
     /\ forall sl fin,
         exists l2,
           run K0 (always (SockRaise 0 "timed out")) literal_eval_flat
               (mkLoop (fst (async_send_command K0 (always (SockRaise 0 "timed out"))
                               literal_eval_flat (world0 None) "info" None))
                       sl fin)
               [Tick (RETRY_UPDATE_SLEEP K0);
                Fire (List.length (lazy_tasks (world0 None)))]
           = Some l2
           /\ busy (world l2) = false.
Proof.
  apply (gate_returns_to_idle K0 (always (SockRaise 0 "timed out"))
           literal_eval_flat (world0 None) _ "info" None [PyStr "I"]
           (Raise (FourHeatCommandError
                     (DeviceConnectionError (Some (OSError "timed out")))))).
  - reflexivity.
  - reflexivity.
  - discriminate.
Defined.

End GateFacts.

(** ** Reading and writing attributes *)

Module FacadeFacts.

Import Device Loop Gate Sample GateFacts.
Local Open Scope nat_scope.
Local Open Scope list_scope.

Lemma dict_get_set_same {V : Type} (k : string) (v : V) (m : dict V) :
  dict_get k (dict_set k v m) = Some v.
Proof.
  induction m as [|[k' v'] m IH]; cbn [dict_set dict_get].
  - now rewrite String.eqb_refl.
  - destruct (String.eqb k k') eqn:E; cbn [dict_get]; rewrite E; [reflexivity | exact IH].
Qed.

Section WithDevice.

Variable K : Const.
Variable net : nat -> list pyval -> sock_outcome.
Variable literal_eval : string -> option pyval.

(** C7, as the code has it.  [async_set_state] first tests the name,
    and raises with the world as it was, record of exchanges included:
    [TypeError] when the cache is [None], as it is until [initialize]
    has filled it; [AttributeError] when the name has no entry, and when
    its entry is of type [J].  Otherwise it goes on to the command
    [set], at once or after a wait at the gate, and the tests are not
    made again.  Whenever it runs from there: if the gate is shut it
    waits and nothing changes; if the command raises, the cache is as it
    was; and if the command returns, the entry of the name in the cache
    of that moment takes the value that was asked for, whatever the
    device echoed, nothing else of the cache changes and the call
    returns [True], or, the entry or the cache being gone, the call
    raises [KeyError] or [TypeError]. *)
Theorem set_state_checks (w : World) (attr : string) (value : Z) :
  match sensors (self w) with
  | None =>
      async_set_state K net literal_eval w attr value = (w, Raise TypeError)
  | Some m =>
      match dict_get attr m with
      | None =>
          async_set_state K net literal_eval w attr value
          = (w, Raise (AttributeError
                         ("Device doesn't have such attribute " ++ attr)))
      | Some e =>
          if String.eqb (e_sensor_type e) "J"
          then async_set_state K net literal_eval w attr value
               = (w, Raise (AttributeError "Attribute is read only"))
          else async_set_state K net literal_eval w attr value
               = Write.set_state_from_await K net literal_eval w attr value
      end
  end
  /\ forall w2,
      match async_send_command K net literal_eval w2 "set"
              (Some [PyStr (token "B" attr value)]) with
      | (w3, Waiting) =>
          Write.set_state_from_await K net literal_eval w2 attr value
          = (w2, Waiting)
          /\ busy w2 = true
      | (w3, Raise err) =>
          Write.set_state_from_await K net literal_eval w2 attr value
          = (w3, Raise (wrap_command_error err))
          /\ sensors (self w3) = sensors (self w2)
      | (w3, Return _) =>
          busy w3 = false
          /\ match sensors (self w2) with
             | None =>
                 Write.set_state_from_await K net literal_eval w2 attr value
                 = (w3, Raise TypeError)
             | Some m2 =>
                 match dict_get attr m2 with
                 | None =>
                     Write.set_state_from_await K net literal_eval w2 attr value
                     = (w3, Raise (KeyError attr))
                 | Some e2 =>
                     exists w',
                       Write.set_state_from_await K net literal_eval w2 attr value
                       = (w', Return true)
                       /\ sensors (self w')
                          = Some (dict_set attr
                                    (mkEntry (e_id e2) (e_sensor_type e2) value)
                                    m2)
                       /\ dict_get attr
                            (dict_set attr
                               (mkEntry (e_id e2) (e_sensor_type e2) value) m2)
                          = Some (mkEntry (e_id e2) (e_sensor_type e2) value)
                       /\ trace w' = trace w3
                       /\ busy w' = false
                 end
             end
      end.
Proof.
  split.
  - unfold async_set_state, Write.set_state_from_await.
    destruct (sensors (self w)) as [m|]; [|reflexivity].
    destruct (dict_get attr m) as [e|]; [|reflexivity].
    destruct (String.eqb (e_sensor_type e) "J"); reflexivity.
  - intros w2. unfold Write.set_state_from_await.
    assert (Hk : sensors
                   (self (fst (async_send_command K net literal_eval w2 "set"
                                 (Some [PyStr (token "B" attr value)]))))
                 = sensors (self w2)).
    { destruct (dict_get "set" (commands (self w2))) as [base|] eqn:Hbase.
      - destruct (command_cases K net literal_eval w2 "set"
                    (Some [PyStr (token "B" attr value)]) base Hbase);
          reflexivity.
      - unfold async_send_command. now rewrite Hbase. }
    assert (Hw : match async_send_command K net literal_eval w2 "set"
                         (Some [PyStr (token "B" attr value)]) with
                 | (w3, Waiting) => w3 = w2 /\ busy w2 = true
                 | (w3, Return _) => busy w3 = false
                 | (w3, Raise _) => True
                 end).
    { destruct (dict_get "set" (commands (self w2))) as [base|] eqn:Hbase.
      - pose proof (command_cases K net literal_eval w2 "set"
                      (Some [PyStr (token "B" attr value)]) base Hbase) as Hc.
        destruct (async_send_command K net literal_eval w2 "set"
                    (Some [PyStr (token "B" attr value)])) as [w3 [x | err |]];
          inversion Hc; subst; easy.
      - unfold async_send_command. now rewrite Hbase. }
    destruct (async_send_command K net literal_eval w2 "set"
                (Some [PyStr (token "B" attr value)])) as [w3 [x | err |]];
      cbn [fst] in Hk.
    + split; [exact Hw|]. unfold store_value. rewrite Hk.
      destruct (sensors (self w2)) as [m2|]; [|reflexivity].
      destruct (dict_get attr m2) as [e2|]; [|reflexivity].
      eexists. split; [reflexivity|].
      cbn [with_self self set_sensors sensors trace busy _command_is_running].
      split; [reflexivity|]. split; [apply dict_get_set_same|].
      split; [reflexivity | exact Hw].
    + now split.
    + destruct Hw as [-> Hb]. now split.
Qed.

(** C9.  As long as [initialized] is false every accessor of the device
    returns [None]: the properties [status], [settings], [model],
    [serial], [manufacturer] and [attributes], [info] for every name and
    [__getattr__] for every name. *)
Theorem accessors_before_initialize (d : FourHeatDevice) :
  initialized d = false ->
  status K d = Return None
  /\ settings d = Return None
  /\ model d = Return None
  /\ serial d = Return None
  /\ manufacturer d = Return None
  /\ attributes d = Return None
  /\ (forall attr, info d attr = Return None)
  /\ (forall attr, getattr d attr = Return None).
Proof.
  intros H.
  unfold status, settings, model, serial, manufacturer, attributes, info, getattr.
  rewrite H. repeat split.
Qed.

(** What [async_update_data] does with a status that is not
    [RESULT_ERROR], whatever it is, when [RESULT_OK] is not the empty
    string: the test [result["result"] == RESULT_INFO or RESULT_OK] is
    true and the readings go into the cache. *)
Lemma update_merges_unless_error (w w1 : World) (result : data)
      (m : dict entry) :
  RESULT_OK K <> EmptyString ->
  send_and_receive K net literal_eval w (INFO_QUERY K) = (w1, Return result) ->
  pyval_eqb (d_result result) (PyStr (RESULT_ERROR K)) = false ->
  sensors (self w1) = Some m ->
  async_update_data K net literal_eval w
  = (with_self (fun s => set_last_error None
                           (set_sensors (Some (merge_readings m (d_sensors result))) s))
               w1,
     Return tt).
Proof.
  intros Hok Hsend Herr Hm. unfold async_update_data.
  rewrite Hsend, Herr, Hm.
  assert (Ht : truthy (PyStr (RESULT_OK K)) = true).
  { cbn [truthy]. destruct (String.eqb_spec (RESULT_OK K) EmptyString);
      [contradiction | reflexivity]. }
  rewrite Ht, orb_true_r. reflexivity.
Qed.

(** What [async_get_state] does with one name: the test
    [all(item in self.sensors for item in attr)] looks up each character
    of the name, and raises when the first one is no key of the cache. *)
Lemma get_state_looks_up_characters (w : World) (c : ascii) (r : string)
      (m : dict entry) :
  sensors (self w) = Some m ->
  dict_mem (String c r) m = true ->
  dict_mem (String c EmptyString) m = false ->
  async_get_state K net literal_eval w (AttrStr (String c r))
  = (w, Raise (AttributeError "Device doesn't have one of the attributes asked")).
Proof.
  intros Hm Hin Hc. unfold async_get_state, get_checked, in_sensors.
  cbn [attr_items chars all_in_sensors]. unfold in_sensors.
  rewrite Hm, Hin, Hc. reflexivity.
Qed.

End WithDevice.

Lemma set_state_checks_witness :
  (async_set_state K0 (always (Recv 1 "['A', 0, 'A003000000000000042']"))
                   literal_eval_flat
                   (world0 (Some [("00300", mkEntry None "J" 0%Z)])) "00300" 42
   = (world0 (Some [("00300", mkEntry None "J" 0%Z)]),
      Raise (AttributeError "Attribute is read only")))
  /\ (busy (after_success (world0 (Some [("00300", mkEntry None "I" 0%Z)]))
              [PyStr "A"; PyStr "1"; PyStr "B00300000000000042"] 1)
      = false
      /\ exists w',
          Write.set_state_from_await
            K0 (always (Recv 1 "['A', 0, 'A003000000000000042']"))
            literal_eval_flat
            (world0 (Some [("00300", mkEntry None "I" 0%Z)])) "00300" 42
          = (w', Return true)
          /\ sensors (self w') = Some [("00300", mkEntry None "I" 42%Z)]
          /\ dict_get "00300" [("00300", mkEntry None "I" 42%Z)]
             = Some (mkEntry None "I" 42%Z)
          /\ trace w'
             = trace (after_success
                        (world0 (Some [("00300", mkEntry None "I" 0%Z)]))
                        [PyStr "A"; PyStr "1"; PyStr "B00300000000000042"] 1)
          /\ busy w' = false).
Proof.
  split.
  - exact (proj1 (set_state_checks K0
                    (always (Recv 1 "['A', 0, 'A003000000000000042']"))
                    literal_eval_flat
                    (world0 (Some [("00300", mkEntry None "J" 0%Z)]))
                    "00300" 42)).
  - exact (proj2 (set_state_checks K0
                    (always (Recv 1 "['A', 0, 'A003000000000000042']"))
                    literal_eval_flat
                    (world0 (Some [("00300", mkEntry None "I" 0%Z)]))
                    "00300" 42)
             (world0 (Some [("00300", mkEntry None "I" 0%Z)]))).
Defined.

(** C7 as it is worded fails: on a device that [initialize] has not
    filled, where the cache is [None], the call raises [TypeError] and
    not an attribute error; so it does on the device that [initialize]
    leaves after an answer with the status [RESULT_ERROR]. *)
Lemma set_state_before_initialize :
  sensors (init table0) = None
  /\ async_set_state K0 (always (Recv 1 "['A', 0, 'A003000000000000042']"))
                     literal_eval_flat (mkWorld (init table0) 0 [] [])
                     "00300" 42
     = (mkWorld (init table0) 0 [] [], Raise TypeError)
  /\ (forall msg, TypeError <> AttributeError msg).
Proof. repeat split. discriminate. Qed.

Lemma accessors_before_initialize_witness :
  status K0 (init table0) = Return None
  /\ settings (init table0) = Return None
  /\ model (init table0) = Return None
  /\ serial (init table0) = Return None
  /\ manufacturer (init table0) = Return None
  /\ attributes (init table0) = Return None
  /\ (forall attr, info (init table0) attr = Return None)
  /\ (forall attr, getattr (init table0) attr = Return None).
Proof. apply (accessors_before_initialize K0 (init table0)). reflexivity. Defined.

(** C2 fails on the code at an unknown status: with the status [X],
    which is none of [RESULT_ERROR], [RESULT_INFO] and [RESULT_OK], the
    reading of the answer goes into the cache all the same. *)
Lemma unknown_status_is_merged :
  async_update_data K0 (always (Recv 1 "['X', 0, 'I005000000000000123']"))
                    literal_eval_flat (world0 (Some []))
  = (after_success
       (world0 (Some [("00500", mkEntry None "I" 123%Z)])) (INFO_QUERY K0) 1,
     Return tt)
  /\ "X" <> RESULT_ERROR K0 /\ "X" <> RESULT_INFO K0 /\ "X" <> RESULT_OK K0.
Proof. repeat split; discriminate. Qed.

(** C6 fails on the code for one name: [00500] has an entry, and the
    call raises without sending anything, since the character [0] has
    none. *)
Lemma single_name_is_refused :
  async_get_state K0 (always (Recv 1 "['I', 0, 'I005000000000000123']"))
                  literal_eval_flat
                  (world0 (Some [("00500", mkEntry None "I" 0%Z)]))
                  (AttrStr "00500")
  = (world0 (Some [("00500", mkEntry None "I" 0%Z)]),
     Raise (AttributeError "Device doesn't have one of the attributes asked")).
Proof. reflexivity. Qed.

(** *** Worked examples *)

(** A list of names goes through; each token travels in a list of its
    own, and the answer is written back. *)
Example get_state_list :
  async_get_state K0 (always (Recv 1 "['I', 0, 'I005000000000000123']"))
                  literal_eval_flat
                  (world0 (Some [("00500", mkEntry None "J" 0%Z)]))
                  (AttrList ["00500"])
  = (after_success
       (world0 (Some [("00500", mkEntry None "I" 123%Z)]))
       [PyStr "I"; PyList [PyStr "I00500000000000000"]] 1,
     Return (mkData (PyStr "I") [mkReading "00500" "I" 123])).
Proof. reflexivity. Qed.

(** A name that is not in the cache raises before anything is sent. *)
Example get_state_unknown :
  async_get_state K0 (always (Recv 1 "['I', 0, 'I005000000000000123']"))
                  literal_eval_flat
                  (world0 (Some [("00500", mkEntry None "J" 0%Z)]))
                  (AttrList ["00500"; "00600"])
  = (world0 (Some [("00500", mkEntry None "J" 0%Z)]),
     Raise (AttributeError "Device doesn't have one of the attributes asked")).
Proof. reflexivity. Qed.

(** The cache takes the written value, not the echoed one: of
    [100000000042] the acknowledgement test reads [42], which the
    device echoes. *)
Example set_state_keeps_written_value :
  async_set_state K0 (always (Recv 1 "['A', 0, 'A003000000000000042']"))
                  literal_eval_flat
                  (world0 (Some [("00300", mkEntry None "I" 0%Z)]))
                  "00300" 100000000042
  = (after_success
       (world0 (Some [("00300", mkEntry None "I" 100000000042%Z)]))
       [PyStr "A"; PyStr "1"; PyStr "B00300100000000042"] 1,
     Return true).
Proof. reflexivity. Qed.

(** A write that finds the gate shut waits; run again once
    [_i_am_lazy] has opened the gate, it sends its token and the cache
    takes the value. *)
Example write_after_wait :
  let w := mkWorld (mkDevice table0 None None
                             (Some [("00300", mkEntry None "I" 0%Z)]) true
                             (Some (DeviceConnectionError (Some (OSError "timed out"))))
                             (PyList [PyStr "I"]))
                   15 [15] [Cooldown 10; Ended 10; Began 0 [PyStr "I"]] in
  async_set_state K0 (always (Recv 1 "['A', 0, 'A003000000000000042']"))
                  literal_eval_flat w "00300" 42
  = (w, Waiting)
  /\ exists w',
      Write.set_state_from_await
        K0 (always (Recv 1 "['A', 0, 'A003000000000000042']")) literal_eval_flat
        (_i_am_lazy w) "00300" 42
      = (w', Return true)
      /\ sensors (self w') = Some [("00300", mkEntry None "I" 42%Z)]
      /\ trace w'
         = [Ended 16; Began 15 [PyStr "A"; PyStr "1"; PyStr "B00300000000000042"];
            Woke 15; Cooldown 10; Ended 10; Began 0 [PyStr "I"]].
Proof. split; [reflexivity|]. eexists. repeat split. Qed.

(** With the status [RESULT_ERROR] the refresh asks for every known
    sensor and merges nothing. *)
Example update_on_error_status :
  async_update_data K0
    (script [Recv 1 "['E', 0]"; Recv 1 "['I', 0, 'I005000000000000123']"])
    literal_eval_flat
    (world0 (Some [("00500", mkEntry None "I" 0%Z);
                   ("00600", mkEntry None "J" 7%Z)]))
  = (after_success
       (after_success
          (world0 (Some [("00500", mkEntry None "I" 0%Z);
                         ("00600", mkEntry None "J" 7%Z)]))
          (INFO_QUERY K0) 1)
       [PyStr "I"; PyStr "I00500000000000000"; PyStr "I00600000000000000"] 1,
     Return tt).
Proof. reflexivity. Qed.

(** With the status [RESULT_INFO] the refresh adds the unknown sensor
    and updates the known one, which gains the key [id]. *)
Example update_on_info_status :
  async_update_data K0
    (always (Recv 1 "['I', 0, 'I005000000000000123', 'J007000000000000001']"))
    literal_eval_flat
    (mkWorld (mkDevice table0 None None
                       (Some [("00500", mkEntry None "I" 0%Z)]) true
                       (Some InvalidMessage) PyNone) 0 [] [])
  = (after_success
       (world0 (Some [("00500", mkEntry (Some "00500") "I" 123%Z);
                      ("00700", mkEntry None "J" 1%Z)]))
       (INFO_QUERY K0) 1,
     Return tt).
Proof. reflexivity. Qed.

(** Two callers at an open gate, then a failure and its cooldown. *)
Example run_with_cooldown :
  option_map (fun l => (trace (world l), sleepers l))
    (run K0 (script [Recv 1 "['I', 0]"; SockRaise 10 "timed out"; Recv 1 "['I', 0]"])
         literal_eval_flat (boot table0)
         [Spawn (CallCommand "info" None); Spawn (CallCommand "info" None);
          Spawn (CallCommand "get" None); Tick 1; Resume 0; Tick 4; Fire 0;
          Resume 0])
  = Some ([Ended 17; Began 16 [PyStr "I"]; Woke 16;
           Cooldown 11; Ended 11; Began 1 [PyStr "I"];
           Ended 1; Began 0 [PyStr "I"]],
          []).
Proof. reflexivity. Qed.

(** The sleeping caller cannot be resumed before its second is over,
    nor [_i_am_lazy] before its five. *)
Example too_early :
  run K0 (always (SockRaise 10 "timed out")) literal_eval_flat (boot table0)
      [Spawn (CallCommand "info" None); Tick 4; Fire 0] = None.
Proof. reflexivity. Qed.

End FacadeFacts.

(** ** More on exchanges and commands *)

Module ExchangeFacts.

Import Device Loop Gate Sample GateFacts.
Local Open Scope nat_scope.
Local Open Scope list_scope.

Section WithDevice.

Variable K : Const.
Variable net : nat -> list pyval -> sock_outcome.
Variable literal_eval : string -> option pyval.

(** X1.  Whatever goes wrong in an exchange, [send_and_receive] raises
    a [DeviceConnectionError] and nothing else, and [_last_error] holds
    that very error with the flag still on the query; an exchange that
    goes well clears [_last_error] and the flag and creates no task; a
    caller that finds the gate shut changes nothing. *)
Theorem send_outcomes (w : World) (query : list pyval) :
  match send_and_receive K net literal_eval w query with
  | (w', Waiting) => w' = w /\ busy w = true
  | (w', Return _) =>
      busy w = false /\ _last_error (self w') = None /\ busy w' = false
      /\ lazy_tasks w' = lazy_tasks w
  | (w', Raise e) =>
      busy w = false
      /\ (exists cause, e = DeviceConnectionError (Some cause))
      /\ _last_error (self w') = Some e
      /\ _command_is_running (self w') = PyList query
      /\ exists dt, lazy_tasks w'
                    = lazy_tasks w ++ [clock w + dt + RETRY_UPDATE_SLEEP K]
  end.
Proof.
  destruct (send_cases K net literal_eval w query) as [Hb | dt d Hb | dt cause Hb].
  - now split.
  - now repeat split.
  - split; [exact Hb|]. split; [now exists cause|].
    split; [reflexivity|]. split; [reflexivity|]. now exists dt.
Qed.

Lemma send_keeps (w : World) (query : list pyval) :
  let w' := fst (send_and_receive K net literal_eval w query) in
  sensors (self w') = sensors (self w)
  /\ commands (self w') = commands (self w)
  /\ initialized (self w') = initialized (self w)
  /\ fourheat (self w') = fourheat (self w)
  /\ _settings (self w') = _settings (self w).
Proof.
  destruct (send_cases K net literal_eval w query); now repeat split.
Qed.

Lemma command_keeps (w : World) (name : string) (arg : option (list pyval)) :
  let w' := fst (async_send_command K net literal_eval w name arg) in
  sensors (self w') = sensors (self w)
  /\ commands (self w') = commands (self w)
  /\ initialized (self w') = initialized (self w)
  /\ fourheat (self w') = fourheat (self w)
  /\ _settings (self w') = _settings (self w).
Proof.
  destruct (dict_get name (commands (self w))) as [base|] eqn:Hbase.
  - destruct (command_cases K net literal_eval w name arg base Hbase);
      now repeat split.
  - unfold async_send_command. rewrite Hbase. now repeat split.
Qed.

(** X2.  No exchange and no command touches the cache or the rest of
    what the device knows of itself: [sensors], [commands],
    [initialized], [fourheat] and [_settings] come out of
    [send_and_receive] and of [async_send_command] as they went in. *)
Theorem exchanges_keep_cache (w : World) (query : list pyval) (name : string)
        (arg : option (list pyval)) :
  (let w' := fst (send_and_receive K net literal_eval w query) in
   sensors (self w') = sensors (self w)
   /\ commands (self w') = commands (self w)
   /\ initialized (self w') = initialized (self w)
   /\ fourheat (self w') = fourheat (self w)
   /\ _settings (self w') = _settings (self w))
  /\ (let w' := fst (async_send_command K net literal_eval w name arg) in
      sensors (self w') = sensors (self w)
      /\ commands (self w') = commands (self w)
      /\ initialized (self w') = initialized (self w)
      /\ fourheat (self w') = fourheat (self w)
      /\ _settings (self w') = _settings (self w)).
Proof. split; [apply send_keeps | apply command_keeps]. Qed.

Lemma written_value_errors (q : list pyval) (e : exn) :
  written_value q = inl e -> e = IndexError \/ e = TypeError \/ e = ValueError.
Proof.
  unfold written_value, list_item, int_from.
  destruct (nth_error q 2) as [[| z | s | l]|]; intros H;
    try (injection H as <-; auto).
  destruct (py_int (sdrop 7 s)); [discriminate H | injection H as <-; auto].
Qed.

Lemma ack_matches_errors (result : data) (query : list pyval)
      (value : list pyval -> exn + Z) (ty : string) (e : exn) :
  (forall q e', value q = inl e' ->
                e' = IndexError \/ e' = TypeError \/ e' = ValueError) ->
  ack_matches result query value ty = inl e ->
  e = IndexError \/ e = TypeError \/ e = ValueError.
Proof.
  intros Hv. unfold ack_matches, and_then, list_item.
  destruct (nth_error query 0) as [q0|]; [|intros [= <-]; auto].
  destruct (pyval_eqb (d_result result) q0); [|discriminate].
  destruct (nth_error (d_sensors result) 0) as [s0|]; [|intros [= <-]; auto].
  destruct (nth_error query 2) as [q2|]; [|intros [= <-]; auto].
  destruct (py_slice 1 6 q2) as [e0 | sl] eqn:Hsl.
  - intros [= <-]. unfold py_slice in Hsl.
    destruct q2; try discriminate Hsl; injection Hsl as <-; auto.
  - destruct (pyval_eqb (PyStr (r_id s0)) sl); [|discriminate].
    destruct (value query) as [e0 | v] eqn:Hval.
    + intros [= <-]. exact (Hv _ _ Hval).
    + destruct (Z.eqb (r_value s0) v); discriminate.
Qed.

(** X3.  The errors of [async_send_command].  It raises [InvalidCommand]
    exactly for a name that is not in the table, at once and with
    nothing changed, even when the gate is shut.  For a name of the
    table a failed exchange comes out as [FourHeatCommandError] around
    the [DeviceConnectionError], never as the bare one; [info] and [get]
    raise nothing else, and the other commands may also raise
    [InvalidMessage] or, from the tests on the answer, [IndexError],
    [TypeError] or [ValueError]. *)
Theorem command_errors (w : World) (name : string) (arg : option (list pyval)) :
  match async_send_command K net literal_eval w name arg with
  | (w', Raise e) =>
      (dict_get name (commands (self w)) = None
       /\ e = InvalidCommand name /\ w' = w)
      \/ (dict_get name (commands (self w)) <> None
          /\ ((exists cause,
                  e = FourHeatCommandError (DeviceConnectionError (Some cause)))
              \/ (name <> INFO_COMMAND /\ name <> GET_COMMAND
                  /\ (e = InvalidMessage \/ e = IndexError \/ e = TypeError
                      \/ e = ValueError))))
  | (_, _) => dict_get name (commands (self w)) <> None
  end.
Proof.
  unfold async_send_command.
  destruct (dict_get name (commands (self w))) as [base|] eqn:Hbase;
    [|left; now repeat split].
  fold (built_query base arg).
  destruct (send_cases K net literal_eval w (built_query base arg))
    as [Hb | dt d Hb | dt cause Hb].
  - discriminate.
  - destruct (String.eqb_spec name INFO_COMMAND) as [|Hi]; [discriminate|].
    destruct (String.eqb_spec name GET_COMMAND) as [|Hg]; [discriminate|].
    assert (H0 : forall (q : list pyval) (e' : exn),
               (fun _ : list pyval => @inr exn Z 0%Z) q = inl e' ->
               e' = IndexError \/ e' = TypeError \/ e' = ValueError)
      by discriminate.
    assert (Hon : match
                    (if String.eqb name ON_COMMAND || String.eqb name OFF_COMMAND
                        || String.eqb name UNBLOCK_COMMAND
                     then ack_matches d (built_query base arg)
                                      (fun _ => inr 0%Z) "I"
                     else inr false)
                  with
                  | inl e =>
                      e = InvalidMessage \/ e = IndexError \/ e = TypeError
                      \/ e = ValueError
                  | inr _ => True
                  end).
    { destruct (String.eqb name ON_COMMAND || String.eqb name OFF_COMMAND
                || String.eqb name UNBLOCK_COMMAND); [|exact I].
      destruct (ack_matches d (built_query base arg) (fun _ => inr 0%Z) "I")
        as [e|] eqn:Ea; [|exact I].
      right. exact (ack_matches_errors _ _ _ _ _ H0 Ea). }
    destruct (String.eqb name SET_COMMAND).
    + destruct (ack_matches d (built_query base arg) written_value "A")
        as [e | [|]] eqn:Ea.
      * right. split; [discriminate|]. right. repeat split; try assumption.
        right. exact (ack_matches_errors _ _ _ _ _ written_value_errors Ea).
      * discriminate.
      * destruct (if String.eqb name ON_COMMAND || String.eqb name OFF_COMMAND
                     || String.eqb name UNBLOCK_COMMAND
                  then ack_matches d (built_query base arg) (fun _ => inr 0%Z) "I"
                  else inr false) as [e | [|]].
        -- right. split; [discriminate|]. right. now repeat split.
        -- discriminate.
        -- right. split; [discriminate|]. right. repeat split; auto.
    + destruct (if String.eqb name ON_COMMAND || String.eqb name OFF_COMMAND
                   || String.eqb name UNBLOCK_COMMAND
                then ack_matches d (built_query base arg) (fun _ => inr 0%Z) "I"
                else inr false) as [e | [|]].
      * right. split; [discriminate|]. right. now repeat split.
      * discriminate.
      * right. split; [discriminate|]. right. repeat split; auto.
  - right. split; [discriminate|]. left. now exists cause.
Qed.

End WithDevice.

End ExchangeFacts.

(** ** The cache of readings *)

Module CacheFacts.

Import Device Loop Gate Sample GateFacts ExchangeFacts.
Local Open Scope nat_scope.
Local Open Scope list_scope.

Lemma dict_get_set_other {V : Type} (k k' : string) (v : V) (m : dict V) :
  k' <> k -> dict_get k' (dict_set k v m) = dict_get k' m.
Proof.
  intros Hne. induction m as [|[k0 v0] m IH]; cbn [dict_set dict_get].
  - destruct (String.eqb_spec k' k); [contradiction | reflexivity].
  - destruct (String.eqb_spec k k0) as [-> | Hk]; cbn [dict_get].
    + destruct (String.eqb_spec k' k0); [contradiction | reflexivity].
    + destruct (String.eqb k' k0); [reflexivity | exact IH].
Qed.

Lemma dict_get_set {V : Type} (k : string) (v : V) (m : dict V) :
  dict_get k (dict_set k v m) = Some v.
Proof.
  induction m as [|[k0 v0] m IH]; cbn [dict_set dict_get].
  - now rewrite String.eqb_refl.
  - destruct (String.eqb k k0) eqn:E; cbn [dict_get]; rewrite E;
      [reflexivity | exact IH].
Qed.

Lemma dict_keys_set_known {V : Type} (k : string) (v : V) (m : dict V) :
  dict_mem k m = true -> dict_keys (dict_set k v m) = dict_keys m.
Proof.
  unfold dict_mem, dict_keys.
  induction m as [|[k0 v0] m IH]; cbn [dict_set dict_get map fst]; [discriminate|].
  destruct (String.eqb k k0); cbn [map fst]; [reflexivity|].
  intros H. now rewrite IH.
Qed.

Lemma dict_keys_set_new {V : Type} (k : string) (v : V) (m : dict V) :
  dict_mem k m = false -> dict_keys (dict_set k v m) = dict_keys m ++ [k].
Proof.
  unfold dict_mem, dict_keys.
  induction m as [|[k0 v0] m IH]; cbn [dict_set dict_get map fst app]; [reflexivity|].
  destruct (String.eqb k k0); cbn [map fst]; [discriminate|].
  intros H. now rewrite IH.
Qed.

Lemma dict_mem_keys {V : Type} (k : string) (m : dict V) :
  dict_mem k m = true <-> In k (dict_keys m).
Proof.
  unfold dict_mem, dict_keys.
  induction m as [|[k0 v0] m IH]; cbn [dict_get map fst In].
  - split; [discriminate | contradiction].
  - destruct (String.eqb_spec k k0) as [-> | Hne].
    + split; [now left | reflexivity].
    + rewrite IH. split; [now right | intros [E | H]; [now elim Hne | exact H]].
Qed.

Lemma dict_mem_get {V : Type} (k : string) (m : dict V) (v : V) :
  dict_get k m = Some v -> dict_mem k m = true.
Proof. unfold dict_mem. now intros ->. Qed.

Section WithDevice.

Variable K : Const.
Variable net : nat -> list pyval -> sock_outcome.
Variable literal_eval : string -> option pyval.

(** X4.  [async_set_state] changes the cache only when it returns, and
    then only the value of the entry that was written: the keys and
    their order, the type of the entry and every other entry stay.
    However it fails, by a refusal, a lost exchange or an answer that
    does not acknowledge, the cache is as it was. *)
Theorem set_state_touches_one_value (w : World) (attr : string) (value : Z) :
  match async_set_state K net literal_eval w attr value with
  | (w', Return _) =>
      exists m m' e,
        sensors (self w) = Some m /\ sensors (self w') = Some m'
        /\ dict_get attr m = Some e
        /\ dict_get attr m' = Some (mkEntry (e_id e) (e_sensor_type e) value)
        /\ dict_keys m' = dict_keys m
        /\ forall k, k <> attr -> dict_get k m' = dict_get k m
  | (w', _) => sensors (self w') = sensors (self w)
  end.
Proof.
  unfold async_set_state.
  destruct (sensors (self w)) as [m|] eqn:Hm; [|exact Hm].
  destruct (dict_get attr m) as [e|] eqn:He; [|exact Hm].
  destruct (String.eqb (e_sensor_type e) "J"); [exact Hm|].
  pose proof (command_keeps K net literal_eval w "set"
                (Some [PyStr (token "B" attr value)])) as (Hs & _).
  destruct (async_send_command K net literal_eval w "set"
              (Some [PyStr (token "B" attr value)])) as [w1 [x | err |]];
    cbn [fst] in Hs; try (now rewrite Hs).
  unfold store_value. rewrite Hs, Hm, He.
  exists m, (dict_set attr (mkEntry (e_id e) (e_sensor_type e) value) m), e.
  cbn [with_self self set_sensors sensors].
  split; [reflexivity|]. split; [reflexivity|]. split; [exact He|].
  split; [apply dict_get_set|].
  split; [apply dict_keys_set_known; exact (dict_mem_get _ _ _ He)|].
  intros k Hk. now apply dict_get_set_other.
Qed.

Lemma store_readings_keys (rs : list reading) :
  forall m, dict_keys (fst (store_readings m rs)) = dict_keys m.
Proof.
  induction rs as [|r rs IH]; intros m; cbn [store_readings]; [reflexivity|].
  destruct (dict_get (r_id r) m) as [e|] eqn:He; [|reflexivity].
  rewrite IH. apply dict_keys_set_known. exact (dict_mem_get _ _ _ He).
Qed.

(** X5.  [async_get_state] never adds or removes a key of the cache,
    nor changes their order, however it ends: a reading of the answer
    whose [id] has no entry is not inserted. *)
Theorem get_state_never_inserts (w : World) (attr : attr_arg) :
  option_map dict_keys
    (sensors (self (fst (async_get_state K net literal_eval w attr))))
  = option_map dict_keys (sensors (self w)).
Proof.
  assert (Hg : forall arg,
             option_map dict_keys
               (sensors (self (fst (get_and_store K net literal_eval w arg))))
             = option_map dict_keys (sensors (self w))).
  { intros arg. unfold get_and_store.
    pose proof (command_keeps K net literal_eval w "get" (Some arg)) as (Hs & _).
    destruct (async_send_command K net literal_eval w "get" (Some arg))
      as [w1 [[d|] | err |]]; cbn [fst] in Hs |- *; try (now rewrite Hs).
    destruct (sensors (self w1)) as [m1|] eqn:Hm1.
    - pose proof (store_readings_keys (d_sensors d) m1) as Hk.
      destruct (store_readings m1 (d_sensors d)) as [m2 [err|]];
        cbn [fst with_self self set_sensors sensors option_map] in *;
        rewrite <- Hs; cbn [option_map]; now rewrite Hk.
    - destruct (d_sensors d); cbn [fst]; now rewrite Hm1, Hs. }
  assert (Hc : option_map dict_keys
                 (sensors (self (fst (get_checked K net literal_eval w attr))))
               = option_map dict_keys (sensors (self w))).
  { unfold get_checked.
    destruct (all_in_sensors w (attr_items attr)) as [e | [|]];
      [reflexivity | apply Hg | reflexivity]. }
  unfold async_get_state. destruct attr as [s | l]; [|exact Hc].
  destruct (in_sensors w s) as [e | [|]]; [reflexivity | exact Hc | reflexivity].
Qed.

Lemma merge_readings_lookup (rs : list reading) :
  forall (m : dict entry) (k : string),
    match CacheWords.last_reading k rs with
    | Some r =>
        exists e, dict_get k (merge_readings m rs) = Some e
                  /\ e_sensor_type e = r_sensor_type r
                  /\ e_value e = r_value r
    | None => dict_get k (merge_readings m rs) = dict_get k m
    end.
Proof.
  induction rs as [|r rs IH]; intros m k;
    cbn [merge_readings CacheWords.last_reading]; [reflexivity|].
  set (m1 := match dict_get (r_id r) m with
             | Some _ => dict_set (r_id r)
                           (mkEntry (Some (r_id r)) (r_sensor_type r) (r_value r)) m
             | None => dict_set (r_id r)
                         (mkEntry None (r_sensor_type r) (r_value r)) m
             end).
  specialize (IH m1 k).
  destruct (CacheWords.last_reading k rs) as [r'|]; [exact IH|].
  rewrite IH. destruct (String.eqb_spec k (r_id r)) as [-> | Hne].
  - unfold m1. destruct (dict_get (r_id r) m);
      rewrite dict_get_set; eexists; now repeat split.
  - unfold m1. destruct (dict_get (r_id r) m); now apply dict_get_set_other.
Qed.

Lemma merge_readings_keys (rs : list reading) :
  forall m : dict entry,
    exists added,
      dict_keys (merge_readings m rs) = dict_keys m ++ added
      /\ NoDup added
      /\ forall k, In k added ->
                   dict_mem k m = false /\ exists r, In r rs /\ r_id r = k.
Proof.
  induction rs as [|r rs IH]; intros m; cbn [merge_readings].
  - exists []. rewrite app_nil_r. repeat split; [constructor | contradiction..].
  - destruct (dict_get (r_id r) m) as [e|] eqn:He.
    + destruct (IH (dict_set (r_id r)
                      (mkEntry (Some (r_id r)) (r_sensor_type r) (r_value r)) m))
        as (added & Hk & Hnd & Hin).
      rewrite dict_keys_set_known in Hk by exact (dict_mem_get _ _ _ He).
      exists added. split; [exact Hk|]. split; [exact Hnd|].
      intros k Hkin. destruct (Hin k Hkin) as (Hm & r' & Hr' & Hid).
      split; [|exists r'; split; [now right | exact Hid]].
      destruct (dict_mem k m) eqn:Hkm; [|reflexivity].
      rewrite <- Hm. symmetry. apply dict_mem_keys.
      rewrite dict_keys_set_known by exact (dict_mem_get _ _ _ He).
      now apply dict_mem_keys.
    + assert (Hnew : dict_mem (r_id r) m = false) by (unfold dict_mem; now rewrite He).
      destruct (IH (dict_set (r_id r)
                      (mkEntry None (r_sensor_type r) (r_value r)) m))
        as (added & Hk & Hnd & Hin).
      rewrite (dict_keys_set_new _ _ _ Hnew) in Hk.
      exists (r_id r :: added). split; [now rewrite Hk, <- app_assoc|].
      assert (Hmem : forall k, In k added ->
                dict_mem k (dict_set (r_id r)
                              (mkEntry None (r_sensor_type r) (r_value r)) m)
                = false) by (intros k Hkin; apply (Hin k Hkin)).
      split.
      * constructor; [|exact Hnd]. intros Hc. specialize (Hmem _ Hc).
        unfold dict_mem in Hmem. now rewrite dict_get_set in Hmem.
      * intros k [<- | Hkin].
        -- split; [exact Hnew | exists r; split; [now left | reflexivity]].
        -- destruct (Hin k Hkin) as (Hm & r' & Hr' & Hid).
           split; [|exists r'; split; [now right | exact Hid]].
           destruct (dict_mem k m) eqn:Hkm; [|reflexivity].
           rewrite <- Hm. symmetry. apply dict_mem_keys.
           rewrite (dict_keys_set_new _ _ _ Hnew).
           apply in_or_app. left. now apply dict_mem_keys.
Qed.

(** X6.  What the merge of [async_update_data] does to the cache.  The
    keys it had stay, in their order, and the [id]s it did not know are
    added after them, once each, every one of them named in the answer;
    so a cache without a repeated key stays one.  Afterwards
    an [id] named in the answer holds the type and the value of the last
    reading that bears it, and every other entry is as it was. *)
Theorem merge_readings_spec (m : dict entry) (rs : list reading) :
  (exists added,
      dict_keys (merge_readings m rs) = dict_keys m ++ added
      /\ NoDup added
      /\ forall k, In k added ->
                   dict_mem k m = false /\ exists r, In r rs /\ r_id r = k)
  /\ (NoDup (dict_keys m) -> NoDup (dict_keys (merge_readings m rs)))
  /\ (forall r, In r rs -> dict_mem (r_id r) (merge_readings m rs) = true)
  /\ (forall k,
         match CacheWords.last_reading k rs with
         | Some r =>
             exists e, dict_get k (merge_readings m rs) = Some e
                       /\ e_sensor_type e = r_sensor_type r
                       /\ e_value e = r_value r
         | None => dict_get k (merge_readings m rs) = dict_get k m
         end).
Proof.
  split; [apply merge_readings_keys|]. split; [|split].
  - intros Hnd. destruct (merge_readings_keys rs m) as (added & -> & Hna & Hin).
    apply NoDup_app; try assumption.
    intros k Hk Hka. destruct (Hin k Hka) as [Hm _].
    apply dict_mem_keys in Hk. congruence.
  - intros r Hr. pose proof (merge_readings_lookup rs m (r_id r)) as H.
    assert (Hl : CacheWords.last_reading (r_id r) rs <> None).
    { clear H. induction rs as [|x rs IH]; [contradiction|].
      cbn [CacheWords.last_reading].
      destruct (CacheWords.last_reading (r_id r) rs); [discriminate|].
      destruct Hr as [-> | Hr]; [now rewrite String.eqb_refl | now elim IH]. }
    destruct (CacheWords.last_reading (r_id r) rs) as [r'|]; [|now elim Hl].
    destruct H as (e & He & _). exact (dict_mem_get _ _ _ He).
  - apply merge_readings_lookup.
Qed.

(** X7.  A refresh that fails leaves the cache as it was: whatever
    [async_update_data] raises, [sensors] is unchanged, and when the
    error is a [DeviceConnectionError] it is the one in [_last_error].
    A refresh that returns leaves [_last_error] empty, and one that finds
    the gate shut changes nothing. *)
Theorem update_failure_keeps_cache (w : World) :
  match async_update_data K net literal_eval w with
  | (w', Raise e) =>
      sensors (self w') = sensors (self w)
      /\ forall c, e = DeviceConnectionError c -> _last_error (self w') = Some e
  | (w', Waiting) => w' = w /\ busy w = true
  | (w', Return _) => _last_error (self w') = None
  end.
Proof.
  unfold async_update_data.
  destruct (send_cases K net literal_eval w (INFO_QUERY K))
    as [Hb | dt result Hb | dt cause Hb].
  - now split.
  - set (w1 := after_success w (INFO_QUERY K) dt).
    assert (Hs1 : sensors (self w1) = sensors (self w)) by reflexivity.
    assert (Hb1 : busy w1 = false) by reflexivity.
    assert (He1 : _last_error (self w1) = None) by reflexivity.
    destruct (pyval_eqb (d_result result) (PyStr (RESULT_ERROR K))).
    + destruct (sensors (self w1)) as [[|p m]|] eqn:Hm;
        try (split; [now rewrite <- Hs1 | discriminate]).
      set (q := map (fun sensor => PyStr (token "I" sensor 0)) (dict_keys (p :: m))).
      pose proof (command_keeps K net literal_eval w1 "get" (Some q)) as (Hs & _).
      destruct (dict_get "get" (commands (self w1))) as [base|] eqn:Hbase.
      * destruct (command_cases K net literal_eval w1 "get" (Some q) base Hbase)
          as [Hbb | dt2 r Hbb Hr | dt2 cause Hbb].
        -- congruence.
        -- cbn [fst] in Hs.
           destruct r as [x | e |]; [reflexivity | | now elim Hr].
           destruct e; cbn [except_DeviceConnectionError];
             (split; [congruence | discriminate]).
        -- cbn [except_DeviceConnectionError]. split; [|discriminate].
           cbn [fst] in Hs. congruence.
      * unfold async_send_command. rewrite Hbase.
        cbn [except_DeviceConnectionError]. split; [congruence | discriminate].
    + destruct (pyval_eqb (d_result result) (PyStr (RESULT_INFO K))
                || truthy (PyStr (RESULT_OK K))); [|exact He1].
      destruct (sensors (self w1)) as [m|] eqn:Hm; [reflexivity|].
      destruct (d_sensors result); [reflexivity|].
      split; [congruence | discriminate].
  - cbn [except_DeviceConnectionError after_failure self set_last_error
         _last_error]. split; [reflexivity|]. intros c [= <-]. reflexivity.
Qed.

(** X8.  After an answer with the status [RESULT_ERROR] the refresh
    sends, as the command [get], the base tokens of [get] followed by one
    token [I], [id], twelve zeros for every key of the cache, in the
    order of the cache, and it stores nothing of what comes back: the
    cache is the same whether that second exchange goes well or not. *)
Theorem error_status_asks_and_stores_nothing (w w1 : World) (result : data)
        (m base : list _) :
  send_and_receive K net literal_eval w (INFO_QUERY K) = (w1, Return result) ->
  pyval_eqb (d_result result) (PyStr (RESULT_ERROR K)) = true ->
  sensors (self w) = Some m -> m <> [] ->
  dict_get "get" (commands (self w)) = Some base ->
  exists w' r,
    async_update_data K net literal_eval w = (w', r)
    /\ r <> Waiting
    /\ sensors (self w') = Some m
    /\ exists later,
        trace w'
        = later ++ Began (clock w1)
                     (base ++ map (fun k => PyStr ("I" ++ k ++ "000000000000")%string)
                                  (dict_keys m))
                :: trace w1.
Proof.
  intros Hsend Herr Hm Hne Hbase.
  assert (Hw1 : sensors (self w1) = Some m
                /\ commands (self w1) = commands (self w)
                /\ busy w1 = false).
  { pose proof (send_cases K net literal_eval w (INFO_QUERY K)) as Hc.
    rewrite Hsend in Hc. inversion Hc; subst. now repeat split. }
  destruct Hw1 as (Hs1 & Hc1 & Hb1).
  unfold async_update_data. rewrite Hsend, Herr, Hs1.
  destruct m as [|p m]; [now elim Hne|].
  change (map (fun sensor => PyStr (token "I" sensor 0)) (dict_keys (p :: m)))
    with (map (fun k => PyStr ("I" ++ k ++ "000000000000")%string)
              (dict_keys (p :: m))).
  remember (map (fun k => PyStr ("I" ++ k ++ "000000000000")%string)
                (dict_keys (p :: m))) as qs eqn:Hqs.
  assert (Hq : built_query base (Some qs) = base ++ qs)
    by (rewrite Hqs; reflexivity).
  rewrite <- Hc1 in Hbase.
  pose proof (command_keeps K net literal_eval w1 "get" (Some qs)) as (Hs & _).
  pose proof (command_cases K net literal_eval w1 "get" (Some qs) base Hbase)
    as Hcc.
  rewrite Hq in Hcc.
  destruct (async_send_command K net literal_eval w1 "get" (Some qs))
    as [w2 r].
  cbn [fst] in Hs. rewrite Hs1 in Hs.
  inversion Hcc as [Hbb | dt2 r0 Hbb Hr Hw2 | dt2 cause Hbb Hw2]; subst r.
  - congruence.
  - assert (Htr : trace w2
                  = [Ended (clock w1 + dt2)] ++ Began (clock w1) (base ++ qs)
                      :: trace w1) by (rewrite <- Hw2; reflexivity).
    rewrite Hw2.
    destruct r0 as [x | e |]; [| |now elim Hr].
    + exists w2, (Return tt). split; [reflexivity|]. split; [discriminate|].
      split; [exact Hs|]. now exists [Ended (clock w1 + dt2)].
    + destruct (@except_DeviceConnectionError unit w2 e) as [w3 r3] eqn:Hx.
      assert (Hx' : w3 = w2 /\ r3 <> Waiting).
      { unfold except_DeviceConnectionError in Hx.
        destruct e; try (injection Hx as <- <-; split; [reflexivity | discriminate]).
        destruct (_last_error (self w2));
          injection Hx as <- <-; (split; [reflexivity | discriminate]). }
      destruct Hx' as [-> Hr3].
      exists w2, r3. split; [reflexivity|]. split; [exact Hr3|].
      split; [exact Hs|]. now exists [Ended (clock w1 + dt2)].
  - assert (Htr : trace w2
                  = [Cooldown (clock w1 + dt2); Ended (clock w1 + dt2)]
                      ++ Began (clock w1) (base ++ qs) :: trace w1)
      by (rewrite <- Hw2; reflexivity).
    rewrite Hw2. cbn [except_DeviceConnectionError].
    exists w2, (Raise (FourHeatCommandError (DeviceConnectionError (Some cause)))).
    split; [reflexivity|]. split; [discriminate|]. split; [exact Hs|].
    now exists [Cooldown (clock w1 + dt2); Ended (clock w1 + dt2)].
Qed.

End WithDevice.

Lemma error_status_asks_and_stores_nothing_witness :
  exists w' r,
    async_update_data K0
      (script [Recv 1 "['E', 0]"; Recv 1 "['I', 0, 'I005000000000000123']"])
      literal_eval_flat
      (world0 (Some [("00500", mkEntry None "I" 0%Z);
                     ("00600", mkEntry None "J" 7%Z)]))
    = (w', r)
    /\ r <> Waiting
    /\ sensors (self w')
       = Some [("00500", mkEntry None "I" 0%Z); ("00600", mkEntry None "J" 7%Z)]
    /\ exists later,
        trace w'
        = later
            ++ Began 1 ([PyStr "I"]
                          ++ map (fun k => PyStr ("I" ++ k ++ "000000000000")%string)
                                 ["00500"; "00600"])
            :: [Ended 1; Began 0 [PyStr "I"]].
Proof.
  apply (error_status_asks_and_stores_nothing K0
           (script [Recv 1 "['E', 0]"; Recv 1 "['I', 0, 'I005000000000000123']"])
           literal_eval_flat
           (world0 (Some [("00500", mkEntry None "I" 0%Z);
                          ("00600", mkEntry None "J" 7%Z)]))
           (after_success
              (world0 (Some [("00500", mkEntry None "I" 0%Z);
                             ("00600", mkEntry None "J" 7%Z)]))
              (INFO_QUERY K0) 1)
           (mkData (PyStr "E") [])
           [("00500", mkEntry None "I" 0%Z); ("00600", mkEntry None "J" 7%Z)]
           [PyStr "I"]);
    try reflexivity.
  discriminate.
Defined.

End CacheFacts.

(** ** Tokens on the way out and back *)

Module TokenFacts.

Import Device Digits StrFacts ParserFacts Sample.
Local Open Scope nat_scope.
Local Open Scope list_scope.

(** What the code reads of a token it wrote, for a type of one
    character and a name of five. *)
Lemma token_read (typeChar attr : string) (value v' : Z) :
  String.length typeChar = 1 -> String.length attr = 5 ->
  py_int (sdrop 1 (zfill 12 (str_int value))) = Some v' ->
  decode_sensor (PyStr (token typeChar attr value))
  = inr (Some (mkReading attr typeChar v'))
  /\ py_slice 1 6 (PyStr (token typeChar attr value)) = inr (PyStr attr)
  /\ int_from 7 (PyStr (token typeChar attr value)) = inr v'.
Proof.
  intros Ht Ha Hread.
  destruct (written_then_read value) as (v0 & _ & Hlen & _).
  unfold token. remember (zfill 12 (str_int value)) as field eqn:Ef.
  destruct typeChar as [|t [|? ?]]; try discriminate Ht.
  destruct attr as [|a1 [|a2 [|a3 [|a4 [|a5 [|? ?]]]]]]; try discriminate Ha.
  destruct field as [|f0 fr]; [simpl in Hlen; lia|].
  unfold decode_sensor, py_slice, int_from. cbn [append String.length].
  change (sdrop 7 (String t (String a1 (String a2 (String a3 (String a4
            (String a5 (String f0 fr))))))))
    with (sdrop 1 (String f0 fr)).
  rewrite Hread. repeat split.
Qed.

Section WithDevice.

Variable K : Const.
Variable net : nat -> list pyval -> sock_outcome.
Variable literal_eval : string -> option pyval.

(** X11.  Answers with no token in them.  The empty list is refused
    with [IndexError], and [None] or a number with [TypeError]; a list of
    one or two items is accepted with its first item as status and no
    reading, the second item never being looked at; so is a bare string,
    with its first character as status, each of its characters being too
    short for a token. *)
Theorem answers_without_tokens (text : string) :
  (literal_eval text = Some (PyList []) ->
   parse literal_eval text = inl IndexError)
  /\ (forall a, literal_eval text = Some (PyList [a]) ->
                parse literal_eval text = inr (mkData a []))
  /\ (forall a b, literal_eval text = Some (PyList [a; b]) ->
                  parse literal_eval text = inr (mkData a []))
  /\ (forall c s, literal_eval text = Some (PyStr (String c s)) ->
                  parse literal_eval text
                  = inr (mkData (PyStr (String c EmptyString)) []))
  /\ (literal_eval text = Some PyNone \/ (exists z, literal_eval text = Some (PyInt z)) ->
      parse literal_eval text = inl TypeError).
Proof.
  unfold parse. repeat split.
  - now intros ->.
  - now intros a ->.
  - now intros a b ->.
  - intros c s ->. cbn [getitem0 items_from]. now rewrite parse_sensors_chars.
  - intros [-> | [z ->]]; reflexivity.
Qed.

(** X12.  A device that echoes a written token is acknowledged, whatever
    the value.  With two base tokens for [set], when the answer to the
    query of [async_set_state] is the list of the first base token, any
    second item and the written token with the type [A] in place of
    [B], the call returns [True] and the entry holds the written value:
    the test compares what the code reads of the echo with what it reads
    of its own token, so both lose the same first digit. *)
Theorem echoed_set_is_acknowledged (w : World) (attr : string) (value : Z)
        (m : dict entry) (e : entry) (b0 : string) (b1 r1 : pyval) (dt : nat)
        (text : string) :
  String.length attr = 5 ->
  sensors (self w) = Some m -> dict_get attr m = Some e ->
  e_sensor_type e <> "J" ->
  busy w = false ->
  dict_get "set" (commands (self w)) = Some [PyStr b0; b1] ->
  net (exchanges (trace w)) [PyStr b0; b1; PyStr (token "B" attr value)]
  = Recv dt text ->
  text <> EmptyString ->
  literal_eval text = Some (PyList [PyStr b0; r1; PyStr (token "A" attr value)]) ->
  exists w',
    async_set_state K net literal_eval w attr value = (w', Return true)
    /\ sensors (self w')
       = Some (dict_set attr (mkEntry (e_id e) (e_sensor_type e) value) m).
Proof.
  intros Ha Hm He Hty Hb Hbase Hnet Htext Hlit.
  destruct (written_then_read value) as (v' & Hread & _ & _).
  destruct (token_read "A" attr value v' eq_refl Ha Hread) as (HdA & _ & _).
  destruct (token_read "B" attr value v' eq_refl Ha Hread) as (_ & HsB & HiB).
  remember (token "A" attr value) as tA eqn:EA.
  remember (token "B" attr value) as tB eqn:EB.
  unfold async_set_state. rewrite Hm, He.
  destruct (String.eqb_spec (e_sensor_type e) "J") as [|_]; [contradiction|].
  rewrite <- EB.
  assert (Hcmd : async_send_command K net literal_eval w "set" (Some [PyStr tB])
                 = (Gate.after_success w [PyStr b0; b1; PyStr tB] dt,
                    Return CmdTrue)).
  { unfold async_send_command. rewrite Hbase. cbn [app].
    unfold send_and_receive. rewrite Hb, Hnet.
    destruct (String.eqb_spec text EmptyString) as [|_]; [contradiction|].
    unfold parse. rewrite Hlit.
    cbn [getitem0 items_from skipn parse_sensors]. rewrite HdA.
    cbn [String.eqb Ascii.eqb Bool.eqb INFO_COMMAND GET_COMMAND SET_COMMAND
         andb].
    unfold ack_matches, written_value, and_then, list_item.
    cbn [nth_error d_result d_sensors r_id r_value r_sensor_type pyval_eqb].
    rewrite HsB, HiB. cbn [pyval_eqb].
    rewrite !String.eqb_refl, Z.eqb_refl. reflexivity. }
  rewrite Hcmd. unfold store_value.
  cbn [Gate.after_success self set_running set_last_error sensors].
  rewrite Hm, He. eexists. split; reflexivity.
Qed.

End WithDevice.

Lemma echoed_set_is_acknowledged_witness :
  exists w',
    async_set_state K0 (always (Recv 1 "['A', 0, 'A00300999999999999']"))
                    literal_eval_flat
                    (world0 (Some [("00300", mkEntry None "I" 0%Z)]))
                    "00300" 999999999999
    = (w', Return true)
    /\ sensors (self w')
       = Some (dict_set "00300" (mkEntry None "I" 999999999999%Z)
                        [("00300", mkEntry None "I" 0%Z)]).
Proof.
  apply (echoed_set_is_acknowledged K0
           (always (Recv 1 "['A', 0, 'A00300999999999999']")) literal_eval_flat
           (world0 (Some [("00300", mkEntry None "I" 0%Z)])) "00300" 999999999999
           [("00300", mkEntry None "I" 0%Z)] (mkEntry None "I" 0%Z)
           "A" (PyStr "1") (PyInt 0) 1 "['A', 0, 'A00300999999999999']");
    try reflexivity; discriminate.
Defined.

End TokenFacts.

(** ** More on the loop *)

Module LoopFacts.

Import Device Loop Gate Sample GateFacts.
Local Open Scope nat_scope.
Local Open Scope list_scope.

Lemma pending_in (tr : list io_event) (t : nat) :
  pending_cooldown tr = Some t -> In (Cooldown t) tr.
Proof.
  induction tr as [|e tr IH]; cbn [pending_cooldown]; [discriminate|].
  destruct e as [t1 q | t1 | t1 | t1]; intros H; try discriminate H;
    try (right; exact (IH H)).
  injection H as ->. now left.
Qed.

Section WithDevice.

Variable K : Const.
Variable net : nat -> list pyval -> sock_outcome.
Variable literal_eval : string -> option pyval.

(** X13.  In a loop started afresh whose calls all send at least one
    token, whenever control is back in the loop the gate is shut exactly
    while a cooldown runs, and then exactly one [_i_am_lazy] task is
    asleep, due [RETRY_UPDATE_SLEEP] after the failure; otherwise none
    is.  So the flag is never left set with nothing to reset it. *)
Theorem flag_follows_cooldown (table : dict (list pyval)) (ss : list sched) :
  match run K net literal_eval (boot table) ss with
  | Some l' =>
      forallb (sends_tokens table) ss = true ->
      match pending_cooldown (trace (world l')) with
      | Some t =>
          busy (world l') = true
          /\ lazy_tasks (world l') = [t + RETRY_UPDATE_SLEEP K]
          /\ t <= clock (world l')
      | None => busy (world l') = false /\ lazy_tasks (world l') = []
      end
  | None => True
  end.
Proof.
  destruct (run K net literal_eval (boot table) ss) as [l'|] eqn:Hrun; [|exact I].
  intros Hok.
  destruct (steady_run K net literal_eval table ss _ _ (steady_boot K table)
              Hok Hrun) as [(_ & Hcool & _ & Htime & Hlat) _].
  unfold cooling in Hcool.
  destruct (pending_cooldown (trace (world l'))) as [t|] eqn:Hp; [|exact Hcool].
  destruct Hcool as [Hb Hl]. repeat split; try assumption.
  pose proof (timely_in _ _ Htime (pending_in _ _ Hp)) as Ht.
  cbn [time_of] in Ht. lia.
Qed.

(** X15.  The flag is the query itself, so a failed exchange shuts the
    gate exactly when its query had a token in it.  After a failure with
    the empty query the gate is open although [_i_am_lazy] is asleep, and
    the next caller goes to the device at once. *)
Theorem gate_shut_by_nonempty_query (w : World) (query : list pyval) :
  match send_and_receive K net literal_eval w query with
  | (w', Raise _) =>
      busy w' = match query with [] => false | _ :: _ => true end
      /\ lazy_tasks w' <> []
      /\ (query = [] ->
          forall q2, snd (send_and_receive K net literal_eval w' q2) <> Waiting)
  | (_, _) => True
  end.
Proof.
  destruct (send_cases K net literal_eval w query) as [Hb | dt d Hb | dt cause Hb];
    try exact I.
  split; [now destruct query|]. split.
  - cbn [after_failure lazy_tasks]. now destruct (lazy_tasks w).
  - intros -> q2.
    destruct (send_cases K net literal_eval (after_failure K w [] dt cause) q2)
      as [Hb2 | |]; cbn [snd]; try discriminate.
Qed.

End WithDevice.

End LoopFacts.

(** ** Starting a device *)

Module BootFacts.

Import Device Loop Gate Sample GateFacts ExchangeFacts CacheFacts Boot.
Local Open Scope nat_scope.
Local Open Scope list_scope.

Lemma getattr_never_waits (d : FourHeatDevice) (attr : string) :
  getattr d attr <> Waiting.
Proof.
  unfold getattr. destruct (negb (initialized d)); [discriminate|].
  destruct (sensors d) as [m|]; [|discriminate].
  destruct (dict_get attr m); [discriminate|].
  destruct (dict_mem "device" m); discriminate.
Qed.

Section WithDevice.

Variable K : Const.
Variable ERROR_QUERY : list pyval.
Variable net : nat -> list pyval -> sock_outcome.
Variable literal_eval : string -> option pyval.

Lemma else_clause_done (i : Instance) (w : World) :
  match else_clause K i w with
  | (i', BootWaiting) => False
  | (i', _) => _initializing i' = false
  end.
Proof.
  unfold else_clause. pose proof (getattr_never_waits (self w) (DEVICE_STATE_SENSOR K)).
  destruct (getattr (self w) (DEVICE_STATE_SENSOR K)); try contradiction;
    reflexivity.
Qed.

Lemma except_boot_done (i : Instance) (w : World) (e : exn) :
  match except_boot i w e with
  | (i', BootRaise b) => _initializing i' = false
  | (i', _) => False
  end.
Proof. reflexivity. Qed.

(** X16.  The guard of [initialize].  Called while another call is
    under way it raises [RuntimeError] and changes nothing.  Otherwise
    the guard is held exactly while the call is suspended at the gate,
    with [initialized] false meanwhile, and it is released when the call
    is over, by a return or by any error. *)
Theorem initialize_guard (i : Instance) (async_init : bool) :
  if _initializing i
  then initialize K ERROR_QUERY net literal_eval i async_init
       = (i, BootRaise RuntimeError)
  else
    match initialize K ERROR_QUERY net literal_eval i async_init with
    | (i', BootWaiting) =>
        _initializing i' = true /\ initialized (self (obj i')) = false
    | (i', BootRaise _) => _initializing i' = false
    | (i', Booted) => _initializing i' = false
    end.
Proof.
  unfold initialize. destruct (_initializing i); [reflexivity|].
  unfold initialize_try. cbn [obj _initializing _status].
  set (w0 := update_fourheat (with_self (set_initialized false) (obj i))).
  set (i0 := mkInstance (with_self (set_initialized false) (obj i)) true (_status i)).
  assert (He : forall w,
             match else_clause K i0 w with
             | (i', BootWaiting) =>
                 _initializing i' = true /\ initialized (self (obj i')) = false
             | (i', BootRaise _) => _initializing i' = false
             | (i', Booted) => _initializing i' = false
             end).
  { intros w. pose proof (else_clause_done i0 w) as H.
    destruct (else_clause K i0 w) as [i' [| e |]];
      [apply H | apply H | contradiction]. }
  assert (Hx : forall w e,
             match except_boot i0 w e with
             | (i', BootWaiting) =>
                 _initializing i' = true /\ initialized (self (obj i')) = false
             | (i', BootRaise _) => _initializing i' = false
             | (i', Booted) => _initializing i' = false
             end).
  { intros w e. pose proof (except_boot_done i0 w e) as H.
    destruct (except_boot i0 w e) as [i' [| b |]]; try contradiction.
    apply H. }
  destruct async_init; [apply He|].
  pose proof (command_keeps K net literal_eval w0 INFO_COMMAND None)
    as (_ & _ & Hi & _).
  destruct (async_send_command K net literal_eval w0 INFO_COMMAND None)
    as [w [[result|] | e |]]; cbn [fst] in Hi.
  - destruct (pyval_eqb (d_result result) (PyStr (RESULT_ERROR K))).
    + pose proof (send_keeps K net literal_eval w ERROR_QUERY) as (_ & _ & Hi2 & _).
      destruct (send_and_receive K net literal_eval w ERROR_QUERY)
        as [w2 [d | e |]]; cbn [fst] in Hi2; [apply He | apply Hx|].
      cbn [_initializing obj]. split; [reflexivity|]. now rewrite Hi2, Hi.
    + destruct (pyval_eqb (d_result result) (PyStr (RESULT_INFO K))
                || pyval_eqb (d_result result) (PyStr (RESULT_OK K)));
        [apply He | apply Hx].
  - apply Hx.
  - apply Hx.
  - cbn [_initializing obj]. split; [reflexivity|]. now rewrite Hi.
Qed.

Section Answered.

(** A call that finds the gate open, with [info] in the table, and a
    device whose answer to the first query parses. *)
Variable i : Instance.
Variable base : list pyval.
Variable dt : nat.
Variable text : string.
Variable result : data.
Hypothesis Hguard : _initializing i = false.
Hypothesis Hopen : busy (obj i) = false.
Hypothesis Hbase : dict_get INFO_COMMAND (commands (self (obj i))) = Some base.
Hypothesis Hnet : net (exchanges (trace (obj i))) base = Recv dt text.
Hypothesis Htext : text <> EmptyString.
Hypothesis Hparse : parse literal_eval text = inr result.

Lemma info_answer :
  async_send_command K net literal_eval
    (update_fourheat (with_self (set_initialized false) (obj i)))
    INFO_COMMAND None
  = (after_success (update_fourheat (with_self (set_initialized false) (obj i)))
                   base dt,
     Return (CmdData result)).
Proof.
  unfold async_send_command.
  change (commands (self (update_fourheat
                            (with_self (set_initialized false) (obj i)))))
    with (commands (self (obj i))).
  rewrite Hbase. unfold send_and_receive.
  change (busy (update_fourheat (with_self (set_initialized false) (obj i))))
    with (busy (obj i)).
  change (trace (update_fourheat (with_self (set_initialized false) (obj i))))
    with (trace (obj i)).
  rewrite Hopen, Hnet.
  destruct (String.eqb_spec text EmptyString) as [|_]; [contradiction|].
  rewrite Hparse. reflexivity.
Qed.

(** X17.  [initialize] on an answer whose status is [RESULT_INFO] or
    [RESULT_OK].  The cache is built anew from the readings alone,
    [initialized] becomes true and the guard is released, whatever
    follows.  The call then returns when the state sensor is among the
    readings, with its value in [_status]; when it is not, the call
    raises from [__getattr__], [RecursionError] or, if the cache has a
    key [device], [AttributeError], and the device stays initialized. *)
Theorem initialize_on_info_status :
  pyval_eqb (d_result result) (PyStr (RESULT_ERROR K)) = false ->
  pyval_eqb (d_result result) (PyStr (RESULT_INFO K))
  || pyval_eqb (d_result result) (PyStr (RESULT_OK K)) = true ->
  exists i' r,
    initialize K ERROR_QUERY net literal_eval i false = (i', r)
    /\ initialized (self (obj i')) = true
    /\ sensors (self (obj i')) = Some (fill [] (d_sensors result))
    /\ fourheat (self (obj i')) = Some (mkInfo "4heat device" None "4heat")
    /\ _initializing i' = false
    /\ busy (obj i') = false
    /\ match dict_get (DEVICE_STATE_SENSOR K) (fill [] (d_sensors result)) with
       | Some e => r = Booted /\ _status i' = Some (e_value e)
       | None =>
           _status i' = _status i
           /\ r = BootRaise
                    (Passed (if dict_mem "device" (fill [] (d_sensors result))
                             then AttributeError "'int' object has no attribute 'model'"
                             else RecursionError))
       end.
Proof.
  intros Herr Hinfo. unfold initialize. rewrite Hguard.
  unfold initialize_try. cbn [obj]. rewrite info_answer, Herr, Hinfo.
  unfold else_clause, getattr.
  cbn [with_self self set_initialized set_sensors initialized sensors negb
       after_success set_running set_last_error].
  destruct (dict_get (DEVICE_STATE_SENSOR K) (fill [] (d_sensors result)))
    as [e|] eqn:He.
  - eexists _, _. split; [reflexivity|]. cbn. now repeat split.
  - destruct (dict_mem "device" (fill [] (d_sensors result)));
      (eexists _, _; split; [reflexivity|]; cbn; now repeat split).
Qed.

(** X18.  [initialize] on an answer whose status is [RESULT_ERROR]
    sends [ERROR_QUERY] at once, and when that second exchange goes well
    the call returns as if all were fine: no error is raised, yet
    [initialized] is false, the cache is untouched and [_status] is
    [None]; what the two answers said is dropped. *)
Theorem initialize_on_error_status (dt2 : nat) (text2 : string) (d2 : data) :
  pyval_eqb (d_result result) (PyStr (RESULT_ERROR K)) = true ->
  net (S (exchanges (trace (obj i)))) ERROR_QUERY = Recv dt2 text2 ->
  text2 <> EmptyString ->
  parse literal_eval text2 = inr d2 ->
  exists i',
    initialize K ERROR_QUERY net literal_eval i false = (i', Booted)
    /\ initialized (self (obj i')) = false
    /\ sensors (self (obj i')) = sensors (self (obj i))
    /\ _status i' = None
    /\ _initializing i' = false
    /\ trace (obj i')
       = [Ended (clock (obj i) + dt + dt2); Began (clock (obj i) + dt) ERROR_QUERY;
          Ended (clock (obj i) + dt); Began (clock (obj i)) base]
           ++ trace (obj i).
Proof.
  intros Herr Hnet2 Htext2 Hparse2. unfold initialize. rewrite Hguard.
  unfold initialize_try. cbn [obj]. rewrite info_answer, Herr.
  unfold send_and_receive.
  change (busy (after_success
                  (update_fourheat (with_self (set_initialized false) (obj i)))
                  base dt)) with false.
  cbn [after_success trace exchanges update_fourheat with_self].
  rewrite Hnet2.
  destruct (String.eqb_spec text2 EmptyString) as [|_]; [contradiction|].
  rewrite Hparse2. unfold else_clause, getattr.
  cbn [with_self self set_initialized set_fourheat initialized negb ended log
       set_running set_last_error].
  eexists. split; [reflexivity|]. cbn. now repeat split.
Qed.

(** X19.  [initialize] on an answer with any other status records
    [InvalidMessage] in [_last_error] and raises it as it is, not inside
    a [FourHeatError]: the [except] clause names other classes.  The
    device is left not initialized, the cache untouched, the guard
    released and the gate open. *)
Theorem initialize_on_unknown_status :
  pyval_eqb (d_result result) (PyStr (RESULT_ERROR K)) = false ->
  pyval_eqb (d_result result) (PyStr (RESULT_INFO K))
  || pyval_eqb (d_result result) (PyStr (RESULT_OK K)) = false ->
  exists i',
    initialize K ERROR_QUERY net literal_eval i false
    = (i', BootRaise (Passed InvalidMessage))
    /\ _last_error (self (obj i')) = Some InvalidMessage
    /\ initialized (self (obj i')) = false
    /\ sensors (self (obj i')) = sensors (self (obj i))
    /\ _initializing i' = false
    /\ busy (obj i') = false.
Proof.
  intros Herr Hinfo. unfold initialize. rewrite Hguard.
  unfold initialize_try. cbn [obj]. rewrite info_answer, Herr, Hinfo.
  unfold except_boot. eexists. split; [reflexivity|]. cbn. now repeat split.
Qed.

End Answered.

(** X20.  When the exchange of [initialize] fails, the call raises
    [FourHeatError] around the [DeviceConnectionError] that
    [send_and_receive] left in [_last_error]; the device is not
    initialized, the guard is released, and the cooldown runs. *)
Theorem initialize_on_failure (i : Instance) (base : list pyval) (w' : World)
        (e : exn) :
  _initializing i = false ->
  dict_get INFO_COMMAND (commands (self (obj i))) = Some base ->
  send_and_receive K net literal_eval
    (update_fourheat (with_self (set_initialized false) (obj i))) base
  = (w', Raise e) ->
  initialize K ERROR_QUERY net literal_eval i false
  = (mkInstance w' false (_status i), BootRaise (FourHeatError (Some e)))
  /\ (exists cause, e = DeviceConnectionError (Some cause))
  /\ _last_error (self w') = Some e
  /\ initialized (self w') = false
  /\ lazy_tasks w' <> [].
Proof.
  intros Hguard Hbase Hsend.
  pose proof (send_cases K net literal_eval
                (update_fourheat (with_self (set_initialized false) (obj i)))
                base) as Hc.
  rewrite Hsend in Hc. inversion Hc as [| | dt cause Hb]; subst.
  unfold initialize. rewrite Hguard. unfold initialize_try. cbn [obj].
  unfold async_send_command.
  change (commands (self (update_fourheat
                            (with_self (set_initialized false) (obj i)))))
    with (commands (self (obj i))).
  rewrite Hbase, Hsend. unfold except_boot.
  split; [reflexivity|]. split; [now exists cause|].
  split; [reflexivity|]. split; [reflexivity|].
  cbn [after_failure lazy_tasks]. now destruct (lazy_tasks _).
Qed.

End WithDevice.

Lemma NoDup_dict_set {V : Type} (k : string) (v : V) (m : dict V) :
  NoDup (dict_keys m) -> NoDup (dict_keys (dict_set k v m)).
Proof.
  intros H. destruct (dict_mem k m) eqn:Hk.
  - now rewrite dict_keys_set_known.
  - rewrite dict_keys_set_new by exact Hk.
    apply NoDup_app; [exact H | repeat constructor; intros [] |].
    intros a Ha [<- | []]. apply dict_mem_keys in Ha. congruence.
Qed.

Lemma fill_lookup (rs : list reading) :
  forall (m : dict entry) (k : string),
    dict_get k (fill m rs)
    = match CacheWords.last_reading k rs with
      | Some r => Some (mkEntry None (r_sensor_type r) (r_value r))
      | None => dict_get k m
      end.
Proof.
  induction rs as [|r rs IH]; intros m k; cbn [fill CacheWords.last_reading];
    [reflexivity|].
  rewrite IH. destruct (CacheWords.last_reading k rs); [reflexivity|].
  destruct (String.eqb_spec k (r_id r)) as [-> | Hne];
    [apply dict_get_set | now apply dict_get_set_other].
Qed.

Lemma fill_NoDup (rs : list reading) :
  forall m : dict entry, NoDup (dict_keys m) -> NoDup (dict_keys (fill m rs)).
Proof.
  induction rs as [|r rs IH]; intros m H; cbn [fill]; [exact H|].
  apply IH. now apply NoDup_dict_set.
Qed.

(** X21.  The cache that [initialize] builds has each [id] once, and
    under it the type and the value of the last reading of the answer
    that bears this [id]; an [id] the answer does not name has no
    entry. *)
Theorem fill_spec (rs : list reading) :
  NoDup (dict_keys (fill [] rs))
  /\ forall k,
      dict_get k (fill [] rs)
      = option_map (fun r => mkEntry None (r_sensor_type r) (r_value r))
                   (CacheWords.last_reading k rs).
Proof.
  split; [apply fill_NoDup; constructor|].
  intros k. rewrite fill_lookup. now destruct (CacheWords.last_reading k rs).
Qed.

Lemma initialize_on_info_status_witness :
  exists i' r,
    initialize K0 [PyStr "E"]
      (always (Recv 1 "['I', 0, 'J000010000000000005', 'B005000000000000123']"))
      literal_eval_flat
      (mkInstance (mkWorld (init table0) 0 [] []) false None) false
    = (i', r)
    /\ initialized (self (obj i')) = true
    /\ sensors (self (obj i'))
       = Some (fill [] [mkReading "00001" "J" 5; mkReading "00500" "B" 123])
    /\ fourheat (self (obj i')) = Some (mkInfo "4heat device" None "4heat")
    /\ _initializing i' = false
    /\ busy (obj i') = false
    /\ (r = Booted /\ _status i' = Some 5%Z).
Proof.
  apply (initialize_on_info_status K0 [PyStr "E"]
           (always (Recv 1 "['I', 0, 'J000010000000000005', 'B005000000000000123']"))
           literal_eval_flat
           (mkInstance (mkWorld (init table0) 0 [] []) false None)
           [PyStr "I"] 1
           "['I', 0, 'J000010000000000005', 'B005000000000000123']"
           (mkData (PyStr "I")
                   [mkReading "00001" "J" 5; mkReading "00500" "B" 123]));
    try reflexivity; discriminate.
Defined.

Lemma initialize_on_error_status_witness :
  exists i',
    initialize K0 [PyStr "E"]
      (script [Recv 1 "['E', 0]"; Recv 2 "['I', 0, 'J000010000000000005']"])
      literal_eval_flat
      (mkInstance (mkWorld (init table0) 0 [] []) false None) false
    = (i', Booted)
    /\ initialized (self (obj i')) = false
    /\ sensors (self (obj i')) = None
    /\ _status i' = None
    /\ _initializing i' = false
    /\ trace (obj i')
       = [Ended (0 + 1 + 2); Began (0 + 1) [PyStr "E"]; Ended (0 + 1);
          Began 0 [PyStr "I"]] ++ [].
Proof.
  apply (initialize_on_error_status K0 [PyStr "E"]
           (script [Recv 1 "['E', 0]"; Recv 2 "['I', 0, 'J000010000000000005']"])
           literal_eval_flat
           (mkInstance (mkWorld (init table0) 0 [] []) false None)
           [PyStr "I"] 1 "['E', 0]" (mkData (PyStr "E") [])
           eq_refl eq_refl eq_refl eq_refl ltac:(discriminate) eq_refl
           2 "['I', 0, 'J000010000000000005']"
           (mkData (PyStr "I") [mkReading "00001" "J" 5]));
    try reflexivity; discriminate.
Defined.

Lemma initialize_on_unknown_status_witness :
  exists i',
    initialize K0 [PyStr "E"] (always (Recv 1 "['X', 0, 'J000010000000000005']"))
      literal_eval_flat
      (mkInstance (mkWorld (init table0) 0 [] []) false None) false
    = (i', BootRaise (Passed InvalidMessage))
    /\ _last_error (self (obj i')) = Some InvalidMessage
    /\ initialized (self (obj i')) = false
    /\ sensors (self (obj i')) = None
    /\ _initializing i' = false
    /\ busy (obj i') = false.
Proof.
  apply (initialize_on_unknown_status K0 [PyStr "E"]
           (always (Recv 1 "['X', 0, 'J000010000000000005']")) literal_eval_flat
           (mkInstance (mkWorld (init table0) 0 [] []) false None)
           [PyStr "I"] 1 "['X', 0, 'J000010000000000005']"
           (mkData (PyStr "X") [mkReading "00001" "J" 5]));
    try reflexivity; discriminate.
Defined.

Lemma initialize_on_failure_witness :
  initialize K0 [PyStr "E"] (always (SockRaise 10 "timed out")) literal_eval_flat
    (mkInstance (mkWorld (init table0) 0 [] []) false None) false
  = (mkInstance
       (after_failure K0
          (update_fourheat
             (with_self (set_initialized false) (mkWorld (init table0) 0 [] [])))
          [PyStr "I"] 10 (OSError "timed out"))
       false None,
     BootRaise (FourHeatError
                  (Some (DeviceConnectionError (Some (OSError "timed out"))))))
  /\ (exists cause,
         DeviceConnectionError (Some (OSError "timed out"))
         = DeviceConnectionError (Some cause))
  /\ _last_error
       (self (after_failure K0
                (update_fourheat
                   (with_self (set_initialized false)
                              (mkWorld (init table0) 0 [] [])))
                [PyStr "I"] 10 (OSError "timed out")))
     = Some (DeviceConnectionError (Some (OSError "timed out")))
  /\ initialized
       (self (after_failure K0
                (update_fourheat
                   (with_self (set_initialized false)
                              (mkWorld (init table0) 0 [] [])))
                [PyStr "I"] 10 (OSError "timed out")))
     = false
  /\ lazy_tasks
       (after_failure K0
          (update_fourheat
             (with_self (set_initialized false) (mkWorld (init table0) 0 [] [])))
          [PyStr "I"] 10 (OSError "timed out"))
     <> [].
Proof.
  apply (initialize_on_failure K0 [PyStr "E"] (always (SockRaise 10 "timed out"))
           literal_eval_flat
           (mkInstance (mkWorld (init table0) 0 [] []) false None)
           [PyStr "I"]);
    reflexivity.
Defined.

(** [create] hands back a device that is not initialized, and raises
    nothing, when the device answers with the status [RESULT_ERROR];
    its accessors then return [None]. *)
Example create_on_error_status :
  let r := create K0 [PyStr "E"]
             (script [Recv 1 "['E', 0]"; Recv 2 "['I', 0, 'J000010000000000005']"])
             literal_eval_flat table0 0 true in
  snd r = Booted
  /\ initialized (self (obj (fst r))) = false
  /\ status K0 (self (obj (fst r))) = Return None
  /\ model (self (obj (fst r))) = Return None.
Proof. repeat split. Qed.

(** On a good answer the device is initialized and reports its state. *)
Example create_on_info_status :
  let r := create K0 [PyStr "E"]
             (always (Recv 1 "['I', 0, 'J000010000000000005', 'B005000000000000123']"))
             literal_eval_flat table0 0 true in
  snd r = Booted
  /\ status K0 (self (obj (fst r))) = Return (Some "on")
  /\ model (self (obj (fst r))) = Return (Some "4heat device")
  /\ serial (self (obj (fst r))) = Return None
  /\ getattr (self (obj (fst r))) "00500" = Return (Some 123%Z).
Proof. repeat split. Qed.

Lemma accessors_of (d : FourHeatDevice) :
  fourheat d = Some (mkInfo "4heat device" None "4heat") ->
  serial d = Return None
  /\ model d = Return (if initialized d then Some "4heat device" else None)
  /\ manufacturer d = Return (if initialized d then Some "4heat" else None).
Proof.
  intros H. unfold serial, model, manufacturer. rewrite H.
  destruct (initialized d); cbn; repeat split.
Qed.

Section Accessors.

Variable K : Const.
Variable ERROR_QUERY : list pyval.
Variable net : nat -> list pyval -> sock_outcome.
Variable literal_eval : string -> option pyval.

Lemma else_clause_status (i : Instance) (w : World) :
  match else_clause K i w with
  | (i', Booted) =>
      obj i' = w
      /\ match _status i' with
         | Some v =>
             initialized (self w) = true
             /\ status K (self w)
                = Return (Some (if existsb (Z.eqb v) (STATES_OFF K)
                                then STATE_OFF else STATE_ON))
         | None => initialized (self w) = false /\ status K (self w) = Return None
         end
  | (i', _) => obj i' = w
  end.
Proof.
  unfold else_clause, status, getattr.
  destruct (initialized (self w)); cbn [negb].
  - destruct (sensors (self w)) as [m|]; [|reflexivity].
    destruct (dict_get (DEVICE_STATE_SENSOR K) m) as [e|].
    + cbn. repeat split.
    + destruct (dict_mem "device" m); reflexivity.
  - cbn. repeat split.
Qed.

Lemma settled_intro (async_init : bool) (i' : Instance) (r : boot_outcome) :
  fourheat (self (obj i')) = Some (mkInfo "4heat device" None "4heat") ->
  (r = Booted ->
   match _status i' with
   | Some v =>
       initialized (self (obj i')) = true /\ async_init = false
       /\ status K (self (obj i'))
          = Return (Some (if existsb (Z.eqb v) (STATES_OFF K)
                          then STATE_OFF else STATE_ON))
   | None => initialized (self (obj i')) = false
             /\ status K (self (obj i')) = Return None
   end) ->
  BootWords.settled K async_init i' r.
Proof.
  intros Hf Hs. unfold BootWords.settled. cbn zeta.
  destruct (accessors_of _ Hf) as (? & ? & ?). repeat split; auto.
Qed.

Lemma settled_else (async_init : bool) (i : Instance) (w : World) :
  fourheat (self w) = Some (mkInfo "4heat device" None "4heat") ->
  (initialized (self w) = true -> async_init = false) ->
  match else_clause K i w with
  | (i', r) => BootWords.settled K async_init i' r
  end.
Proof.
  intros Hf Ha. pose proof (else_clause_status i w) as Hs.
  destruct (else_clause K i w) as [i' r]. apply settled_intro.
  - destruct r; [destruct Hs as [-> _] | rewrite Hs | rewrite Hs]; exact Hf.
  - intros ->. destruct Hs as [-> Hs].
    destruct (_status i'); [destruct Hs as [Hi Hs]; auto | exact Hs].
Qed.

Lemma settled_except (async_init : bool) (i : Instance) (w : World) (e : exn) :
  fourheat (self w) = Some (mkInfo "4heat device" None "4heat") ->
  match except_boot i w e with
  | (i', r) => BootWords.settled K async_init i' r
  end.
Proof.
  intros Hf. unfold except_boot. apply settled_intro; [exact Hf | discriminate].
Qed.

(** X28.  What the accessors give after [initialize], however the call
    stands or ended.  [fourheat] is the dictionary of [update_fourheat];
    so [serial] is [None] always, and [model] and [manufacturer] are
    [4heat device] and [4heat] on an initialized device and [None] on
    any other: they raise nothing.  When the call returned, [_status] is
    set exactly on an initialized device, which a call with [async_init]
    never gives, and [status] is then [off] when that value is among
    [STATES_OFF] and [on] when it is not; on a device that is not
    initialized [status] is [None]. *)
Theorem accessors_after_initialize (i : Instance) (async_init : bool) :
  _initializing i = false ->
  match initialize K ERROR_QUERY net literal_eval i async_init with
  | (i', r) =>
      let d := self (obj i') in
      fourheat d = Some (mkInfo "4heat device" None "4heat")
      /\ serial d = Return None
      /\ model d = Return (if initialized d then Some "4heat device" else None)
      /\ manufacturer d = Return (if initialized d then Some "4heat" else None)
      /\ (r = Booted ->
          match _status i' with
          | Some v =>
              initialized d = true /\ async_init = false
              /\ status K d
                 = Return (Some (if existsb (Z.eqb v) (STATES_OFF K)
                                 then STATE_OFF else STATE_ON))
          | None => initialized d = false /\ status K d = Return None
          end)
  end.
Proof.
  intros Hg.
  change (match initialize K ERROR_QUERY net literal_eval i async_init with
          | (i', r) => BootWords.settled K async_init i' r
          end).
  unfold initialize. rewrite Hg. unfold initialize_try.
  cbn [obj _initializing _status].
  set (w0 := update_fourheat (with_self (set_initialized false) (obj i))).
  set (i1 := mkInstance (with_self (set_initialized false) (obj i)) true (_status i)).
  assert (H0 : fourheat (self w0) = Some (mkInfo "4heat device" None "4heat"))
    by reflexivity.
  assert (I0 : initialized (self w0) = false) by reflexivity.
  destruct async_init.
  - apply settled_else; [exact H0 | rewrite I0; discriminate].
  - pose proof (command_keeps K net literal_eval w0 INFO_COMMAND None) as Hk.
    destruct (async_send_command K net literal_eval w0 INFO_COMMAND None)
      as [w [c|e|]]; cbn [fst] in Hk; destruct Hk as (_ & _ & Hi & Hf & _);
      rewrite H0 in Hf; rewrite I0 in Hi.
    + destruct c as [result|]; [|now apply settled_except].
      destruct (pyval_eqb (d_result result) (PyStr (RESULT_ERROR K))).
      * pose proof (send_keeps K net literal_eval w ERROR_QUERY) as Hk2.
        destruct (send_and_receive K net literal_eval w ERROR_QUERY)
          as [w2 [x|e|]]; cbn [fst] in Hk2; destruct Hk2 as (_ & _ & Hi2 & Hf2 & _);
          rewrite Hf in Hf2; rewrite Hi in Hi2.
        -- apply settled_else; [exact Hf2 | rewrite Hi2; discriminate].
        -- now apply settled_except.
        -- apply settled_intro; [exact Hf2 | discriminate].
      * destruct (pyval_eqb (d_result result) (PyStr (RESULT_INFO K))
                  || pyval_eqb (d_result result) (PyStr (RESULT_OK K))).
        -- apply settled_else; [exact Hf | reflexivity].
        -- now apply settled_except.
    + now apply settled_except.
    + apply settled_intro; [exact Hf | discriminate].
Qed.

End Accessors.

Lemma accessors_after_initialize_witness :
  match
    initialize K0 [PyStr "E"]
      (always (Recv 1 "['I', 0, 'J000010000000000000', 'B005000000000000123']"))
      literal_eval_flat
      (mkInstance (mkWorld (init table0) 0 [] []) false None) false
  with
  | (i', r) =>
      let d := self (obj i') in
      fourheat d = Some (mkInfo "4heat device" None "4heat")
      /\ serial d = Return None
      /\ model d = Return (if initialized d then Some "4heat device" else None)
      /\ manufacturer d = Return (if initialized d then Some "4heat" else None)
      /\ (r = Booted ->
          match _status i' with
          | Some v =>
              initialized d = true /\ false = false
              /\ status K0 d
                 = Return (Some (if existsb (Z.eqb v) (STATES_OFF K0)
                                 then STATE_OFF else STATE_ON))
          | None => initialized d = false /\ status K0 d = Return None
          end)
  end.
Proof.
  apply (accessors_after_initialize K0 [PyStr "E"]
           (always (Recv 1 "['I', 0, 'J000010000000000000', 'B005000000000000123']"))
           literal_eval_flat
           (mkInstance (mkWorld (init table0) 0 [] []) false None) false).
  reflexivity.
Defined.

(** A device that reports the state 0, which is among [STATES_OFF] *)
Example status_off_after_initialize :
  let r := initialize K0 [PyStr "E"]
             (always (Recv 1 "['I', 0, 'J000010000000000000', 'B005000000000000123']"))
             literal_eval_flat
             (mkInstance (mkWorld (init table0) 0 [] []) false None) false in
  snd r = Booted
  /\ _status (fst r) = Some 0%Z
  /\ status K0 (self (obj (fst r))) = Return (Some "off").
Proof. repeat split. Qed.

End BootFacts.

(** ** The refresh of the coordinator *)

Module CoordinatorFacts.

Import Coordinator CoordinatorWords CoordinatorSample.
Local Open Scope nat_scope.
Local Open Scope list_scope.

Section WithDevice.

Variable E : Type.
Variable RETRY_UPDATE : Z.
Variable RETRY_UPDATE_SLEEP : nat.
Variable device : nat -> attempt E.

Local Abbreviation retry := (retry E RETRY_UPDATE RETRY_UPDATE_SLEEP device).
Local Abbreviation update := (_async_update_data E RETRY_UPDATE RETRY_UPDATE_SLEEP device).
Local Abbreviation budget := (budget E RETRY_UPDATE).
Local Abbreviation fuel_for := (fuel_for E RETRY_UPDATE).

(** The loop while the last update counts as a success: every failure
    is followed by a sleep and one more round. *)
Lemma retry_absorbs (n : nat) :
  forall (c : Coord E) (fuel : nat),
    budget c = n -> n < fuel ->
    last_update_success c = true ->
    never_crashes device ->
    exists c',
      retry fuel c = Some (c', Returned)
      /\ (RETRY_UPDATE <= _retry_update c')%Z
      /\ _update_is_running c' = _update_is_running c
      /\ last_update_success c' = true
      /\ calls c' = calls c + Nat.min n (S (failures device (calls c) n))
      /\ slept c' = slept c + failures device (calls c) n * RETRY_UPDATE_SLEEP
      /\ last_exception c'
         = match failures device (calls c) n with
           | O => last_exception c
           | S k => error_of (device (calls c + k))
           end.
Proof.
  induction n as [|n IH]; intros c fuel Hb Hf Hs Hd;
    (destruct fuel as [|fuel]; [lia|]); cbn [Coordinator.retry].
  - assert (Hlt : (_retry_update c <? RETRY_UPDATE)%Z = false).
    { unfold Coordinator.budget in Hb. apply Z.ltb_ge. lia. }
    rewrite Hlt. exists c. cbn [failures]. rewrite Nat.add_0_r.
    apply Z.ltb_ge in Hlt. repeat split; auto; lia.
  - assert (Hlt : (_retry_update c <? RETRY_UPDATE)%Z = true).
    { unfold Coordinator.budget in Hb. apply Z.ltb_lt. lia. }
    rewrite Hlt. cbn [failures].
    destruct (device (calls c)) as [|error|e] eqn:Hd0.
    + destruct fuel as [|fuel]; [lia|]. cbn [Coordinator.retry set_retry _retry_update].
      rewrite Z.ltb_irrefl. eexists. split; [reflexivity|].
      cbn. repeat split; auto; lia.
    + cbn [set_exception set_retry count_call last_update_success].
      rewrite Hs.
      match goal with |- context [retry fuel ?c1] => set (c1' := c1) end.
      destruct (IH c1' fuel) as (c' & Hr & Hge & Hrun & Hsucc & Hcalls & Hslept & Hexc).
      * unfold Coordinator.budget in *. subst c1'. cbn. lia.
      * lia.
      * exact Hs.
      * exact Hd.
      * exists c'. split; [exact Hr|]. subst c1'. cbn in *.
        repeat split; auto; try lia.
        rewrite Hexc. destruct (failures device (S (calls c)) n) as [|k] eqn:Hk.
        -- rewrite Nat.add_0_r. now rewrite Hd0.
        -- f_equal. f_equal. lia.
    + elim (Hd _ _ Hd0).
Qed.

(** The loop in general: it ends within its rounds, and by a [raise]
    only on a failed call. *)
Lemma retry_ends (n : nat) :
  forall (c : Coord E) (fuel : nat),
    budget c = n -> n < fuel ->
    exists c' r,
      retry fuel c = Some (c', r)
      /\ _update_is_running c' = _update_is_running c
      /\ calls c <= calls c' <= calls c + n.
Proof.
  induction n as [|n IH]; intros c fuel Hb Hf;
    (destruct fuel as [|fuel]; [lia|]); cbn [Coordinator.retry].
  - assert (Hlt : (_retry_update c <? RETRY_UPDATE)%Z = false).
    { unfold Coordinator.budget in Hb. apply Z.ltb_ge. lia. }
    rewrite Hlt. exists c, Returned. repeat split; auto; lia.
  - assert (Hlt : (_retry_update c <? RETRY_UPDATE)%Z = true).
    { unfold Coordinator.budget in Hb. apply Z.ltb_lt. lia. }
    rewrite Hlt.
    destruct (device (calls c)) as [|error|e] eqn:Hd0.
    + destruct fuel as [|fuel]; [lia|]. cbn [Coordinator.retry set_retry _retry_update].
      rewrite Z.ltb_irrefl. eexists _, _. split; [reflexivity|].
      cbn. repeat split; auto; lia.
    + cbn [set_exception set_retry count_call last_update_success].
      destruct (last_update_success c).
      * match goal with |- context [retry fuel ?c1] => set (c1' := c1) end.
        destruct (IH c1' fuel) as (c' & r & Hr & Hrun & Hcalls).
        -- unfold Coordinator.budget in *. subst c1'. cbn. lia.
        -- lia.
        -- exists c', r. split; [exact Hr|]. subst c1'. cbn in *.
           repeat split; auto; lia.
      * eexists _, _. split; [reflexivity|]. cbn. repeat split; auto; lia.
    + eexists _, _. split; [reflexivity|]. cbn. repeat split; auto; lia.
Qed.

(** X22.  While the last update counts as a success, a refresh of a
    coordinator that is not refreshing already, over a device that
    raises nothing but [FourHeatError]s, returns normally whatever the
    device does, also when every attempt failed: it does not raise
    [UpdateFailed].  It calls the device until the first success, and at
    most as often as [RETRY_UPDATE] leaves rounds; it sleeps
    [RETRY_UPDATE_SLEEP] after every failure, the last one too; it keeps
    the error of the last failure in [last_exception]; and it leaves
    [_retry_update] at 0 and the guard [_update_is_running] cleared. *)
Theorem failures_are_absorbed (c : Coord E) (fuel : nat) :
  _update_is_running c = false ->
  last_update_success c = true ->
  never_crashes device ->
  fuel_for c <= fuel ->
  exists c',
    update fuel c = Some (c', Returned)
    /\ _retry_update c' = 0%Z
    /\ _update_is_running c' = false
    /\ last_update_success c' = true
    /\ calls c' = calls c + Nat.min (budget c) (S (failures device (calls c) (budget c)))
    /\ slept c' = slept c + failures device (calls c) (budget c) * RETRY_UPDATE_SLEEP
    /\ last_exception c'
       = match failures device (calls c) (budget c) with
         | O => last_exception c
         | S k => error_of (device (calls c + k))
         end.
Proof.
  intros Hrun Hs Hd Hf. unfold Coordinator._async_update_data. rewrite Hrun.
  destruct (retry_absorbs (budget c) (set_running E true c) fuel)
    as (c' & Hr & _ & _ & Hsucc & Hcalls & Hslept & Hexc);
    [reflexivity | exact Hf | exact Hs | exact Hd |].
  rewrite Hr. eexists. split; [reflexivity|]. cbn in *.
  repeat split; auto.
Qed.

(** X23.  A refresh of a coordinator that is not refreshing already
    ends, and calls the device at most as often as [RETRY_UPDATE] leaves
    rounds.  When it returns, the guard [_update_is_running] is cleared
    and [_retry_update] is 0.  When it raises, [UpdateFailed] or an
    exception of the device that it does not catch, the guard stays set:
    every later refresh returns at once, calls no device and changes
    nothing. *)
Theorem flag_cleared_only_on_return (c : Coord E) (fuel : nat) :
  _update_is_running c = false ->
  fuel_for c <= fuel ->
  exists c' r,
    update fuel c = Some (c', r)
    /\ calls c <= calls c' <= calls c + budget c
    /\ match r with
       | Returned => _update_is_running c' = false /\ _retry_update c' = 0%Z
       | Raised _ =>
           _update_is_running c' = true
           /\ forall fuel', update fuel' c' = Some (c', Returned)
       end.
Proof.
  intros Hrun Hf. unfold Coordinator._async_update_data at 1. rewrite Hrun.
  destruct (retry_ends (budget c) (set_running E true c) fuel)
    as (c' & r & Hr & Hrun' & Hcalls); [reflexivity | exact Hf |].
  rewrite Hr. cbn in Hrun', Hcalls. destruct r as [|r].
  - eexists _, _. split; [reflexivity|]. cbn. repeat split; auto; lia.
  - exists c', (Raised r). split; [reflexivity|]. split; [exact Hcalls|].
    split; [exact Hrun'|]. intros fuel'.
    unfold Coordinator._async_update_data. now rewrite Hrun'.
Qed.

(** X24.  When the last update does not count as a success, a refresh
    with a round left makes one attempt and does not sleep: it returns
    if the call of the device returned, raises [UpdateFailed] from the
    error if the call raised a [FourHeatError], which it keeps in
    [last_exception], and lets any other exception through. *)
Theorem no_retry_without_success (c : Coord E) (fuel : nat) :
  _update_is_running c = false ->
  last_update_success c = false ->
  (_retry_update c < RETRY_UPDATE)%Z ->
  2 <= fuel ->
  exists c' r,
    update fuel c = Some (c', r)
    /\ calls c' = S (calls c)
    /\ slept c' = slept c
    /\ last_update_success c' = false
    /\ r = match device (calls c) with
           | Updated => Returned
           | Failed error => Raised (UpdateFailed error)
           | Crashed e => Raised (Uncaught e)
           end
    /\ last_exception c'
       = match device (calls c) with
         | Failed error => Some error
         | _ => last_exception c
         end.
Proof.
  intros Hrun Hs Hlt Hf. unfold Coordinator._async_update_data. rewrite Hrun.
  destruct fuel as [|[|fuel]]; try lia.
  cbn [Coordinator.retry set_running _retry_update calls].
  apply Z.ltb_lt in Hlt. rewrite Hlt.
  destruct (device (calls c)) as [|error|e].
  - cbn [set_retry count_call _retry_update]. rewrite Z.ltb_irrefl.
    eexists _, _. split; [reflexivity|]. cbn. repeat split; auto.
  - cbn. rewrite Hs.
    eexists _, _. split; [reflexivity|]. cbn. repeat split; auto.
  - eexists _, _. split; [reflexivity|]. cbn. repeat split; auto.
Qed.

End WithDevice.

Lemma failures_are_absorbed_witness :
  exists c',
    _async_update_data string 3 5 failing 4 (coord0 true) = Some (c', Returned)
    /\ _retry_update c' = 0%Z
    /\ _update_is_running c' = false
    /\ last_update_success c' = true
    /\ calls c' = 0 + Nat.min 3 (S 3)
    /\ slept c' = 0 + 3 * 5
    /\ last_exception c' = Some "timed out".
Proof.
  apply (failures_are_absorbed string 3 5 failing (coord0 true) 4);
    [reflexivity | reflexivity | intros n e; discriminate | vm_compute; lia].
Defined.

Lemma flag_cleared_only_on_return_witness :
  exists c' r,
    _async_update_data string 3 5 failing 4 (coord0 false) = Some (c', r)
    /\ calls (coord0 false) <= calls c' <= calls (coord0 false) + 3
    /\ match r with
       | Returned => _update_is_running c' = false /\ _retry_update c' = 0%Z
       | Raised _ =>
           _update_is_running c' = true
           /\ forall fuel',
               _async_update_data string 3 5 failing fuel' c'
               = Some (c', Returned)
       end.
Proof.
  apply (flag_cleared_only_on_return string 3 5 failing (coord0 false) 4);
    [reflexivity | vm_compute; lia].
Defined.

Lemma no_retry_without_success_witness :
  exists c' r,
    _async_update_data string 3 5 failing 2 (coord0 false) = Some (c', r)
    /\ calls c' = 1
    /\ slept c' = 0
    /\ last_update_success c' = false
    /\ r = Raised (UpdateFailed "timed out")
    /\ last_exception c' = Some "timed out".
Proof.
  apply (no_retry_without_success string 3 5 failing (coord0 false) 2);
    [reflexivity | reflexivity | reflexivity | lia].
Defined.

(** Two failures, then a success: three calls, two sleeps, and the
    second failure is what [last_exception] keeps. *)
Example flaky_refresh :
  _async_update_data string 3 5 flaky 4 (coord0 true)
  = Some (mkCoord 0 false true (Some "timed out") 3 10, Returned).
Proof. reflexivity. Qed.

(** After [UpdateFailed] the coordinator stays behind its guard, also
    when the device has recovered. *)
Example stuck_after_update_failed :
  match _async_update_data string 3 5 flaky 4 (coord0 false) with
  | Some (c1, r) =>
      r = Raised (UpdateFailed "timed out")
      /\ _async_update_data string 3 5 (fun _ => Updated) 4 c1
         = Some (c1, Returned)
      /\ calls c1 = 1
  | None => False
  end.
Proof. repeat split. Qed.

End CoordinatorFacts.

(** ** The platforms of the coordinator *)

Module PlatformFacts.

Import Py Platforms PlatformWords CacheFacts CoordinatorSample.
Local Open Scope list_scope.

Lemma dict_set_new {V : Type} (k : string) (v : V) (m : dict V) :
  dict_mem k m = false -> dict_set k v m = m ++ [(k, v)].
Proof.
  unfold dict_mem.
  induction m as [|[k0 v0] m IH]; cbn [dict_set dict_get app]; [reflexivity|].
  destruct (String.eqb k k0); [discriminate|]. intros H. now rewrite IH.
Qed.

Lemma dict_get_In {V : Type} (k : string) (v : V) (m : dict V) :
  dict_get k m = Some v -> In (k, v) m.
Proof.
  induction m as [|[k0 v0] m IH]; cbn [dict_get In]; [discriminate|].
  destruct (String.eqb_spec k k0) as [-> | Hne].
  - intros [= ->]. now left.
  - intros H. right. now apply IH.
Qed.

Lemma grown_app {A : Type} (o : option (list A)) (a b : list A) :
  grown (grown o a) b = grown o (a ++ b).
Proof.
  destruct a as [|x a]; [reflexivity|]. destruct b as [|y b].
  - now rewrite app_nil_r.
  - cbn [grown app]. f_equal. now rewrite <- app_assoc.
Qed.

Section WithTable.

Variable V : Type.
Variable truthy : V -> bool.
Variable str : V -> string.
Variable SENSORS : dict (list (dict V)).

Local Abbreviation describe := (describe V truthy).
Local Abbreviation for_sensor := (for_sensor V truthy str).
Local Abbreviation for_attr := (for_attr V truthy str SENSORS).
Local Abbreviation under := (under V truthy str).
Local Abbreviation pairs := (pairs V SENSORS).

Lemma append_to_lookup (p q : string) (d : description V)
      (m : dict (list (description V))) :
  dict_get p (append_to V q d m)
  = grown (dict_get p m) (if String.eqb p q then [d] else []).
Proof.
  unfold append_to. destruct (String.eqb_spec p q) as [-> | Hne].
  - rewrite dict_get_set. cbn [grown]. f_equal. f_equal.
    unfold dict_mem. destruct (dict_get q m) eqn:Hq; [now rewrite Hq|].
    now rewrite dict_get_set.
  - rewrite dict_get_set_other by exact Hne. cbn [grown].
    destruct (dict_mem q m); [reflexivity|].
    now apply dict_get_set_other.
Qed.

Lemma under_app (p : string) (a b : list (string * dict V)) :
  under p (a ++ b) = under p a ++ under p b.
Proof. unfold PlatformWords.under. now rewrite filter_app, map_app. Qed.

Lemma for_sensor_groups (attr : string) (confs : list (dict V)) :
  forall st : locals V,
    forallb (dict_mem "platform") confs = true ->
    exists st',
      for_sensor attr (map ADict confs) st = inr st'
      /\ forall p,
          dict_get p (fst st')
          = grown (dict_get p (fst st)) (under p (map (pair attr) confs)).
Proof.
  induction confs as [|sensor confs IH]; intros st Hall.
  - exists st. split; [reflexivity|]. intros p. reflexivity.
  - cbn [forallb] in Hall. apply andb_true_iff in Hall as [Hp Hall].
    cbn [map Platforms.for_sensor]. unfold dict_mem in Hp.
    destruct (dict_get "platform" sensor) as [v|] eqn:Hv; [|discriminate].
    destruct (IH (append_to V (str v) (describe attr sensor) (fst st), Some (str v)) Hall)
      as (st' & Hrun & Hget).
    exists st'. split; [exact Hrun|]. intros p. rewrite Hget. cbn [fst].
    rewrite append_to_lookup, grown_app. f_equal.
    change ((attr, sensor) :: map (pair attr) confs)
      with ([(attr, sensor)] ++ map (pair attr) confs).
    rewrite under_app. f_equal.
    unfold PlatformWords.under. cbn [filter map fst snd]. rewrite Hv.
    now destruct (String.eqb p (str v)).
Qed.

Lemma for_attr_groups (attrs : list string) :
  forall st : locals V,
    well_configured V SENSORS attrs = true ->
    exists st',
      for_attr attrs st = inr st'
      /\ forall p,
          dict_get p (fst st')
          = grown (dict_get p (fst st)) (under p (pairs attrs)).
Proof.
  induction attrs as [|attr attrs IH]; intros st Hall.
  - exists st. split; [reflexivity|]. intros p. reflexivity.
  - cbn [well_configured forallb] in Hall.
    apply andb_true_iff in Hall as [Ha Hall].
    cbn [Platforms.for_attr PlatformWords.pairs flat_map]. unfold sensor_conf.
    destruct (dict_get attr SENSORS) as [confs|] eqn:Hc; [|discriminate].
    destruct (for_sensor_groups attr confs st Ha) as (st1 & Hrun1 & Hget1).
    rewrite Hrun1.
    destruct (IH st1 Hall) as (st' & Hrun & Hget).
    exists st'. split; [exact Hrun|]. intros p.
    rewrite Hget, Hget1, grown_app. now rewrite under_app.
Qed.

Lemma for_sensor_with_platforms (attr : string) (confs : list (dict V)) :
  forall st : locals V,
    forallb (dict_mem "platform") confs = true ->
    exists st', for_sensor attr (map ADict confs) st = inr st'.
Proof.
  intros st H. destruct (for_sensor_groups attr confs st H) as (st' & Hr & _).
  now exists st'.
Qed.

Lemma all_have_platform_get (attr : string) (confs : list (dict V)) :
  all_have_platform V SENSORS = true ->
  dict_get attr SENSORS = Some confs ->
  forallb (dict_mem "platform") confs = true.
Proof.
  unfold all_have_platform. rewrite forallb_forall. intros H Hg.
  exact (H _ (dict_get_In _ _ _ Hg)).
Qed.

Lemma for_attr_unknown (attrs : list string) :
  forall st : locals V,
    some_unknown V SENSORS attrs = true ->
    exists e,
      for_attr attrs st = inl e
      /\ (all_have_platform V SENSORS = true -> e = StrIndexTypeError).
Proof.
  induction attrs as [|attr attrs IH]; intros st Hun; [discriminate|].
  cbn [some_unknown existsb] in Hun. cbn [Platforms.for_attr].
  unfold sensor_conf, dict_mem in *.
  destruct (dict_get attr SENSORS) as [confs|] eqn:Hc.
  - cbn [negb orb] in Hun.
    destruct (for_sensor attr (map ADict confs) st) as [e|st1] eqn:Hrun.
    + exists e. split; [reflexivity|]. intros Hall.
      destruct (for_sensor_with_platforms attr confs st
                  (all_have_platform_get _ _ Hall Hc)) as (st' & Hr).
      congruence.
    + exact (IH st1 Hun).
  - exists StrIndexTypeError. split; reflexivity.
Qed.

(** X25.  When some sensor of the coordinator is not in [SENSORS],
    [_build_platforms] raises and returns no platforms: the dictionary
    it makes for such a sensor is iterated by its keys, and the first of
    them is indexed with [platform].  The error is that [TypeError]
    whenever every configuration in [SENSORS] has the key [platform]. *)
Theorem unknown_sensor_breaks_build {S : Type} (sensors : dict S) :
  some_unknown V SENSORS (dict_keys sensors) = true ->
  exists e,
    _build_platforms V truthy str SENSORS sensors = inl e
    /\ (all_have_platform V SENSORS = true -> e = StrIndexTypeError).
Proof.
  intros Hun. unfold _build_platforms.
  destruct (for_attr_unknown (dict_keys sensors) ([], None) Hun) as (e & Hr & He).
  rewrite Hr. now exists e.
Qed.

(** X26.  When every sensor of the coordinator is in [SENSORS] and
    each of its configurations has the key [platform],
    [_build_platforms] returns, and under a platform it has the
    descriptions of the configurations of that platform, one for each,
    in the order of the sensors and of their configurations; a platform
    of no configuration is not a key. *)
Theorem platforms_group_descriptions {S : Type} (sensors : dict S) :
  well_configured V SENSORS (dict_keys sensors) = true ->
  exists platforms,
    _build_platforms V truthy str SENSORS sensors = inr platforms
    /\ forall p,
        dict_get p platforms
        = match under p (pairs (dict_keys sensors)) with
          | [] => None
          | l => Some l
          end.
Proof.
  intros Hall. unfold _build_platforms.
  destruct (for_attr_groups (dict_keys sensors) ([], None) Hall) as (st' & Hr & Hget).
  rewrite Hr. exists (fst st'). split; [reflexivity|]. intros p.
  rewrite Hget. cbn [fst dict_get grown].
  now destruct (under p (pairs (dict_keys sensors))).
Qed.

Lemma keys_of_fold (sensor : dict V) :
  forall acc : dict V,
    NoDup (dict_keys acc ++ dict_keys sensor) ->
    fold_left
      (fun keys kv =>
         if String.eqb (fst kv) "platform" then keys
         else if truthy (snd kv) then dict_set (fst kv) (snd kv) keys
         else keys)
      sensor acc
    = acc ++ filter (kept V truthy) sensor.
Proof.
  induction sensor as [|[k v] sensor IH]; intros acc Hnd;
    cbn [fold_left filter fst snd].
  - now rewrite app_nil_r.
  - unfold dict_keys in Hnd. cbn [map fst] in Hnd.
    pose proof (NoDup_remove _ _ _ Hnd) as [Hnd' Hnin].
    change (kept V truthy (k, v))
      with (negb (String.eqb k "platform") && truthy v).
    destruct (String.eqb k "platform"); cbn [negb andb];
      [now apply IH|].
    destruct (truthy v); [|now apply IH].
    rewrite dict_set_new.
    + rewrite IH; [now rewrite <- app_assoc|].
      unfold dict_keys. rewrite map_app, <- app_assoc. exact Hnd.
    + destruct (dict_mem k acc) eqn:Hm; [|reflexivity].
      apply dict_mem_keys in Hm. elim Hnin. apply in_or_app. now left.
Qed.

(** X27.  The description of a configuration keeps, in their order,
    the entries other than [platform] whose value is true, under the
    name of the sensor; with no such entry it is the empty dictionary,
    which goes to the list of the platform all the same. *)
Theorem description_keeps_truthy_entries (attr : string) (sensor : dict V) :
  NoDup (dict_keys sensor) ->
  keys_of V truthy sensor = filter (kept V truthy) sensor
  /\ describe attr sensor
     = match filter (kept V truthy) sensor with
       | [] => []
       | keys => [(attr, keys)]
       end.
Proof.
  intros Hnd.
  assert (Hk : keys_of V truthy sensor = filter (kept V truthy) sensor).
  { unfold keys_of. now rewrite keys_of_fold. }
  split; [exact Hk|]. unfold Platforms.describe. rewrite Hk.
  now destruct (filter (kept V truthy) sensor).
Qed.

End WithTable.

Lemma unknown_sensor_breaks_build_witness :
  exists e,
    _build_platforms string truthy0 str0 SENSORS0
      [("30001", tt); ("39999", tt); ("30002", tt)]
    = inl e
    /\ (all_have_platform string SENSORS0 = true -> e = StrIndexTypeError).
Proof.
  apply (unknown_sensor_breaks_build string truthy0 str0 SENSORS0
           [("30001", tt); ("39999", tt); ("30002", tt)]);
    reflexivity.
Defined.

Lemma platforms_group_descriptions_witness :
  exists platforms,
    _build_platforms string truthy0 str0 SENSORS0 [("30001", tt); ("30002", tt)]
    = inr platforms
    /\ forall p,
        dict_get p platforms
        = match
            under string truthy0 str0 p
                  (pairs string SENSORS0 (dict_keys [("30001", tt); ("30002", tt)]))
          with
          | [] => None
          | l => Some l
          end.
Proof.
  apply (platforms_group_descriptions string truthy0 str0 SENSORS0
           [("30001", tt); ("30002", tt)]);
    reflexivity.
Defined.

Lemma description_keeps_truthy_entries_witness :
  keys_of string truthy0
          [("platform", "sensor"); ("name", "Room"); ("unit", EmptyString)]
  = [("name", "Room")]
  /\ describe string truthy0 "30001"
              [("platform", "sensor"); ("name", "Room"); ("unit", EmptyString)]
     = [("30001", [("name", "Room")])].
Proof.
  apply (description_keeps_truthy_entries string truthy0 "30001"
           [("platform", "sensor"); ("name", "Room"); ("unit", EmptyString)]).
  repeat constructor; cbn; intuition discriminate.
Defined.

(** The platforms of two known sensors *)
Example platforms_of_two_sensors :
  _build_platforms string truthy0 str0 SENSORS0 [("30001", tt); ("30002", tt)]
  = inr [("sensor", [[("30001", [("name", "Room")])];
                     [("30002", [("name", "Water")])]]);
         ("number", [[("30001", [("name", "Room set")])]])].
Proof. reflexivity. Qed.

(** A configuration without the key [platform] goes to the platform of
    the configuration before it, here the [number] of another sensor;
    when it comes first, [platform] is not bound. *)
Example platform_left_from_before :
  _build_platforms string truthy0 str0 SENSORS1 [("30001", tt); ("30003", tt)]
  = inr [("sensor", [[("30001", [("name", "Room")])]]);
         ("number", [[("30001", [("name", "Room set")])];
                     [("30003", [("name", "Fan")])]])]
  /\ _build_platforms string truthy0 str0 SENSORS1 [("30003", tt); ("30001", tt)]
     = inl UnboundLocalError.
Proof. split; reflexivity. Qed.

End PlatformFacts.
